(** * Alagad Depot: donation matching, distance estimation and status timeline

    A shallow embedding of the matching engine of the API module
    ([findMatchesForRecipient], [findRecipientsForDonation],
    [fetchDonationsByLocationScope], [fetchDonationById],
    [calculateDistance]), of the mocked scraper it reads from
    ([webScraper.ts]) and of the status timeline of the donation tracker
    ([generateStatusTimeline]).

    Numbers.  In the scoring rules a JavaScript [number] is read as a
    real number: arithmetic is exact, and [Math.sin], [Math.cos],
    [Math.sqrt] and [Math.atan2] are the functions they approximate.  A
    value that is absent or is not a number ([undefined], [NaN], an
    invalid [Date], the square root of a negative number) is [None].
    Scores are sums of integers and of results of [Math.round], so they
    live in [Z]; time values are integer milliseconds since the epoch, in
    [Z].  The doubles of the runtime differ from the reals by rounding
    errors, which can decide a [Math.round] at a tie or a comparison at
    equality.  Where the rounding decides the claim, in the distance
    estimator itself, the function is also given as the doubles compute
    it ([Double.calculateDistance]).

    Effects.  The functions of the API read the scraper's cache, the
    ["userDonations"] item of local storage and the clock, and may throw;
    they are computations over a [World], with [try_catch] for the
    [try]/[catch] blocks of the source. *)

From Stdlib Require Import Reals Lra Lia ZArith List Bool String Ascii.
From Stdlib Require Import Sorted Permutation DecimalString Floats.
Import ListNotations.

Local Open Scope string_scope.
Local Open Scope list_scope.
Local Open Scope Z_scope.

(** * Part I: the embedding *)

(** ** The numeric runtime: [Math] *)

Module Math.

Local Open Scope R_scope.

(** [Math.round x]: the integer nearest to [x], a tie going up. *)
Definition round (x : R) : Z := Zfloor (x + / 2).

(** [Math.sqrt x]: not a number for a negative [x]. *)
Definition sqrt (x : R) : option R :=
  if Rle_dec 0 x then Some (R_sqrt.sqrt x) else None.

(** [Math.atan2 y x]: the angle of the point [(x, y)], in (-PI, PI]. *)
Definition atan2 (y x : R) : R :=
  if Rlt_dec 0 x then atan (y / x)
  else if Rlt_dec x 0 then
    if Rle_dec 0 y then atan (y / x) + PI else atan (y / x) - PI
  else if Rlt_dec 0 y then PI / 2
  else if Rlt_dec y 0 then - (PI / 2)
  else 0.

End Math.

(** Truthiness of an optional number, as tested by [x && ...] and
    [x || d]: [undefined], [NaN] and [0] are falsy. *)
Definition truthy (x : option R) : option R :=
  match x with
  | Some v => if Req_dec_T v 0 then None else Some v
  | None => None
  end.

(** [String(n)] for an integer [n], as a template literal prints it. *)
Definition String_of_Z (n : Z) : string := NilZero.string_of_int (Z.to_int n).

(** [Array.prototype.includes] on an array of strings. *)
Definition includes (l : list string) (x : string) : bool :=
  existsb (String.eqb x) l.

(** [Array.prototype.sort(compareFn)].  The sort is stable, so for a
    comparison function that orders its arguments consistently the result
    is the one stable ordering; it is computed here by insertion, an
    element going ahead of the first one it does not have to follow. *)
Section ArraySort.

Context {A : Type} (compareFn : A -> A -> Z).

Fixpoint Array_insert (x : A) (l : list A) : list A :=
  match l with
  | [] => [x]
  | y :: l' =>
      if compareFn x y <=? 0 then x :: y :: l' else y :: Array_insert x l'
  end.

Definition Array_sort (l : list A) : list A :=
  fold_right Array_insert [] l.

End ArraySort.

(** ** Distance estimator ([calculateDistance], [deg2rad]), over the reals *)

Section Distance.

Local Open Scope R_scope.

Definition deg2rad (deg : R) : R := deg * (PI / 180).

(** The distance in km, [None] when it is not a number. *)
Definition calculateDistance (lat1 lon1 lat2 lon2 : R) : option R :=
  let R := 6371 in
  let dLat := deg2rad (lat2 - lat1) in
  let dLon := deg2rad (lon2 - lon1) in
  let a :=
    sin (dLat / 2) * sin (dLat / 2) +
    cos (deg2rad lat1) * cos (deg2rad lat2) *
      sin (dLon / 2) * sin (dLon / 2) in
  match Math.sqrt a, Math.sqrt (1 - a) with
  | Some sqrt_a, Some sqrt_1_a =>
      let c := 2 * Math.atan2 sqrt_a sqrt_1_a in
      let distance := R * c in
      Some distance
  | _, _ => None
  end.

End Distance.

(** ** The distance estimator in double precision

    [calculateDistance] as the runtime evaluates it: the numbers are
    IEEE 754 binary64 values, the arithmetic and [Math.sqrt] are the
    correctly rounded operations, and [Math.sin], [Math.cos] and
    [Math.atan2], which a runtime is free to approximate as it sees fit,
    are parameters. *)

Module Double.

Local Open Scope float_scope.

(** [Math.PI]: 3.141592653589793. *)
Definition Math_PI : float := 0x1.921fb54442d18p+1.

Section Runtime.

Variables Math_sin Math_cos : float -> float.
Variable Math_atan2 : float -> float -> float.

Definition deg2rad (deg : float) : float := deg * (Math_PI / 180).

Definition calculateDistance (lat1 lon1 lat2 lon2 : float) : float :=
  let R := 6371 in
  let dLat := deg2rad (lat2 - lat1) in
  let dLon := deg2rad (lon2 - lon1) in
  let a :=
    Math_sin (dLat / 2) * Math_sin (dLat / 2) +
    Math_cos (deg2rad lat1) * Math_cos (deg2rad lat2) *
      Math_sin (dLon / 2) * Math_sin (dLon / 2) in
  let c := 2 * Math_atan2 (sqrt a) (sqrt (1 - a)) in
  let distance := R * c in
  distance.

End Runtime.

End Double.

(** ** Data model *)

Module Status.
(** [ScrapedDonation.status] *)
Inductive t : Set := active | completed | urgent.

Definition eqb (a b : t) : bool :=
  match a, b with
  | active, active | completed, completed | urgent, urgent => true
  | _, _ => false
  end.
End Status.

Module Urgency.
(** [UserNeedsPreferences.urgency] *)
Inductive t : Set := high | medium | low.

Definition eqb (a b : t) : bool :=
  match a, b with
  | high, high | medium, medium | low, low => true
  | _, _ => false
  end.
End Urgency.

Module DonationData.
(** [ScrapedDonation] (exported as [DonationData]), with the optional
    coordinates a user donation carries.  The fields the engine never
    reads (description, contact, links, image) are left out. *)
Record t : Type := mk {
  id : string;
  title : string;
  category : string;
  source : string;
  organization : string;
  date : string;
  status : Status.t;
  latitude : option R;
  longitude : option R
}.

(** The same donation listed under another date. *)
Definition with_date (d : t) (date' : string) : t :=
  mk (id d) (title d) (category d) (source d) (organization d) date'
    (status d) (latitude d) (longitude d).

(** The same donation with other coordinates. *)
Definition with_coordinates (d : t) (lat lon : option R) : t :=
  mk (id d) (title d) (category d) (source d) (organization d) (date d)
    (status d) lat lon.
End DonationData.

Module Location.
Record t : Type := mk { latitude : R; longitude : R }.
End Location.

Module UserNeedsPreferences.
Record t : Type := mk {
  userId : string;
  categories : list string;
  locationScope : string;
  location : option Location.t;
  urgency : option Urgency.t;
  maxDistance : option R
}.
End UserNeedsPreferences.

Module MatchResult.
Record t : Type := mk {
  donationId : string;
  recipientId : string;
  score : Z;
  matchReason : list string
}.
End MatchResult.

(** ** Matching engine: the scoring rules *)

(** The running [score] and [matchReasons] of one candidate. *)
Definition Tally : Type := (Z * list string)%type.

(** [score += points; matchReasons.push(reason)] *)
Definition award (acc : Tally) (points : Z) (reason : string) : Tally :=
  (fst acc + points, snd acc ++ [reason]).

Definition reason_category (category : string) : string :=
  ("Category match: " ++ category)%string.

Definition reason_urgent : string :=
  "Urgent donation matches high urgency need".

Definition reason_proximity (distance : R) : string :=
  ("Location proximity: " ++ String_of_Z (Math.round distance)
     ++ "km away")%string.

Definition reason_recent : string := "Recently listed donation".

(** Category match (30 points) *)
Definition ruleCategory (categories : list string) (category : string)
    (acc : Tally) : Tally :=
  if includes categories category
  then award acc 30 (reason_category category)
  else acc.

(** Status match (25 points) *)
Definition ruleUrgency (urgency : option Urgency.t) (status : Status.t)
    (acc : Tally) : Tally :=
  match urgency with
  | Some u =>
      if Urgency.eqb u Urgency.high && Status.eqb status Status.urgent
      then award acc 25 reason_urgent
      else acc
  | None => acc
  end.

(** Location proximity (up to 25 points).  A distance that is not a
    number compares false with the maximum. *)
Definition ruleLocation (location : option Location.t)
    (maxDistance latitude longitude : option R) (acc : Tally) : Tally :=
  match location, truthy latitude, truthy longitude with
  | Some loc, Some lat, Some lon =>
      match
        calculateDistance (Location.latitude loc) (Location.longitude loc)
          lat lon
      with
      | Some distance =>
          let maxDistance :=
            match truthy maxDistance with Some m => m | None => 50%R end in
          if Rle_dec distance maxDistance then
            let distanceScore :=
              Math.round (25 * (1 - distance / maxDistance)) in
            award acc distanceScore (reason_proximity distance)
          else acc
      | None => acc
      end
  | _, _, _ => acc
  end.

(** Recent donation bonus (up to 20 points).  [donationDate] is
    [new Date(donation.date).getTime()], [None] for an invalid date, for
    which the comparison with 7 is false. *)
Definition ruleRecency (now : Z) (donationDate : option Z) (acc : Tally)
    : Tally :=
  match donationDate with
  | Some t =>
      let daysSinceDonation :=
        (IZR (now - t) / (1000 * 60 * 60 * 24))%R in
      if Rle_dec daysSinceDonation 7 then
        let freshnessScore :=
          Math.round (20 * (1 - daysSinceDonation / 7)) in
        award acc freshnessScore reason_recent
      else acc
  | None => acc
  end.

(** [.filter((match) => match.score > 30).sort((a, b) => b.score - a.score)] *)
Definition aboveThreshold (m : MatchResult.t) : bool :=
  30 <? MatchResult.score m.

Definition byScoreDescending (a b : MatchResult.t) : Z :=
  MatchResult.score b - MatchResult.score a.

Definition rankMatches (l : list MatchResult.t) : list MatchResult.t :=
  Array_sort byScoreDescending (filter aboveThreshold l).

(** ** The date runtime: [Date]

    A time value is a number of milliseconds since the epoch.  Local time
    is UTC shifted by the offset of the zone, which may change with the
    time (daylight saving).  The day arithmetic is the proleptic Gregorian
    calendar. *)

Module JSDate.

Definition msPerSecond : Z := 1000.
Definition msPerMinute : Z := 60000.
Definition msPerHour : Z := 3600000.
Definition msPerDay : Z := 86400000.

Definition Day (t : Z) : Z := t / msPerDay.
Definition TimeWithinDay (t : Z) : Z := t mod msPerDay.
Definition HourFromTime (t : Z) : Z := (t / msPerHour) mod 24.
Definition MinFromTime (t : Z) : Z := (t / msPerMinute) mod 60.
Definition SecFromTime (t : Z) : Z := (t / msPerSecond) mod 60.
Definition msFromTime (t : Z) : Z := t mod msPerSecond.

(** Day number of the civil date [y]-[m]-[d] ([m] from 1 to 12). *)
Definition days_from_civil (y m d : Z) : Z :=
  let y := if m <=? 2 then y - 1 else y in
  let era := y / 400 in
  let yoe := y - era * 400 in
  let doy := (153 * (if 2 <? m then m - 3 else m + 9) + 2) / 5 + d - 1 in
  let doe := yoe * 365 + yoe / 4 - yoe / 100 + doy in
  era * 146097 + doe - 719468.

(** Civil date (year, month from 1 to 12, day of the month) of a day
    number. *)
Definition civil_from_days (z : Z) : Z * Z * Z :=
  let z := z + 719468 in
  let era := z / 146097 in
  let doe := z - era * 146097 in
  let yoe := (doe - doe / 1460 + doe / 36524 - doe / 146096) / 365 in
  let y := yoe + era * 400 in
  let doy := doe - (365 * yoe + yoe / 4 - yoe / 100) in
  let mp := (5 * doy + 2) / 153 in
  let d := doy - (153 * mp + 2) / 5 + 1 in
  let m := if mp <? 10 then mp + 3 else mp - 9 in
  (if m <=? 2 then y + 1 else y, m, d).

Definition YearFromTime (t : Z) : Z := fst (fst (civil_from_days (Day t))).
(** Month of the year, from 0 to 11. *)
Definition MonthFromTime (t : Z) : Z :=
  snd (fst (civil_from_days (Day t))) - 1.
Definition DateFromTime (t : Z) : Z := snd (civil_from_days (Day t)).

Definition MakeTime (hour min sec ms : Z) : Z :=
  hour * msPerHour + min * msPerMinute + sec * msPerSecond + ms.
Definition MakeDay (year month date : Z) : Z :=
  days_from_civil (year + month / 12) (month mod 12 + 1) 1 + date - 1.
Definition MakeDate (day time : Z) : Z := day * msPerDay + time.

(** A time value beyond 8.64e15 ms from the epoch is not a date. *)
Definition TimeClip (t : Z) : option Z :=
  if Z.abs t <=? 8640000000000000 then Some t else None.

Definition monthShort (m : Z) : string :=
  nth (Z.to_nat (m - 1))
    ["Jan"; "Feb"; "Mar"; "Apr"; "May"; "Jun";
     "Jul"; "Aug"; "Sep"; "Oct"; "Nov"; "Dec"] "".

Section Local.

(** [LocalTZA t isUTC]: the offset of local time from UTC, in
    milliseconds, in effect at the time value [t], which is a UTC time
    when [isUTC] is true and a local time otherwise.  A local time that a
    change of offset skips or repeats is read with the offset before the
    change. *)
Variable LocalTZA : Z -> bool -> Z.

Definition LocalTime (t : Z) : Z := t + LocalTZA t true.
Definition UTC (t : Z) : Z := t - LocalTZA t false.

Definition getHours (t : Z) : Z := HourFromTime (LocalTime t).
Definition getDate (t : Z) : Z := DateFromTime (LocalTime t).

Definition setHours (t hour : Z) : option Z :=
  let lt := LocalTime t in
  let date :=
    MakeDate (Day lt)
      (MakeTime hour (MinFromTime lt) (SecFromTime lt) (msFromTime lt)) in
  TimeClip (UTC date).

Definition setDate (t dt : Z) : option Z :=
  let lt := LocalTime t in
  let newDate :=
    MakeDate (MakeDay (YearFromTime lt) (MonthFromTime lt) dt)
      (TimeWithinDay lt) in
  TimeClip (UTC newDate).

(** [d.toLocaleDateString("en-US", {month: "short", day: "numeric",
    year: "numeric"})], for a date of the common era. *)
Definition toLocaleDateString (d : option Z) : string :=
  match d with
  | None => "Invalid Date"
  | Some t =>
      let lt := LocalTime t in
      (monthShort (MonthFromTime lt + 1) ++ " "
         ++ String_of_Z (DateFromTime lt) ++ ", "
         ++ String_of_Z (YearFromTime lt))%string
  end.

End Local.

(** A zone whose offset never changes. *)
Definition fixedOffset (offset : Z) : Z -> bool -> Z := fun _ _ => offset.

(** [a <= b] between a date and a time value: false for an invalid date. *)
Definition le (a : option Z) (b : Z) : bool :=
  match a with Some t => t <=? b | None => false end.

(** One format [new Date(s)] reads: the date-only form [YYYY-MM-DD] of a
    calendar date, taken as midnight UTC.  The other forms a runtime
    reads (such as ["Aug 15, 2023"]) are not read here: the statements
    take the parser as a parameter, and this one serves the samples, whose
    dates are of this form. *)
Definition digit (c : ascii) : option Z :=
  let n := Z.of_nat (nat_of_ascii c) in
  if (48 <=? n) && (n <=? 57) then Some (n - 48) else None.

Fixpoint digits (acc : Z) (l : list ascii) : option Z :=
  match l with
  | [] => Some acc
  | c :: l' =>
      match digit c with
      | Some v => digits (10 * acc + v) l'
      | None => None
      end
  end.

Definition parseDateOnly (s : string) : option Z :=
  match list_ascii_of_string s with
  | [y1; y2; y3; y4; "-"%char; m1; m2; "-"%char; d1; d2] =>
      match
        digits 0 [y1; y2; y3; y4], digits 0 [m1; m2], digits 0 [d1; d2]
      with
      | Some y, Some m, Some d =>
          let day := days_from_civil y m d in
          let daysInMonth :=
            days_from_civil (y + m / 12) (m mod 12 + 1) 1
            - days_from_civil y m 1 in
          if (1 <=? m) && (m <=? 12) && (1 <=? d) && (d <=? daysInMonth)
          then Some (MakeDate day 0)
          else None
      | _, _, _ => None
      end
  | _ => None
  end.

End JSDate.

(** ** Matching engine: the two scoring directions

    [Date_parse s] is the time value of [new Date(s)], [None] when [s] is
    not a date the runtime recognises. *)

Section Scoring.

Variable Date_parse : string -> option Z.

(** The [.map] callback of [findMatchesForRecipient]; [now] is
    [Date.now()]. *)
Definition scoreDonation (now : Z)
    (recipientNeeds : UserNeedsPreferences.t) (donation : DonationData.t)
    : MatchResult.t :=
  let acc : Tally := (0, []) in
  let acc :=
    ruleCategory (UserNeedsPreferences.categories recipientNeeds)
      (DonationData.category donation) acc in
  let acc :=
    ruleUrgency (UserNeedsPreferences.urgency recipientNeeds)
      (DonationData.status donation) acc in
  let acc :=
    ruleLocation (UserNeedsPreferences.location recipientNeeds)
      (UserNeedsPreferences.maxDistance recipientNeeds)
      (DonationData.latitude donation) (DonationData.longitude donation)
      acc in
  let acc := ruleRecency now (Date_parse (DonationData.date donation)) acc in
  MatchResult.mk (DonationData.id donation)
    (UserNeedsPreferences.userId recipientNeeds) (fst acc) (snd acc).

(** The [.map] callback of [findRecipientsForDonation]. *)
Definition scoreRecipient (donation : DonationData.t)
    (recipient : UserNeedsPreferences.t) : MatchResult.t :=
  let acc : Tally := (0, []) in
  let acc :=
    ruleCategory (UserNeedsPreferences.categories recipient)
      (DonationData.category donation) acc in
  let acc :=
    ruleUrgency (UserNeedsPreferences.urgency recipient)
      (DonationData.status donation) acc in
  let acc :=
    ruleLocation (UserNeedsPreferences.location recipient)
      (UserNeedsPreferences.maxDistance recipient)
      (DonationData.latitude donation) (DonationData.longitude donation)
      acc in
  MatchResult.mk (DonationData.id donation)
    (UserNeedsPreferences.userId recipient) (fst acc) (snd acc).

(** The matches of a recipient among the donations already fetched. *)
Definition matchesAmong (now : Z) (recipientNeeds : UserNeedsPreferences.t)
    (availableDonations : list DonationData.t) : list MatchResult.t :=
  rankMatches (map (scoreDonation now recipientNeeds) availableDonations).

(** The recipients of a donation already fetched. *)
Definition recipientsAmong (donation : DonationData.t)
    (userPreferences : list UserNeedsPreferences.t) : list MatchResult.t :=
  rankMatches (map (scoreRecipient donation) userPreferences).

End Scoring.

(** ** The browser state the engine reads: scraper cache, local storage,
    clock *)

Module Cache.
Record t : Type := mk { data : list DonationData.t; timestamp : Z }.
End Cache.

(** The ["userDonations"] item of [localStorage]: absent, a string that
    [JSON.parse] or the array methods reject, or an array of donations. *)
Inductive StoredItem : Type :=
| ItemMissing
| ItemMalformed
| ItemDonations (l : list DonationData.t).

Record World : Type := mkWorld {
  scrapedDataCache : option Cache.t;
  userDonationsItem : StoredItem;
  clock : Z
}.

(** A computation that reads and updates the browser state and either
    returns or throws. *)
Inductive Result (A : Type) : Type :=
| Ok (a : A)
| Throw.
Arguments Ok {A} a.
Arguments Throw {A}.

Definition Async (A : Type) : Type := World -> Result A * World.

Definition ret {A} (a : A) : Async A := fun w => (Ok a, w).

Definition bind {A B} (c : Async A) (k : A -> Async B) : Async B :=
  fun w =>
    match c w with
    | (Ok a, w') => k a w'
    | (Throw, w') => (Throw, w')
    end.

Definition try_catch {A} (body handler : Async A) : Async A :=
  fun w =>
    match body w with
    | (Ok a, w') => (Ok a, w')
    | (Throw, w') => handler w'
    end.

Notation "x <- c ;; k" := (bind c (fun x => k))
  (at level 61, c at next level, right associativity).

Definition Date_now : Async Z := fun w => (Ok (clock w), w).

(** [await new Promise((resolve) => setTimeout(resolve, ms))] *)
Definition sleep (ms : Z) : Async unit :=
  fun w =>
    (Ok tt, mkWorld (scrapedDataCache w) (userDonationsItem w) (clock w + ms)).

Definition getCache : Async (option Cache.t) :=
  fun w => (Ok (scrapedDataCache w), w).

Definition setCache (c : option Cache.t) : Async unit :=
  fun w => (Ok tt, mkWorld c (userDonationsItem w) (clock w)).

(** [JSON.parse(localStorage.getItem("userDonations") || "[]")] *)
Definition parseUserDonations : Async (list DonationData.t) :=
  fun w =>
    match userDonationsItem w with
    | ItemMissing => (Ok [], w)
    | ItemMalformed => (Throw, w)
    | ItemDonations l => (Ok l, w)
    end.

(** [array.find((d) => d.id === id)] *)
Definition findById (id : string) (l : list DonationData.t)
    : option DonationData.t :=
  find (fun d => String.eqb (DonationData.id d) id) l.

(** ** The mocked scraper ([webScraper.ts]) *)

Definition mockFilipinoDonations : list DonationData.t :=
  [ DonationData.mk "PH-DON-001" "Typhoon Relief for Bicol Region"
      "disaster" "Philippine Red Cross" "Philippine Red Cross"
      "Aug 15, 2023" Status.active None None;
    DonationData.mk "PH-DON-002" "School Supplies for Children in Mindanao"
      "education" "DepEd Brigada Eskwela" "Department of Education"
      "Jun 5, 2023" Status.active None None;
    DonationData.mk "PH-DON-003" "Medical Mission in Palawan"
      "healthcare" "Philippine Medical Association"
      "Philippine Medical Association"
      "Jul 20, 2023" Status.urgent None None;
    DonationData.mk "PH-DON-004" "Food Bank for Manila's Urban Poor"
      "food" "Caritas Manila" "Caritas Manila"
      "Aug 2, 2023" Status.active None None;
    DonationData.mk "PH-DON-005" "Rebuilding Homes in Marawi"
      "housing" "Habitat for Humanity Philippines"
      "Habitat for Humanity Philippines"
      "May 15, 2023" Status.active None None;
    DonationData.mk "PH-DON-006"
      "Emergency Response for Taal Volcano Evacuees"
      "disaster" "DSWD" "Department of Social Welfare and Development"
      "Aug 10, 2023" Status.urgent None None ].

Definition isCacheValid : Async bool :=
  fun w =>
    match scrapedDataCache w with
    | None => (Ok false, w)
    | Some c =>
        let now := clock w in
        let cacheAge := now - Cache.timestamp c in
        let oneDayInMs := 24 * 60 * 60 * 1000 in
        (Ok (cacheAge <? oneDayInMs), w)
    end.

Definition scrapeRealDonations : Async (list DonationData.t) :=
  try_catch
    (_ <- sleep 1500 ;;
     ret mockFilipinoDonations)
    (ret []).

Definition scrapeDonations : Async (list DonationData.t) :=
  valid <- isCacheValid ;;
  cache <- getCache ;;
  match (if valid then cache else None) with
  | Some c => ret (Cache.data c)
  | None =>
      freshData <- scrapeRealDonations ;;
      now <- Date_now ;;
      _ <- setCache (Some (Cache.mk freshData now)) ;;
      ret freshData
  end.

Definition scrapeDonationById (id : string)
    : Async (option DonationData.t) :=
  valid <- isCacheValid ;;
  cache <- getCache ;;
  match (if valid then cache else None) with
  | Some c =>
      match findById id (Cache.data c) with
      | Some donation => ret (Some donation)
      | None =>
          donations <- scrapeDonations ;;
          ret (findById id donations)
      end
  | None =>
      donations <- scrapeDonations ;;
      ret (findById id donations)
  end.

(** ** The API layer ([api.ts]) *)

Definition fetchDonations : Async (list DonationData.t) :=
  try_catch
    (scrapedDonations <- scrapeDonations ;;
     let filteredScrapedDonations :=
       filter
         (fun donation =>
            negb
              (String.eqb (DonationData.source donation) "User Donation"
               && (String.eqb (DonationData.title donation)
                     "School Supplies for Children"
                   || String.eqb (DonationData.title donation) "Books")))
         scrapedDonations in
     userDonations <- parseUserDonations ;;
     ret (filteredScrapedDonations ++ userDonations))
    (ret []).

Definition fetchDonationById (id : string)
    : Async (option DonationData.t) :=
  try_catch
    (donation <- scrapeDonationById id ;;
     match donation with
     | Some d => ret (Some d)
     | None =>
         userDonations <- parseUserDonations ;;
         ret (findById id userDonations)
     end)
    (ret None).

Definition withinCommunity (userLocation : Location.t)
    (donation : DonationData.t) : bool :=
  match truthy (DonationData.latitude donation),
        truthy (DonationData.longitude donation),
        truthy (Some (Location.latitude userLocation)),
        truthy (Some (Location.longitude userLocation)) with
  | Some lat, Some lon, Some ulat, Some ulon =>
      match calculateDistance ulat ulon lat lon with
      | Some distance => if Rle_dec distance 50 then true else false
      | None => false
      end
  | _, _, _, _ => true
  end.

Definition fetchDonationsByLocationScope (locationScope : string)
    (userLocation : option Location.t) : Async (list DonationData.t) :=
  try_catch
    (allDonations <- fetchDonations ;;
     match userLocation with
     | Some loc =>
         if String.eqb locationScope "community"
         then ret (filter (withinCommunity loc) allDonations)
         else ret allDonations
     | None => ret allDonations
     end)
    (ret []).

(** The two operations.  [Date.now()] is read in each [.map] callback;
    the clock does not move while the candidates are scored, so it is read
    once. *)
Section Engine.

Variable Date_parse : string -> option Z.

Definition findMatchesForRecipient (recipientNeeds : UserNeedsPreferences.t)
    : Async (list MatchResult.t) :=
  try_catch
    (availableDonations <-
       fetchDonationsByLocationScope
         (UserNeedsPreferences.locationScope recipientNeeds)
         (UserNeedsPreferences.location recipientNeeds) ;;
     now <- Date_now ;;
     ret (matchesAmong Date_parse now recipientNeeds availableDonations))
    (ret []).

Definition findRecipientsForDonation (donationId : string)
    (userPreferences : list UserNeedsPreferences.t)
    : Async (list MatchResult.t) :=
  try_catch
    (donation <- fetchDonationById donationId ;;
     match donation with
     | None => ret []
     | Some d => ret (recipientsAmong d userPreferences)
     end)
    (ret []).

End Engine.

(** ** Status timeline deriver ([generateStatusTimeline]) *)

Module Stage.
(** The [status] of a timeline item. *)
Inductive t : Set := active | matched | urgent | arranged | completed.
End Stage.

Module StatusItem.
Record t : Type := mk {
  id : string;
  status : Stage.t;
  title : string;
  description : string;
  timestamp : string;
  user : string
}.
End StatusItem.

Section Timeline.

Variable Date_parse : string -> option Z.
Variable LocalTZA : Z -> bool -> Z.

(** [d.setHours(d.getHours() + h)] on a copy of the date [d]. *)
Definition plusHours (d : option Z) (h : Z) : option Z :=
  match d with
  | Some t => JSDate.setHours LocalTZA t (JSDate.getHours LocalTZA t + h)
  | None => None
  end.

(** [d.setDate(d.getDate() + n)] on a copy of the date [d]. *)
Definition plusDays (d : option Z) (n : Z) : option Z :=
  match d with
  | Some t => JSDate.setDate LocalTZA t (JSDate.getDate LocalTZA t + n)
  | None => None
  end.

Definition shortDate (d : option Z) : string :=
  JSDate.toLocaleDateString LocalTZA d.

(** [now] is the time value of [new Date()]. *)
Definition generateStatusTimeline (now : Z) (donation : DonationData.t)
    : list StatusItem.t :=
  let baseDate := Date_parse (DonationData.date donation) in
  let statusItems :=
    [ StatusItem.mk "1" Stage.active "Donation Listed"
        (DonationData.title donation ++ " has been listed for donation.")%string
        (DonationData.date donation)
        (DonationData.organization donation) ] in
  let matchedDate := plusHours baseDate 12 in
  let statusItems :=
    if JSDate.le matchedDate now
       || Status.eqb (DonationData.status donation) Status.urgent
       || Status.eqb (DonationData.status donation) Status.completed
    then
      statusItems ++
      [ StatusItem.mk "2" Stage.matched "Potential Recipients Found"
          ("Potential recipients for " ++ DonationData.title donation
             ++ " have been identified.")%string
          (shortDate matchedDate)
          "System" ]
    else statusItems in
  let statusItems :=
    if Status.eqb (DonationData.status donation) Status.urgent then
      let urgentDate := plusHours baseDate 24 in
      let statusItems :=
        statusItems ++
        [ StatusItem.mk "3" Stage.urgent "Urgent Need Identified"
            ("This donation has been marked as urgent by "
               ++ DonationData.organization donation ++ ".")%string
            (shortDate urgentDate)
            (DonationData.organization donation) ] in
      let arrangedDate := plusHours urgentDate 6 in
      if JSDate.le arrangedDate now
         || Status.eqb (DonationData.status donation) Status.completed
      then
        statusItems ++
        [ StatusItem.mk "4" Stage.arranged "Pickup/Delivery Arranged"
            ("Logistics for " ++ DonationData.title donation
               ++ " have been arranged.")%string
            (shortDate arrangedDate)
            "Logistics Team" ]
      else statusItems
    else statusItems in
  let statusItems :=
    if Status.eqb (DonationData.status donation) Status.completed then
      let completedDate := plusDays baseDate 7 in
      statusItems ++
      [ StatusItem.mk "5" Stage.completed "Donation Completed"
          ("The donation to " ++ DonationData.organization donation
             ++ " has been successfully completed.")%string
          (shortDate completedDate)
          (DonationData.organization donation) ]
    else statusItems in
  statusItems.

End Timeline.

(** ** Vocabulary of the statements *)

(** The quantity [a] of [calculateDistance]: the haversine of the central
    angle between the two points. *)
Definition haversine (lat1 lon1 lat2 lon2 : R) : R :=
  (sin (deg2rad (lat2 - lat1) / 2) * sin (deg2rad (lat2 - lat1) / 2) +
   cos (deg2rad lat1) * cos (deg2rad lat2) *
     sin (deg2rad (lon2 - lon1) / 2) * sin (deg2rad (lon2 - lon1) / 2))%R.

(** The maximum distance the location rule compares with. *)
Definition effectiveMaxDistance (maxDistance : option R) : R :=
  match truthy maxDistance with Some m => m | None => 50%R end.

(** What one rule adds to the score, and the reasons it records. *)
Definition contribution (rule : Tally -> Tally) : Z := fst (rule (0, [])).
Definition reasons (rule : Tally -> Tally) : list string :=
  snd (rule (0, [])).

(** A rule only adds to the tally it is given. *)
Definition additive (rule : Tally -> Tally) : Prop :=
  forall acc : Tally,
    rule acc = (fst acc + contribution rule, snd acc ++ reasons rule).

(** Every adjacent pair of results is in non-increasing order of score. *)
Definition nonIncreasing (l : list MatchResult.t) : Prop :=
  forall (i : nat) (a b : MatchResult.t),
    nth_error l i = Some a -> nth_error l (S i) = Some b ->
    MatchResult.score a >= MatchResult.score b.

(** The results of a given score, in the order of the list. *)
Definition withScore (s : Z) (l : list MatchResult.t) : list MatchResult.t :=
  filter (fun m => MatchResult.score m =? s) l.

(** The value a computation returns, [None] when it throws. *)
Definition returned {A} (r : Result A * World) : option A :=
  match fst r with Ok a => Some a | Throw => None end.

(** The donations an id can resolve to: the scraper's data, fresh or
    cached, and the user donations in local storage. *)
Definition knownDonations (w : World) : list DonationData.t :=
  mockFilipinoDonations
  ++ match scrapedDataCache w with Some c => Cache.data c | None => [] end
  ++ match userDonationsItem w with ItemDonations l => l | _ => [] end.

(** A day number survives the conversion to a civil date and back, and
    the civil date is well formed. *)
Definition roundTrips (day : Z) : bool :=
  let '(y, m, d) := JSDate.civil_from_days day in
  (JSDate.days_from_civil y m d =? day)
  && (1 <=? m) && (m <=? 12) && (1 <=? d) && (d <=? 31).

(** [count] consecutive days from [first] on round-trip. *)
Definition roundTripsFrom (first : Z) (count : positive) : bool :=
  snd (Pos.iter (fun s => (fst s + 1, snd s && roundTrips (fst s)))
         (first, true) count).

(** One day, in milliseconds, as the recency rule writes it. *)
Definition msPerDayR : R := (1000 * 60 * 60 * 24)%R.

(** The term [a] of [calculateDistance], as the doubles compute it. *)
Definition haversine64 (Math_sin Math_cos : float -> float)
    (lat1 lon1 lat2 lon2 : float) : float :=
  (Math_sin (Double.deg2rad (lat2 - lat1) / 2)
     * Math_sin (Double.deg2rad (lat2 - lat1) / 2) +
   Math_cos (Double.deg2rad lat1) * Math_cos (Double.deg2rad lat2)
     * Math_sin (Double.deg2rad (lon2 - lon1) / 2)
     * Math_sin (Double.deg2rad (lon2 - lon1) / 2))%float.

(** What the statements assume of the runtime's [Math.sin], [Math.cos]
    and [Math.atan2]: the sine is odd and is +0 at +0, the cosine of a
    number lies between -1 and 1, and [Math.atan2] is not a number when
    its second argument is not, and is +0 at (+0, 1).  ECMAScript fixes
    the values at +0 and at NaN; the rest holds in every engine. *)
Definition conforming (Math_sin Math_cos : float -> float)
    (Math_atan2 : float -> float -> float) : Prop :=
  (forall x, Math_sin (- x) = - Math_sin x)%float /\
  Math_sin 0%float = 0%float /\
  (forall x, is_finite x = true ->
             (abs (Math_cos x) <=? 1)%float = true) /\
  (forall y, Math_atan2 y nan = nan) /\
  Math_atan2 0%float 1%float = 0%float.

(** The sine and the cosine at the four angles that
    [calculateDistance(8, 121, -8, -59)] evaluates, when [Math.sin] and
    [Math.cos] return the doubles nearest to the exact values:
    sin(-8 deg) = -0.13917310096006544, sin(-90 deg) = -1 and
    cos(8 deg) = cos(-8 deg) = 0.9902680687415704. *)
Definition nearestAt8Degrees (Math_sin Math_cos : float -> float) : Prop :=
  (Math_sin (Double.deg2rad (-8 - 8) / 2) = -0x1.1d06c968d9e19p-3 /\
   Math_sin (Double.deg2rad (-59 - 121) / 2) = -1 /\
   Math_cos (Double.deg2rad 8) = 0x1.fb046a930947ap-1 /\
   Math_cos (Double.deg2rad (-8)) = 0x1.fb046a930947ap-1)%float.

(** A number: a zero or a finite double. *)
Definition SFnumber (x : spec_float) : Prop :=
  match x with
  | S754_zero _ | S754_finite _ _ _ => True
  | _ => False
  end.

(** ** Sample inputs *)

(** A stand-in for the runtime's [Math.sin], [Math.cos] and
    [Math.atan2] in the samples.  At the angles the samples evaluate, of
    8 and of 90 degrees, the sine and the cosine are the doubles nearest
    to the exact values; elsewhere the stand-in is crude: sin x is x,
    cos x is 1 and atan2 y x is y / x. *)
Definition sampleSin (x : float) : float :=
  (x * (if abs x =? Double.deg2rad 8
        then 0x1.1d06c968d9e19p-3 / Double.deg2rad 8
        else if abs x =? Double.deg2rad 90 then 1 / Double.deg2rad 90
        else 1))%float.

Definition sampleCos (x : float) : float :=
  (if abs x =? Double.deg2rad 8 then 0x1.fb046a930947ap-1 else 1)%float.

Definition sampleAtan2 (y x : float) : float := (y / x)%float.

(** 2023-01-01T00:00:00Z *)
Definition jan1 : Z := 1672531200000.

Definition world0 : World := mkWorld None ItemMissing 1700000000000.

Definition disasterNeeds : UserNeedsPreferences.t :=
  UserNeedsPreferences.mk "U-1" ["disaster"] "worldwide" None
    (Some Urgency.high) None.

Definition reliefDonation (date : string) (latitude longitude : option R)
    : DonationData.t :=
  DonationData.mk "D-1" "Relief packs" "disaster" "User Donation"
    "Barangay Uno" date Status.urgent latitude longitude.

(** A recipient on the equator, at (0, 121). *)
Definition equatorNeeds : UserNeedsPreferences.t :=
  UserNeedsPreferences.mk "U-2" ["disaster"] "community"
    (Some (Location.mk 0 121)) (Some Urgency.high) None.

Definition completedDonation : DonationData.t :=
  DonationData.mk "D-2" "Rice sacks" "food" "User Donation" "Barangay Dos"
    "2023-01-01" Status.completed None None.

(** A world with a fresh cache of the scraper's data and two stored
    donations, and one whose stored item is malformed. *)
Definition storedWorld : World :=
  mkWorld (Some (Cache.mk mockFilipinoDonations 1699999000000))
    (ItemDonations [reliefDonation "2023-01-01" None None; completedDonation])
    1700000000000.

Definition malformedWorld : World :=
  mkWorld None ItemMalformed 1700000000000.

(** An active donation. *)
Definition listedDonation (date : string) : DonationData.t :=
  DonationData.mk "D-3" "School bags" "education" "User Donation"
    "Barangay Tres" date Status.active None None.

(** 2023-03-12T00:00:00Z *)
Definition mar12 : Z := 1678579200000.

(** New York in the first half of 2023: at UTC-5 until
    2023-03-12T07:00:00Z, when the clocks go from 02:00 to 03:00, and at
    UTC-4 from then on. *)
Definition newYork2023 (t : Z) (isUTC : bool) : Z :=
  let change := mar12 + 7 * 3600000 in
  if isUTC then
    if t <? change then - 5 * 3600000 else - 4 * 3600000
  else
    if t <? change - 4 * 3600000 then - 5 * 3600000 else - 4 * 3600000.

(** ** The rest of the scraper and of the API *)

(** [webScraper.ts] *)
Definition refreshDonationData : Async (list DonationData.t) :=
  _ <- setCache None ;;
  scrapeDonations.

Definition getDonationsByCategory (category : string)
    : Async (list DonationData.t) :=
  donations <- scrapeDonations ;;
  ret (filter
         (fun donation => String.eqb (DonationData.category donation) category)
         donations).

(** [api.ts] *)
Definition fetchDonationsByCategory (category : string)
    : Async (list DonationData.t) :=
  try_catch
    (donations <- getDonationsByCategory category ;;
     ret donations)
    (ret []).

Definition refreshDonations : Async (list DonationData.t) :=
  try_catch
    (refreshedData <- refreshDonationData ;;
     userDonations <- parseUserDonations ;;
     let allDonations := refreshedData ++ userDonations in
     ret allDonations)
    (ret []).

(** ** The user's own donations in local storage

    The functions that manage a user's donations read the stored entries
    as [DonationData & { userId?: string }]. *)

Module UserDonation.
Record t : Type := mk { data : DonationData.t; userId : option string }.

Definition id (d : t) : string := DonationData.id (data d).
Definition source (d : t) : string := DonationData.source (data d).
Definition status (d : t) : Status.t := DonationData.status (data d).

(** [donation.status = newStatus] *)
Definition with_status (d : t) (newStatus : Status.t) : t :=
  mk (DonationData.mk (DonationData.id (data d)) (DonationData.title (data d))
        (DonationData.category (data d)) (DonationData.source (data d))
        (DonationData.organization (data d)) (DonationData.date (data d))
        newStatus (DonationData.latitude (data d))
        (DonationData.longitude (data d)))
    (userId d).

(** [donationData.userId = userId] *)
Definition with_userId (d : t) (userId' : string) : t :=
  mk (data d) (Some userId').

(** [donation.userId === userId] *)
Definition ownedBy (d : t) (user : string) : bool :=
  match userId d with
  | Some u => String.eqb u user
  | None => false
  end.
End UserDonation.

(** The ["userDonations"] item with the owners of its entries. *)
Inductive UserItem : Type :=
| UserItemMissing
| UserItemMalformed
| UserItemDonations (l : list UserDonation.t).

(** The same item as the functions that ignore the owner read it. *)
Definition forgetOwners (item : UserItem) : StoredItem :=
  match item with
  | UserItemMissing => ItemMissing
  | UserItemMalformed => ItemMalformed
  | UserItemDonations l => ItemDonations (map UserDonation.data l)
  end.

(** [JSON.parse(localStorage.getItem("userDonations") || "[]")] *)
Definition parseUserItem (item : UserItem) : Result (list UserDonation.t) :=
  match item with
  | UserItemMissing => Ok []
  | UserItemMalformed => Throw
  | UserItemDonations l => Ok l
  end.

(** Truthiness of an optional string: [undefined], [null] and [""] are
    falsy. *)
Definition truthyString (s : option string) : option string :=
  match s with
  | Some EmptyString => None
  | Some v => Some v
  | None => None
  end.

(** [array.findIndex(p)]: the index of the first element that satisfies
    [p], or -1. *)
Fixpoint findIndex {A : Type} (p : A -> bool) (l : list A) : Z :=
  match l with
  | [] => -1
  | x :: l' =>
      if p x then 0
      else let i := findIndex p l' in if i =? -1 then -1 else i + 1
  end.

(** [array.splice(index, 1)] for an index of the array: the array without
    that element. *)
Definition splice1 {A : Type} (l : list A) (index : Z) : list A :=
  firstn (Z.to_nat index) l ++ skipn (Z.to_nat index + 1) l.

(** [array[index].status = newStatus] for an index of the array. *)
Fixpoint setStatusAt (l : list UserDonation.t) (index : nat)
    (newStatus : Status.t) : list UserDonation.t :=
  match l, index with
  | [], _ => []
  | d :: l', O => UserDonation.with_status d newStatus :: l'
  | d :: l', S i => d :: setStatusAt l' i newStatus
  end.

Definition fetchUserDonations (userId : string) (item : UserItem)
    : list UserDonation.t :=
  match parseUserItem item with
  | Ok userDonations =>
      filter
        (fun donation =>
           UserDonation.ownedBy donation userId
           && String.eqb (UserDonation.source donation) "User Donation")
        userDonations
  | Throw => []
  end.

(** The result and the item left in local storage. *)
Definition deleteUserDonation (donationId userId : string) (item : UserItem)
    : bool * UserItem :=
  match parseUserItem item with
  | Ok userDonations =>
      let donationIndex :=
        findIndex
          (fun donation =>
             String.eqb (UserDonation.id donation) donationId
             && UserDonation.ownedBy donation userId)
          userDonations in
      if donationIndex =? -1 then (false, item)
      else (true, UserItemDonations (splice1 userDonations donationIndex))
  | Throw => (false, item)
  end.

Definition updateUserDonationStatus (donationId userId : string)
    (newStatus : Status.t) (item : UserItem) : bool * UserItem :=
  match parseUserItem item with
  | Ok userDonations =>
      let donationIndex :=
        findIndex
          (fun donation =>
             String.eqb (UserDonation.id donation) donationId
             && UserDonation.ownedBy donation userId)
          userDonations in
      if donationIndex =? -1 then (false, item)
      else
        (true,
         UserItemDonations
           (setStatusAt userDonations (Z.to_nat donationIndex) newStatus))
  | Throw => (false, item)
  end.

(** [submitDonation]: [storedUserId] is [localStorage.getItem("userId")]
    and [now] is [Date.now()] when the timer fires.  The result is the
    resolved id and the item left in storage, [None] when the callback
    throws, so that the promise never settles. *)
Definition submitDonation (donationData : UserDonation.t)
    (storedUserId : option string) (now : Z) (item : UserItem)
    : option (string * UserItem) :=
  let donationData :=
    match truthyString (UserDonation.userId donationData),
          truthyString storedUserId with
    | None, Some u => UserDonation.with_userId donationData u
    | _, _ => donationData
    end in
  let resolved :=
    match truthyString (Some (UserDonation.id donationData)) with
    | Some id => id
    | None => ("DON-" ++ String_of_Z now)%string
    end in
  match truthyString (UserDonation.userId donationData) with
  | Some _ =>
      match parseUserItem item with
      | Ok userDonations =>
          Some (resolved, UserItemDonations (userDonations ++ [donationData]))
      | Throw => None
      end
  | None => Some (resolved, item)
  end.

(** ** The donation form ([DonationForm.tsx]) *)

(** The storage steps of [handleSubmit], the caller of [submitDonation],
    for the donation data it has prepared: the form pushes the data on
    the stored list itself, under the stored user id when the data has no
    owner, and then submits it.  The result is the item left in local
    storage; a stored item that does not parse makes the handler give up
    with storage as it was. *)
Definition handleSubmit (donationData : UserDonation.t)
    (storedUserId : option string) (now : Z) (item : UserItem) : UserItem :=
  match parseUserItem item with
  | Ok existingDonations =>
      let donationData :=
        match truthyString (UserDonation.userId donationData),
              truthyString storedUserId with
        | None, Some u => UserDonation.with_userId donationData u
        | _, _ => donationData
        end in
      let saved := UserItemDonations (existingDonations ++ [donationData]) in
      match submitDonation donationData storedUserId now saved with
      | Some (_, item') => item'
      | None => saved
      end
  | Throw => item
  end.

(** ** The tracker's progress bar ([calculateProgress]) *)


(** ** The dashboard's list of donations ([DonationDashboard.tsx]) *)

(** [array.filter((x, index, self) => p(x, index, self))] *)
Fixpoint filterFrom {A : Type} (p : A -> Z -> bool) (index : Z) (l : list A)
    : list A :=
  match l with
  | [] => []
  | x :: l' =>
      if p x index then x :: filterFrom p (index + 1) l'
      else filterFrom p (index + 1) l'
  end.

Definition filterWithIndex {A : Type} (p : A -> Z -> list A -> bool)
    (self : list A) : list A :=
  filterFrom (fun x index => p x index self) 0 self.

(** [s.includes(sub)] on strings. *)
Fixpoint String_includes (s sub : string) : bool :=
  if String.prefix sub s then true
  else
    match s with
    | EmptyString => false
    | String _ s' => String_includes s' sub
    end.

Definition statusName (status : Status.t) : string :=
  match status with
  | Status.active => "active"
  | Status.completed => "completed"
  | Status.urgent => "urgent"
  end.

(** The first [.filter] of [filteredDonations]: one donation per id. *)
Definition uniqueById (donations : list DonationData.t)
    : list DonationData.t :=
  filterWithIndex
    (fun donation index self =>
       index =?
       findIndex
         (fun d => String.eqb (DonationData.id d) (DonationData.id donation))
         self)
    donations.

Section Dashboard.

(** [String.prototype.toLowerCase] *)
Variable toLowerCase : string -> string.

(** The second [.filter] of [filteredDonations]. *)
Definition passesFilters (activeTab searchQuery categoryFilter : string)
    (donation : DonationData.t) : bool :=
  if negb (String.eqb activeTab "all")
     && negb (String.eqb (statusName (DonationData.status donation))
                activeTab)
  then false
  else if
    negb (String.eqb searchQuery "")
    && negb (String_includes (toLowerCase (DonationData.title donation))
               (toLowerCase searchQuery))
    && negb (String_includes (toLowerCase (DonationData.id donation))
               (toLowerCase searchQuery))
    && negb (String_includes
               (toLowerCase (DonationData.organization donation))
               (toLowerCase searchQuery))
  then false
  else if
    negb (String.eqb categoryFilter "all")
    && negb (String.eqb (DonationData.category donation) categoryFilter)
  then false
  else true.

Definition filteredDonations (activeTab searchQuery categoryFilter : string)
    (donations : list DonationData.t) : list DonationData.t :=
  filter (passesFilters activeTab searchQuery categoryFilter)
    (uniqueById donations).

End Dashboard.

(** ** Vocabulary of the further statements *)

(** What a rule can do to a tally: nothing, or one reason with points in
    a range. *)
Definition silentOrWithin (lo hi : Z) (rule : Tally -> Tally) : Prop :=
  (reasons rule = [] /\ contribution rule = 0)
  \/ (exists reason, reasons rule = [reason] /\ lo <= contribution rule <= hi).

(** The cache, when there is one, holds the scraper's data and is not
    stamped after the clock. *)
Definition cacheSound (w : World) : Prop :=
  forall c, scrapedDataCache w = Some c ->
            Cache.data c = mockFilipinoDonations /\
            Cache.timestamp c <= clock w.

(** The cache is less than a day old. *)
Definition cacheFresh (w : World) : bool :=
  match scrapedDataCache w with
  | Some c => clock w - Cache.timestamp c <? 24 * 60 * 60 * 1000
  | None => false
  end.

(** The time on the clock when [fetchDonations] has returned and the
    candidates are scored: the time of the call, or 1500 ms later when
    the scraper found no fresh cache and waited. *)
Definition scoringTime (w : World) : Z :=
  if cacheFresh w then clock w else clock w + 1500.

(** The world after a scrape that did not use the cache: 1500 ms later,
    with the scraper's data cached at that time. *)
Definition afterScrape (w : World) : World :=
  mkWorld (Some (Cache.mk mockFilipinoDonations (clock w + 1500)))
    (userDonationsItem w) (clock w + 1500).

(** What [fetchDonations] finds in storage: nothing is returned at all
    when the item is malformed. *)
Definition withStored (scraped : list DonationData.t) (w : World)
    : list DonationData.t :=
  match userDonationsItem w with
  | ItemMalformed => []
  | ItemMissing => scraped
  | ItemDonations l => scraped ++ l
  end.

(** What is in storage for the functions that ignore the owner. *)
Definition storedDonations (w : World) : list DonationData.t :=
  match userDonationsItem w with
  | ItemDonations l => l
  | _ => []
  end.

(** A candidate of the recipient direction: a stored donation, or one
    of the scraper's campaigns when the cache, if any, holds them; none
    when the stored item is malformed. *)
Definition candidate (w : World) (donation : DonationData.t) : Prop :=
  userDonationsItem w <> ItemMalformed /\
  (In donation (storedDonations w)
   \/ cacheSound w /\ In donation mockFilipinoDonations).

(** An entry is the one [deleteUserDonation] and
    [updateUserDonationStatus] look for. *)
Definition isEntry (donationId userId : string) (d : UserDonation.t) : bool :=
  String.eqb (UserDonation.id d) donationId && UserDonation.ownedBy d userId.

(** The entries of the stored item, none when it is missing or
    malformed. *)
Definition entriesOf (item : UserItem) : list UserDonation.t :=
  match item with
  | UserItemDonations l => l
  | _ => []
  end.

(** The owner a submitted donation is stored under: its own [userId],
    or else the ["userId"] item of local storage; [None] for an anonymous
    submission. *)
Definition ownerOnSubmit (donationData : UserDonation.t)
    (storedUserId : option string) : option string :=
  match truthyString (UserDonation.userId donationData) with
  | Some u => Some u
  | None => truthyString storedUserId
  end.

(** The date [ms] milliseconds after [d], when both are dates. *)
Definition later (d : option Z) (ms : Z) : option Z :=
  match d with
  | Some t => JSDate.TimeClip (t + ms)
  | None => None
  end.

(** By how much the offset of the zone at the local time [ms]
    milliseconds after that of the date [t] exceeds its offset at [t]:
    3600000 across a change to daylight-saving time, 0 in a zone of
    fixed offset. *)
Definition offsetGrowth (LocalTZA : Z -> bool -> Z) (t ms : Z) : Z :=
  LocalTZA (t + LocalTZA t true + ms) false - LocalTZA t true.

(** The date whose local (wall-clock) time is [ms] milliseconds after
    that of [d]: it comes [ms] milliseconds after [d], less the growth of
    the offset. *)
Definition laterLocal (LocalTZA : Z -> bool -> Z) (d : option Z) (ms : Z)
    : option Z :=
  match d with
  | Some t => JSDate.TimeClip (t + ms - offsetGrowth LocalTZA t ms)
  | None => None
  end.

(** The offset of the zone is [offset] at the date [t] and [ms]
    milliseconds later, there both as a local and as a UTC time: no
    change of offset separates the two dates. *)
Definition steadyOffset (LocalTZA : Z -> bool -> Z) (offset t ms : Z)
    : Prop :=
  LocalTZA t true = offset /\
  LocalTZA (t + offset + ms) false = offset /\
  LocalTZA (t + ms) true = offset.

(** The stamp the timeline of a donation listed at [baseDate], under the
    date string [date], gives to the item of a stage. *)
Definition stampOf (LocalTZA : Z -> bool -> Z) (date : string)
    (baseDate : option Z) (stage : Stage.t) : string :=
  match stage with
  | Stage.active => date
  | Stage.matched =>
      JSDate.toLocaleDateString LocalTZA
        (laterLocal LocalTZA baseDate (12 * 3600000))
  | Stage.urgent =>
      JSDate.toLocaleDateString LocalTZA
        (laterLocal LocalTZA baseDate (24 * 3600000))
  | Stage.arranged =>
      JSDate.toLocaleDateString LocalTZA
        (laterLocal LocalTZA (laterLocal LocalTZA baseDate (24 * 3600000))
           (6 * 3600000))
  | Stage.completed =>
      JSDate.toLocaleDateString LocalTZA
        (laterLocal LocalTZA baseDate (7 * 86400000))
  end.

(** The donations of [rest] whose id occurs neither in [seen] nor
    earlier in [rest]. *)
Fixpoint keepFirst (seen rest : list DonationData.t)
    : list DonationData.t :=
  match rest with
  | [] => []
  | x :: rest' =>
      if existsb
           (fun d => String.eqb (DonationData.id d) (DonationData.id x)) seen
      then keepFirst (seen ++ [x]) rest'
      else x :: keepFirst (seen ++ [x]) rest'
  end.

(** The stages of a timeline. *)
Definition stagesOf (items : list StatusItem.t) : list Stage.t :=
  map StatusItem.status items.

(** ** Further sample inputs *)

(** Local storage with one donation of the user "U-1" and one of the
    user "U-2". *)
Definition twoOwners : UserItem :=
  UserItemDonations
    [ UserDonation.mk (reliefDonation "2023-01-01" None None) (Some "U-1");
      UserDonation.mk completedDonation (Some "U-2") ].

(** * Part II: properties *)

(** ** Facts about [Math] *)

Section MathFacts.

Local Open Scope R_scope.

Lemma round_bound x :
  IZR (Math.round x) <= x + / 2 < IZR (Math.round x) + 1.
Proof. unfold Math.round. apply Zfloor_bound. Qed.

Lemma round_eq (z : Z) x :
  IZR z <= x + / 2 < IZR z + 1 -> Math.round x = z.
Proof. unfold Math.round. apply Zfloor_eq. Qed.

Lemma round_IZR (z : Z) : Math.round (IZR z) = z.
Proof. apply round_eq. lra. Qed.

Lemma round_le x y : x <= y -> (Math.round x <= Math.round y)%Z.
Proof. intro H. unfold Math.round. apply Zfloor_le. lra. Qed.

Lemma atan2_nonneg y x : 0 <= y -> 0 <= Math.atan2 y x.
Proof.
  intro Hy. unfold Math.atan2.
  destruct (Rlt_dec 0 x) as [Hx | Hx].
  - replace 0 with (atan 0) by apply atan_0.
    destruct (Req_dec y 0) as [-> | Hne].
    + unfold Rdiv. rewrite Rmult_0_l. lra.
    + left. apply atan_increasing. apply Rdiv_lt_0_compat; lra.
  - destruct (Rlt_dec x 0) as [Hx' | Hx'].
    + destruct (Rle_dec 0 y) as [_ | Hn]; [ | contradiction ].
      pose proof (atan_bound (y / x)) as [Hlo _].
      pose proof PI_RGT_0. lra.
    + destruct (Rlt_dec 0 y); [ pose proof PI_RGT_0; lra | ].
      destruct (Rlt_dec y 0); lra.
Qed.

Lemma sqrt_defined x : 0 <= x -> Math.sqrt x = Some (R_sqrt.sqrt x).
Proof.
  intro H. unfold Math.sqrt.
  destruct (Rle_dec 0 x); [ reflexivity | contradiction ].
Qed.

Lemma sqrt_Some x y : Math.sqrt x = Some y -> 0 <= y.
Proof.
  unfold Math.sqrt. destruct (Rle_dec 0 x); [ | discriminate ].
  intro H. injection H as <-. apply sqrt_pos.
Qed.

End MathFacts.

(** ** Facts about [calculateDistance] over the reals *)

Section DistanceFacts.

Local Open Scope R_scope.

Lemma calculateDistance_haversine lat1 lon1 lat2 lon2 :
  calculateDistance lat1 lon1 lat2 lon2 =
  match Math.sqrt (haversine lat1 lon1 lat2 lon2),
        Math.sqrt (1 - haversine lat1 lon1 lat2 lon2) with
  | Some sqrt_a, Some sqrt_1_a =>
      Some (6371 * (2 * Math.atan2 sqrt_a sqrt_1_a))
  | _, _ => None
  end.
Proof. reflexivity. Qed.

Lemma deg2rad_swap a b : deg2rad (a - b) / 2 = - (deg2rad (b - a) / 2).
Proof. unfold deg2rad. field. Qed.

Lemma sin_sqr_swap a b :
  sin (deg2rad (a - b) / 2) * sin (deg2rad (a - b) / 2) =
  sin (deg2rad (b - a) / 2) * sin (deg2rad (b - a) / 2).
Proof. rewrite (deg2rad_swap a b), sin_neg. ring. Qed.

Lemma haversine_swap lat1 lon1 lat2 lon2 :
  haversine lat1 lon1 lat2 lon2 = haversine lat2 lon2 lat1 lon1.
Proof.
  unfold haversine.
  rewrite (sin_sqr_swap lat2 lat1).
  rewrite !Rmult_assoc, (sin_sqr_swap lon2 lon1).
  rewrite <- !Rmult_assoc.
  rewrite (Rmult_comm (cos (deg2rad lat1)) (cos (deg2rad lat2))).
  reflexivity.
Qed.

Lemma cos_latitude lat : -90 <= lat <= 90 -> 0 <= cos (deg2rad lat).
Proof.
  intros [Hlo Hhi]. pose proof PI_RGT_0 as Hpi.
  apply cos_ge_0; unfold deg2rad; nra.
Qed.

(** cos p * cos q = cos^2 ((q - p) / 2) - sin^2 ((p + q) / 2) *)
Lemma cos_product p q :
  cos p * cos q =
  cos ((q - p) / 2) * cos ((q - p) / 2)
  - sin ((p + q) / 2) * sin ((p + q) / 2).
Proof.
  set (u := (p + q) / 2). set (v := (q - p) / 2).
  replace p with (u - v) by (unfold u, v; field).
  replace q with (u + v) at 1 by (unfold u, v; field).
  rewrite cos_minus, cos_plus.
  pose proof (sin2_cos2 u) as Hu. pose proof (sin2_cos2 v) as Hv.
  unfold Rsqr in *. nra.
Qed.

(** Between two points whose latitudes are between -90 and 90 degrees the
    haversine lies between 0 and 1, so both square roots are numbers. *)
Lemma haversine_range lat1 lon1 lat2 lon2 :
  -90 <= lat1 <= 90 -> -90 <= lat2 <= 90 ->
  0 <= haversine lat1 lon1 lat2 lon2 <= 1.
Proof.
  intros H1 H2. unfold haversine.
  pose proof (cos_latitude lat1 H1) as Hc1.
  pose proof (cos_latitude lat2 H2) as Hc2.
  pose proof (cos_product (deg2rad lat1) (deg2rad lat2)) as Hprod.
  replace ((deg2rad lat2 - deg2rad lat1) / 2)
    with (deg2rad (lat2 - lat1) / 2)
    in Hprod by (unfold deg2rad; field).
  set (v := deg2rad (lat2 - lat1) / 2) in *.
  set (w := deg2rad (lon2 - lon1) / 2) in *.
  set (u := (deg2rad lat1 + deg2rad lat2) / 2) in *.
  pose proof (sin2_cos2 v) as Hv. pose proof (sin2_cos2 w) as Hw.
  unfold Rsqr in *.
  set (c := cos (deg2rad lat1) * cos (deg2rad lat2)) in *.
  assert (Hc : 0 <= c) by (unfold c; nra).
  replace (sin v * sin v + c * sin w * sin w)
    with (sin v * sin v + c * (sin w * sin w)) by ring.
  assert (Ht : 0 <= sin w * sin w <= 1) by nra.
  assert (Hcv : c <= cos v * cos v) by nra.
  split; nra.
Qed.

Lemma calculateDistance_of_haversine lat1 lon1 lat2 lon2 :
  0 <= haversine lat1 lon1 lat2 lon2 <= 1 ->
  calculateDistance lat1 lon1 lat2 lon2 =
  Some (6371 * (2 * Math.atan2
                      (R_sqrt.sqrt (haversine lat1 lon1 lat2 lon2))
                      (R_sqrt.sqrt (1 - haversine lat1 lon1 lat2 lon2)))).
Proof.
  intros [H0 H1]. rewrite calculateDistance_haversine.
  rewrite !sqrt_defined by lra. reflexivity.
Qed.

Lemma calculateDistance_nonneg lat1 lon1 lat2 lon2 distance :
  calculateDistance lat1 lon1 lat2 lon2 = Some distance -> 0 <= distance.
Proof.
  rewrite calculateDistance_haversine.
  destruct (Math.sqrt (haversine lat1 lon1 lat2 lon2)) as [y | ] eqn:Hy;
    [ | discriminate ].
  destruct (Math.sqrt (1 - haversine lat1 lon1 lat2 lon2)) as [x | ];
    [ | discriminate ].
  intro H. injection H as <-.
  pose proof (atan2_nonneg y x (sqrt_Some _ _ Hy)). lra.
Qed.

Lemma calculateDistance_swap lat1 lon1 lat2 lon2 :
  calculateDistance lat1 lon1 lat2 lon2 =
  calculateDistance lat2 lon2 lat1 lon1.
Proof.
  rewrite !calculateDistance_haversine.
  rewrite (haversine_swap lat1 lon1 lat2 lon2). reflexivity.
Qed.

Lemma calculateDistance_defined lat1 lon1 lat2 lon2 :
  -90 <= lat1 <= 90 -> -90 <= lat2 <= 90 ->
  exists distance,
    calculateDistance lat1 lon1 lat2 lon2 = Some distance /\
    calculateDistance lat2 lon2 lat1 lon1 = Some distance /\
    0 <= distance.
Proof.
  intros H1 H2.
  pose proof (calculateDistance_of_haversine lat1 lon1 lat2 lon2
                (haversine_range lat1 lon1 lat2 lon2 H1 H2)) as Hd.
  eexists. split; [ exact Hd | ]. split.
  - rewrite <- calculateDistance_swap. exact Hd.
  - eapply calculateDistance_nonneg. exact Hd.
Qed.

Lemma haversine_same lat lon : haversine lat lon lat lon = 0.
Proof.
  unfold haversine, deg2rad.
  replace ((lat - lat) * (PI / 180) / 2) with 0 by field.
  replace ((lon - lon) * (PI / 180) / 2) with 0 by field.
  rewrite sin_0. ring.
Qed.

Lemma calculateDistance_same lat lon :
  calculateDistance lat lon lat lon = Some 0.
Proof.
  rewrite calculateDistance_of_haversine
    by (rewrite haversine_same; lra).
  rewrite haversine_same, Rminus_0_r, sqrt_0, sqrt_1.
  unfold Math.atan2.
  destruct (Rlt_dec 0 1) as [_ | H]; [ | exfalso; lra ].
  replace (0 / 1) with 0 by field. rewrite atan_0.
  f_equal. ring.
Qed.

End DistanceFacts.

Section CentralAngle.

Local Open Scope R_scope.

(** [Math.atan2 y x] of a point of the unit circle in the first
    quadrant is the angle between 0 and PI / 2 whose sine is [y]. *)
Lemma atan2_unit_circle (y x : R) :
  (0 <= y)%R -> (0 <= x)%R -> (x * x + y * y = 1)%R ->
  (0 <= Math.atan2 y x <= PI / 2)%R /\ sin (Math.atan2 y x) = y.
Proof.
  intros Hy Hx Hcircle. unfold Math.atan2.
  destruct (Rlt_dec 0 x) as [Hpos | Hzero].
  - assert (Ht : (0 <= y / x)%R).
    { unfold Rdiv. apply Rmult_le_pos; [ exact Hy | ].
      left. apply Rinv_0_lt_compat. exact Hpos. }
    split.
    + pose proof (atan_bound (y / x)) as [_ Hhi].
      split; [ | lra ].
      rewrite <- atan_0.
      destruct Ht as [Ht | <-]; [ left; apply atan_increasing; exact Ht | ].
      lra.
    + rewrite sin_atan.
      assert (Hs : R_sqrt.sqrt (1 + (y / x)²) = (/ x)%R).
      { apply sqrt_lem_1.
        - unfold Rsqr. nra.
        - left. apply Rinv_0_lt_compat. exact Hpos.
        - unfold Rsqr. field_simplify_eq; [ | lra ]. nra. }
      rewrite Hs. field. lra.
  - assert (Hx0 : x = 0%R) by lra. subst x.
    destruct (Rlt_dec 0 0) as [H | _]; [ lra | ].
    assert (Hy1 : y = 1%R) by nra. subst y.
    destruct (Rlt_dec 0 1) as [_ | H]; [ | lra ].
    pose proof PI_RGT_0. split; [ lra | apply sin_PI2 ].
Qed.

(** Read over the reals, the distance is 6371 times the central angle
    between the two points: an angle between 0 and PI whose haversine is
    the haversine of the two points, taken from their coordinates in
    degrees. *)
Lemma calculateDistance_central_angle lat1 lon1 lat2 lon2 distance :
  calculateDistance lat1 lon1 lat2 lon2 = Some distance ->
  (0 <= distance / 6371 <= PI)%R /\
  (sin (distance / 6371 / 2) * sin (distance / 6371 / 2)
   = haversine lat1 lon1 lat2 lon2)%R.
Proof.
  rewrite calculateDistance_haversine.
  set (a := haversine lat1 lon1 lat2 lon2).
  unfold Math.sqrt at 1 2.
  destruct (Rle_dec 0 a) as [Ha | ]; [ | discriminate ].
  destruct (Rle_dec 0 (1 - a)) as [Ha1 | ]; [ | discriminate ].
  intro H. injection H as <-.
  destruct (atan2_unit_circle (R_sqrt.sqrt a) (R_sqrt.sqrt (1 - a)))
    as [Hrange Hsin].
  - apply sqrt_pos.
  - apply sqrt_pos.
  - rewrite !sqrt_def by assumption. lra.
  - set (c := Math.atan2 (R_sqrt.sqrt a) (R_sqrt.sqrt (1 - a))) in *.
    replace (6371 * (2 * c) / 6371)%R with (2 * c)%R by field.
    replace (2 * c / 2)%R with c by field.
    rewrite Hsin, sqrt_def by assumption.
    split; [ lra | reflexivity ].
Qed.

End CentralAngle.

(** ** Facts about binary64 arithmetic *)

Section SpecFloatFacts.

Lemma binary_round_aux_opp s m e l :
  binary_round_aux prec emax (negb s) m e l =
  SFopp (binary_round_aux prec emax s m e l).
Proof.
  unfold binary_round_aux.
  destruct (shr_fexp prec emax m e l) as [mrs' e'].
  destruct (shr_fexp prec emax _ e' loc_Exact) as [mrs'' e''].
  destruct (shr_m mrs''); [ reflexivity | | reflexivity ].
  destruct (e'' <=? emax - prec); reflexivity.
Qed.

Lemma SFmul_opp_l x y :
  SF64mul (SFopp x) y = SFopp (SF64mul x y).
Proof.
  destruct x as [sx | sx | | sx mx ex], y as [sy | sy | | sy my ey];
    cbn [SF64mul SFmul SFopp]; try reflexivity;
    try (destruct sx, sy; reflexivity).
  replace (xorb (negb sx) sy) with (negb (xorb sx sy))
    by (destruct sx, sy; reflexivity).
  apply binary_round_aux_opp.
Qed.

Lemma SFmul_comm x y : SF64mul x y = SF64mul y x.
Proof.
  destruct x as [sx | sx | | sx mx ex], y as [sy | sy | | sy my ey];
    cbn [SF64mul SFmul]; try reflexivity;
    try (rewrite xorb_comm; reflexivity).
  rewrite xorb_comm, Pos.mul_comm, Z.add_comm. reflexivity.
Qed.

Lemma SFdiv_opp_l x y :
  SF64div (SFopp x) y = SFopp (SF64div x y).
Proof.
  destruct x as [sx | sx | | sx mx ex], y as [sy | sy | | sy my ey];
    cbn [SF64div SFdiv SFopp]; try reflexivity;
    try (destruct sx, sy; reflexivity).
  destruct (SFdiv_core_binary prec emax (Z.pos mx) ex (Z.pos my) ey)
    as [[mz ez] lz].
  replace (xorb (negb sx) sy) with (negb (xorb sx sy))
    by (destruct sx, sy; reflexivity).
  apply binary_round_aux_opp.
Qed.

Lemma binary_round_opp s m e :
  binary_round prec emax (negb s) m e =
  SFopp (binary_round prec emax s m e).
Proof.
  unfold binary_round.
  destruct (shl_align m e _) as [mz ez]. apply binary_round_aux_opp.
Qed.

Lemma binary_normalize_opp m e :
  m <> 0%Z ->
  binary_normalize prec emax (- m) e false =
  SFopp (binary_normalize prec emax m e false).
Proof.
  destruct m as [ | p | p]; [ contradiction | | ]; intros _;
    cbn [Z.opp binary_normalize].
  - apply (binary_round_opp false).
  - apply (binary_round_opp true).
Qed.

Lemma SFsub_swap x y :
  SF64sub y x = SFopp (SF64sub x y) \/ SF64sub y x = SF64sub x y.
Proof.
  destruct x as [sx | sx | | sx mx ex], y as [sy | sy | | sy my ey];
    cbn [SF64sub SFsub SFopp];
    try (left; reflexivity); try (right; reflexivity);
    try (destruct sx, sy; (left; reflexivity) || (right; reflexivity)).
  rewrite (Z.min_comm ey ex).
  set (ez := Z.min ex ey).
  set (a := cond_Zopp sx (Z.pos (fst (shl_align mx ex ez)))).
  set (b := cond_Zopp sy (Z.pos (fst (shl_align my ey ez)))).
  destruct (Z.eq_dec (a - b) 0) as [H0 | Hne].
  - right. replace (b - a)%Z with 0%Z by lia. rewrite H0. reflexivity.
  - left. replace (b - a)%Z with (- (a - b))%Z by lia.
    apply binary_normalize_opp. exact Hne.
Qed.

End SpecFloatFacts.

Section DoubleFacts.

Local Open Scope float_scope.

Lemma opp_involutive (x : float) : - - x = x.
Proof.
  apply Prim2SF_inj. rewrite !opp_spec.
  destruct (Prim2SF x) as [s | s | | s m e]; cbn [SFopp];
    rewrite ?negb_involutive; reflexivity.
Qed.

Lemma mul_opp_l (x y : float) : - x * y = - (x * y).
Proof.
  apply Prim2SF_inj.
  rewrite opp_spec, !FloatAxioms.mul_spec, opp_spec. apply SFmul_opp_l.
Qed.

Lemma mul_comm (x y : float) : x * y = y * x.
Proof.
  apply Prim2SF_inj. rewrite !FloatAxioms.mul_spec. apply SFmul_comm.
Qed.

Lemma mul_opp_r (x y : float) : x * - y = - (x * y).
Proof. rewrite (mul_comm x (- y)), mul_opp_l, (mul_comm y x). reflexivity. Qed.

Lemma mul_opp_opp (x y : float) : - x * - y = x * y.
Proof. rewrite mul_opp_l, mul_opp_r. apply opp_involutive. Qed.

Lemma div_opp_l (x y : float) : - x / y = - (x / y).
Proof.
  apply Prim2SF_inj.
  rewrite opp_spec, !FloatAxioms.div_spec, opp_spec. apply SFdiv_opp_l.
Qed.

Lemma sub_swap (x y : float) : y - x = - (x - y) \/ y - x = x - y.
Proof.
  destruct (SFsub_swap (Prim2SF x) (Prim2SF y)) as [H | H]; [ left | right ];
    apply Prim2SF_inj; rewrite ?opp_spec, !FloatAxioms.sub_spec; exact H.
Qed.

Section Symmetry.

Variables Math_sin Math_cos : float -> float.
Variable Math_atan2 : float -> float -> float.
Hypothesis sin_odd : forall x, Math_sin (- x) = - Math_sin x.

Lemma half_angle_swap (x y : float) :
  Double.deg2rad (y - x) / 2 = - (Double.deg2rad (x - y) / 2) \/
  Double.deg2rad (y - x) / 2 = Double.deg2rad (x - y) / 2.
Proof.
  destruct (sub_swap x y) as [H | H]; rewrite H; [ left | right ];
    [ | reflexivity ].
  unfold Double.deg2rad. rewrite mul_opp_l, div_opp_l. reflexivity.
Qed.

Lemma sin_half_angle_swap (p x y : float) :
  p * Math_sin (Double.deg2rad (y - x) / 2)
    * Math_sin (Double.deg2rad (y - x) / 2) =
  p * Math_sin (Double.deg2rad (x - y) / 2)
    * Math_sin (Double.deg2rad (x - y) / 2).
Proof.
  destruct (half_angle_swap x y) as [H | H]; rewrite H; [ | reflexivity ].
  rewrite sin_odd, (mul_opp_r p), mul_opp_opp. reflexivity.
Qed.

Lemma sin_sqr_half_angle_swap (x y : float) :
  Math_sin (Double.deg2rad (y - x) / 2)
    * Math_sin (Double.deg2rad (y - x) / 2) =
  Math_sin (Double.deg2rad (x - y) / 2)
    * Math_sin (Double.deg2rad (x - y) / 2).
Proof.
  destruct (half_angle_swap x y) as [H | H]; rewrite H; [ | reflexivity ].
  rewrite sin_odd. apply mul_opp_opp.
Qed.

Lemma calculateDistance_swap_double (lat1 lon1 lat2 lon2 : float) :
  Double.calculateDistance Math_sin Math_cos Math_atan2 lat1 lon1 lat2 lon2 =
  Double.calculateDistance Math_sin Math_cos Math_atan2 lat2 lon2 lat1 lon1.
Proof.
  unfold Double.calculateDistance. cbv zeta.
  rewrite (sin_sqr_half_angle_swap lat1 lat2).
  rewrite (sin_half_angle_swap _ lon1 lon2).
  rewrite (mul_comm (Math_cos (Double.deg2rad lat1))).
  reflexivity.
Qed.

End Symmetry.

End DoubleFacts.

Section Magnitude.

Local Open Scope Z_scope.

Lemma digits2_pos_size (p : positive) : digits2_pos p = Pos.size p.
Proof. induction p as [p IH | p IH | ]; cbn; rewrite ?IH; reflexivity. Qed.

Lemma Zdigits2_bound (m k : Z) : 0 <= m < 2 ^ k -> 0 <= k -> Zdigits2 m <= k.
Proof.
  intros [H0 Hm] Hk. destruct m as [ | p | p]; cbn [Zdigits2]; [ lia | | lia ].
  rewrite digits2_pos_size.
  pose proof (Pos.size_le p) as Hle.
  destruct (Z_le_gt_dec (Z.pos (Pos.size p)) k) as [ | Hgt]; [ assumption | ].
  exfalso.
  assert (Hpow : 2 ^ (k + 1) <= 2 ^ Z.pos (Pos.size p))
    by (apply Z.pow_le_mono_r; lia).
  assert (H2 : 2 ^ Z.pos (Pos.size p) <= 2 * Z.pos p).
  { change (2 * Z.pos p) with (Z.pos (p~0)).
    rewrite <- Pos2Z.inj_pow. apply Pos2Z.pos_le_pos. exact Hle. }
  rewrite Z.pow_add_r in Hpow by lia. lia.
Qed.

Lemma Zdigits2_gt (m : Z) : 0 <= m -> m < 2 ^ Zdigits2 m.
Proof.
  intro H0. destruct m as [ | p | p]; cbn [Zdigits2]; [ reflexivity | | lia ].
  rewrite digits2_pos_size, <- Pos2Z.inj_pow. apply Pos2Z.pos_lt_pos.
  apply Pos.size_gt.
Qed.

Lemma Zdigits2_nonneg (m : Z) : 0 <= Zdigits2 m.
Proof. destruct m; cbn [Zdigits2]; lia. Qed.

Lemma shr_1_halves (mrs : shr_record) :
  0 <= shr_m mrs ->
  0 <= shr_m (shr_1 mrs) /\ 2 * shr_m (shr_1 mrs) <= shr_m mrs.
Proof.
  destruct mrs as [m r s]. cbn [shr_m]. intro H0.
  destruct m as [ | [p | p | ] | p]; cbn [shr_1 shr_m]; lia.
Qed.

Lemma iter_shr_1_halves (n : positive) (mrs : shr_record) :
  0 <= shr_m mrs ->
  0 <= shr_m (SpecFloat.iter_pos shr_1 n mrs) /\
  2 ^ Z.pos n * shr_m (SpecFloat.iter_pos shr_1 n mrs) <= shr_m mrs.
Proof.
  revert mrs. induction n as [n IH | n IH | ]; intros mrs H0;
    cbn [SpecFloat.iter_pos].
  - destruct (shr_1_halves mrs H0) as [H1 H2].
    destruct (IH _ H1) as [H3 H4]. destruct (IH _ H3) as [H5 H6].
    split; [ exact H5 | ].
    replace (Z.pos n~1) with (Z.pos n + Z.pos n + 1) by lia.
    rewrite !Z.pow_add_r by lia.
    assert (Hp : 0 < 2 ^ Z.pos n) by (apply Z.pow_pos_nonneg; lia).
    nia.
  - destruct (IH _ H0) as [H3 H4]. destruct (IH _ H3) as [H5 H6].
    split; [ exact H5 | ].
    replace (Z.pos n~0) with (Z.pos n + Z.pos n) by lia.
    rewrite !Z.pow_add_r by lia.
    assert (Hp : 0 < 2 ^ Z.pos n) by (apply Z.pow_pos_nonneg; lia).
    nia.
  - destruct (shr_1_halves mrs H0) as [H1 H2]. split; [ exact H1 | ].
    change (2 ^ 1) with 2. exact H2.
Qed.

Lemma round_nearest_even_bound (m : Z) (l : location) :
  m <= round_nearest_even m l <= m + 1.
Proof.
  unfold round_nearest_even.
  destruct l as [ | [ | | ]]; try lia. destruct (Z.even m); lia.
Qed.

Lemma shr_record_of_loc_m (m : Z) (l : location) :
  shr_m (shr_record_of_loc m l) = m.
Proof. destruct l as [ | [ | | ]]; reflexivity. Qed.

(** What [shr_fexp] returns: a mantissa that is not negative, below
    2^(d - n) after a shift by n > 0, and the exponent max(e, fexp). *)
Lemma shr_fexp_bound (m e : Z) (l : location) (mrs : shr_record) (e' : Z) :
  0 <= m ->
  shr_fexp prec emax m e l = (mrs, e') ->
  0 <= shr_m mrs /\
  e' = Z.max e (fexp prec emax (Zdigits2 m + e)) /\
  Zdigits2 (shr_m mrs) + e' <= Z.max (Zdigits2 m + e) e'.
Proof.
  intro H0. unfold shr_fexp, shr.
  set (d := Zdigits2 m).
  set (n := fexp prec emax (d + e) - e).
  destruct n as [ | p | p] eqn:Hn; intro Hs; injection Hs as <- <-;
    rewrite ?shr_record_of_loc_m.
  - split; [ exact H0 | ]. split; fold d; lia.
  - pose proof (iter_shr_1_halves p (shr_record_of_loc m l)) as H.
    rewrite shr_record_of_loc_m in H. destruct (H H0) as [H1 H2].
    split; [ exact H1 | ]. split; [ lia | ].
    set (m' := shr_m (SpecFloat.iter_pos shr_1 p (shr_record_of_loc m l)))
      in *.
    pose proof (Zdigits2_gt m H0) as Hd. fold d in Hd.
    pose proof (Zdigits2_nonneg m) as Hd0. fold d in Hd0.
    destruct (Z_le_gt_dec (Z.pos p) d) as [Hle | Hgt].
    + assert (Hm' : m' < 2 ^ (d - Z.pos p)).
      { assert (Hs : 2 ^ d = 2 ^ Z.pos p * 2 ^ (d - Z.pos p)).
        { rewrite <- Z.pow_add_r by lia. f_equal. lia. }
        assert (Hp : 0 < 2 ^ Z.pos p) by (apply Z.pow_pos_nonneg; lia).
        nia. }
      pose proof (Zdigits2_bound m' (d - Z.pos p)) as Hb.
      lia.
    + assert (Hm' : m' = 0).
      { assert (Hlt : 2 ^ d < 2 ^ Z.pos p)
          by (apply Z.pow_lt_mono_r; lia).
        assert (Hp : 0 < 2 ^ Z.pos p) by (apply Z.pow_pos_nonneg; lia).
        nia. }
      rewrite Hm'. cbn [Zdigits2]. lia.
  - split; [ exact H0 | ]. split; fold d; lia.
Qed.

Lemma binary_round_aux_finite (s : bool) (m e : Z) (l : location) :
  0 <= m ->
  Z.max e (fexp prec emax (Zdigits2 m + e)) + 1 <= emax - prec ->
  binary_round_aux prec emax s m e l = S754_zero s \/
  exists m' e', binary_round_aux prec emax s m e l = S754_finite s m' e'.
Proof.
  intros H0 Hmax. unfold binary_round_aux.
  destruct (shr_fexp prec emax m e l) as [mrs' e'] eqn:Hs1.
  destruct (shr_fexp_bound m e l mrs' e' H0 Hs1) as (Hm1 & He1 & Hd1).
  set (m1 := round_nearest_even (shr_m mrs') (loc_of_shr_record mrs')).
  pose proof (round_nearest_even_bound (shr_m mrs') (loc_of_shr_record mrs'))
    as Hr. fold m1 in Hr.
  assert (Hm1' : 0 <= m1) by lia.
  destruct (shr_fexp prec emax m1 e' loc_Exact) as [mrs'' e''] eqn:Hs2.
  destruct (shr_fexp_bound m1 e' loc_Exact mrs'' e'' Hm1' Hs2)
    as (Hm2 & He2 & _).
  destruct (shr_m mrs'') as [ | p | p]; [ left; reflexivity | | lia ].
  right.
  assert (Hd : Zdigits2 m1 <= Zdigits2 (shr_m mrs') + 1).
  { pose proof (Zdigits2_gt (shr_m mrs') Hm1) as Hg.
    pose proof (Zdigits2_nonneg (shr_m mrs')) as Hn.
    apply Zdigits2_bound; [ | lia ].
    rewrite Z.pow_add_r by lia. change (2 ^ 1) with 2. lia. }
  assert (He : e'' <= emax - prec).
  { unfold fexp, SpecFloat.emin, prec, emax in *. lia. }
  apply Z.leb_le in He. rewrite He. eauto.
Qed.

Lemma bounded_mantissa (m : positive) (e : Z) :
  bounded prec emax m e = true ->
  Z.pos m < 2 ^ 53 /\ e <= 971.
Proof.
  unfold bounded, canonical_mantissa. intro H.
  apply andb_true_iff in H. destruct H as [Hc He].
  apply Z.eqb_eq in Hc. apply Z.leb_le in He.
  split; [ | exact He ].
  pose proof (Zdigits2_gt (Z.pos m)) as Hg. cbn [Zdigits2] in Hg.
  assert (Hd : Z.pos (digits2_pos m) <= 53)
    by (unfold fexp, SpecFloat.emin, prec, emax in Hc; lia).
  assert (Hp : 2 ^ Z.pos (digits2_pos m) <= 2 ^ 53)
    by (apply Z.pow_le_mono_r; lia).
  lia.
Qed.

Lemma SFmul_finite sx mx ex sy my ey :
  bounded prec emax mx ex = true -> bounded prec emax my ey = true ->
  ex + ey <= 917 ->
  SF64mul (S754_finite sx mx ex) (S754_finite sy my ey)
  = S754_zero (xorb sx sy) \/
  exists m e,
    SF64mul (S754_finite sx mx ex) (S754_finite sy my ey)
    = S754_finite (xorb sx sy) m e.
Proof.
  intros Hx Hy He. cbn [SF64mul SFmul].
  destruct (bounded_mantissa mx ex Hx) as [Hmx _].
  destruct (bounded_mantissa my ey Hy) as [Hmy _].
  apply binary_round_aux_finite; [ lia | ].
  assert (Hd : Zdigits2 (Z.pos (mx * my)) <= 106).
  { apply Zdigits2_bound; [ | lia ].
    rewrite Pos2Z.inj_mul. change (2 ^ 106) with (2 ^ 53 * 2 ^ 53). nia. }
  unfold fexp, SpecFloat.emin, prec, emax. lia.
Qed.

End Magnitude.

Section DoubleValues.

Local Open Scope float_scope.

Lemma is_finite_number (x : float) :
  is_finite x = true -> SFnumber (Prim2SF x).
Proof.
  unfold is_finite, is_nan, is_infinity.
  rewrite !FloatAxioms.eqb_spec, abs_spec.
  destruct (Prim2SF x) as [s | s | | s m e]; cbn; try exact (fun _ => I);
    try discriminate.
  destruct s; discriminate.
Qed.

Lemma number_is_finite (x : float) :
  SFnumber (Prim2SF x) -> is_finite x = true.
Proof.
  unfold is_finite, is_nan, is_infinity.
  rewrite !FloatAxioms.eqb_spec, abs_spec.
  destruct (Prim2SF x) as [s | s | | s m e]; cbn [SFnumber];
    try contradiction; intros _.
  - reflexivity.
  - cbn [SFabs SFeqb SFcompare].
    rewrite Z.compare_refl, Pos.compare_cont_refl.
    destruct s; reflexivity.
Qed.

Lemma sub_diag (x : float) : is_finite x = true -> x - x = 0.
Proof.
  intro H. apply is_finite_number in H.
  apply Prim2SF_inj. rewrite FloatAxioms.sub_spec.
  change (Prim2SF 0) with (S754_zero false).
  destruct (Prim2SF x) as [s | s | | s m e]; cbn [SFnumber] in H;
    try contradiction; cbn [SF64sub SFsub].
  - destruct s; reflexivity.
  - cbv zeta. rewrite Z.sub_diag. reflexivity.
Qed.

Lemma mul_finite (x y : float) :
  (exists sx mx ex sy my ey,
      Prim2SF x = S754_finite sx mx ex /\ Prim2SF y = S754_finite sy my ey /\
      (ex + ey <= 917)%Z)
  \/ (exists s, Prim2SF x = S754_zero s) /\ SFnumber (Prim2SF y)
  \/ SFnumber (Prim2SF x) /\ (exists s, Prim2SF y = S754_zero s) ->
  SFnumber (Prim2SF (x * y)).
Proof.
  rewrite FloatAxioms.mul_spec.
  pose proof (Prim2SF_valid x) as Hx. pose proof (Prim2SF_valid y) as Hy.
  intros [(sx & mx & ex & sy & my & ey & Ex & Ey & He)
         | [[[s Ex] Hn] | [Hn [s Ey]]]].
  - rewrite Ex, Ey in *. cbn [SpecFloat.valid_binary] in Hx, Hy.
    destruct (SFmul_finite sx mx ex sy my ey Hx Hy He) as [-> | (m & e & ->)];
      exact I.
  - rewrite Ex. destruct (Prim2SF y); cbn [SFnumber] in Hn;
      try contradiction; exact I.
  - rewrite Ey. destruct (Prim2SF x); cbn [SFnumber] in Hn;
      try contradiction; exact I.
Qed.

Lemma deg2rad_finite (deg : float) :
  is_finite deg = true -> is_finite (Double.deg2rad deg) = true.
Proof.
  intro H. apply is_finite_number in H. apply number_is_finite.
  unfold Double.deg2rad. apply mul_finite.
  pose proof (Prim2SF_valid deg) as Hv.
  assert (Hk : Prim2SF (Double.Math_PI / 180)
               = S754_finite false 5030569068109113 (-58))
    by (vm_compute; reflexivity).
  destruct (Prim2SF deg) as [s | s | | s m e] eqn:E; cbn [SFnumber] in H;
    try contradiction.
  - right. left. split; [ eauto | ]. rewrite Hk. exact I.
  - left. exists s, m, e, false, 5030569068109113%positive, (-58)%Z.
    split; [ reflexivity | ]. split; [ exact Hk | ].
    cbn [SpecFloat.valid_binary] in Hv.
    destruct (bounded_mantissa m e Hv). lia.
Qed.

(** A double between -1 and 1 times itself, times zero, is zero. *)
Lemma le_one_sqr_zero (c : float) :
  (abs c <=? 1) = true -> c * c * 0 = 0.
Proof.
  rewrite leb_spec, abs_spec.
  change (Prim2SF 1) with (S754_finite false 4503599627370496 (-52)).
  intro Hle. apply Prim2SF_inj.
  rewrite FloatAxioms.mul_spec.
  change (Prim2SF 0) with (S754_zero false).
  rewrite FloatAxioms.mul_spec.
  pose proof (Prim2SF_valid c) as Hv.
  destruct (Prim2SF c) as [s | s | | s m e]; cbn [SFabs] in Hle;
    try discriminate.
  - cbn [SF64mul SFmul]. destruct s; reflexivity.
  - cbn [SpecFloat.valid_binary] in Hv.
    assert (He : (e <= -52)%Z).
    { unfold SFleb, SFcompare in Hle.
      destruct (Z.compare_spec e (-52)); [ lia | lia | discriminate ]. }
    assert (Hsum : (e + e <= 917)%Z) by lia.
    destruct (SFmul_finite s m e s m e Hv Hv Hsum) as [-> | (m' & e' & ->)];
      rewrite xorb_nilpotent; reflexivity.
Qed.

Lemma sqrt_negative (x : float) : (x <? 0) = true -> sqrt x = nan.
Proof.
  rewrite ltb_spec. change (Prim2SF 0) with (S754_zero false).
  intro H. apply Prim2SF_inj. rewrite sqrt_spec.
  change (Prim2SF nan) with S754_nan.
  destruct (Prim2SF x) as [s | s | | s m e]; cbn in H; try discriminate;
    destruct s; try discriminate; reflexivity.
Qed.

End DoubleValues.

(** ** Facts about [calculateDistance] in double precision *)

Section DistanceFacts64.

Local Open Scope float_scope.

Variables Math_sin Math_cos : float -> float.
Variable Math_atan2 : float -> float -> float.

Lemma calculateDistance_haversine64 lat1 lon1 lat2 lon2 :
  Double.calculateDistance Math_sin Math_cos Math_atan2 lat1 lon1 lat2 lon2 =
  6371 * (2 * Math_atan2
                (sqrt (haversine64 Math_sin Math_cos lat1 lon1 lat2 lon2))
                (sqrt (1 - haversine64 Math_sin Math_cos lat1 lon1 lat2 lon2))).
Proof. reflexivity. Qed.

Lemma calculateDistance_nan lat1 lon1 lat2 lon2 :
  (forall y, Math_atan2 y nan = nan) ->
  (1 - haversine64 Math_sin Math_cos lat1 lon1 lat2 lon2 <? 0) = true ->
  Double.calculateDistance Math_sin Math_cos Math_atan2 lat1 lon1 lat2 lon2
  = nan.
Proof.
  intros Hnan Hneg. rewrite calculateDistance_haversine64.
  rewrite (sqrt_negative _ Hneg), Hnan. reflexivity.
Qed.

Lemma calculateDistance_same64 lat lon :
  conforming Math_sin Math_cos Math_atan2 ->
  is_finite lat = true -> is_finite lon = true ->
  Double.calculateDistance Math_sin Math_cos Math_atan2 lat lon lat lon = 0.
Proof.
  intros (_ & Hsin0 & Hcos & _ & Hatan0) Hlat Hlon.
  rewrite calculateDistance_haversine64.
  assert (Ha : haversine64 Math_sin Math_cos lat lon lat lon = 0).
  { unfold haversine64. rewrite (sub_diag lat Hlat), (sub_diag lon Hlon).
    change (Double.deg2rad 0 / 2) with 0. rewrite Hsin0.
    rewrite (le_one_sqr_zero _ (Hcos _ (deg2rad_finite lat Hlat))).
    reflexivity. }
  rewrite Ha. change (sqrt 0) with 0. change (sqrt (1 - 0)) with 1.
  rewrite Hatan0. reflexivity.
Qed.

Lemma haversine64_near_antipode :
  nearestAt8Degrees Math_sin Math_cos ->
  haversine64 Math_sin Math_cos 8 121 (-8) (-59) = 0x1.0000000000001p+0.
Proof.
  intros (Hs8 & Hs90 & Hc8 & Hc8'). unfold haversine64.
  rewrite Hs8, Hs90, Hc8, Hc8'. reflexivity.
Qed.

End DistanceFacts64.

(** ** The stand-in math library of the samples *)

Section SampleMath.

Local Open Scope float_scope.

Lemma abs_opp (x : float) : abs (- x) = abs x.
Proof.
  apply Prim2SF_inj. rewrite !abs_spec, opp_spec.
  destruct (Prim2SF x); reflexivity.
Qed.

Lemma div_nan_r (y : float) : y / nan = nan.
Proof.
  apply Prim2SF_inj. rewrite FloatAxioms.div_spec.
  change (Prim2SF nan) with S754_nan.
  destruct (Prim2SF y); reflexivity.
Qed.

Lemma sample_conforming : conforming sampleSin sampleCos sampleAtan2.
Proof.
  unfold conforming, sampleSin, sampleCos, sampleAtan2.
  split; [ | split; [ | split; [ | split ] ] ].
  - intro x. rewrite abs_opp. apply mul_opp_l.
  - reflexivity.
  - intros x _. destruct (abs x =? Double.deg2rad 8); reflexivity.
  - apply div_nan_r.
  - reflexivity.
Qed.

Lemma sample_nearest : nearestAt8Degrees sampleSin sampleCos.
Proof. repeat split. Qed.

End SampleMath.

(** ** The claim about the distance estimator *)

(** C8. The Haversine distance as the runtime computes it, in doubles,
    for a [Math.sin], [Math.cos] and [Math.atan2] that conform.  The two
    directions compute the same double, so that [d(a,b) == d(b,a)]
    holds exactly when the distance is a number.  Between a point with
    finite coordinates and itself the distance is 0.  But the term under the
    square roots can exceed 1 by a rounding error, and then the distance
    is not a number and [d(a,b) == d(b,a)] is false: with the sine and
    the cosine rounded to nearest this happens between (8, 121) and
    (-8, -59), where the term is 1.0000000000000002.  Read over the
    reals, the formula is the great-circle distance on a sphere of radius
    6371 km from coordinates in degrees: a distance that is a number is
    6371 times an angle between 0 and PI, in radians, whose haversine is
    the haversine of the two points. *)
Theorem calculateDistance_symmetric :
  forall (Math_sin Math_cos : float -> float)
         (Math_atan2 : float -> float -> float),
    conforming Math_sin Math_cos Math_atan2 ->
    let distance := Double.calculateDistance Math_sin Math_cos Math_atan2 in
    let a := haversine64 Math_sin Math_cos in
    (forall lat1 lon1 lat2 lon2 : float,
        distance lat1 lon1 lat2 lon2 = distance lat2 lon2 lat1 lon1) /\
    (forall lat1 lon1 lat2 lon2 : float,
        (distance lat1 lon1 lat2 lon2 =? distance lat2 lon2 lat1 lon1)%float
        = negb (is_nan (distance lat1 lon1 lat2 lon2))) /\
    (forall lat lon : float,
        is_finite lat = true -> is_finite lon = true ->
        distance lat lon lat lon = 0%float) /\
    (forall lat1 lon1 lat2 lon2 : float,
        (1 - a lat1 lon1 lat2 lon2 <? 0)%float = true ->
        distance lat1 lon1 lat2 lon2 = nan /\
        distance lat2 lon2 lat1 lon1 = nan /\
        (distance lat1 lon1 lat2 lon2 =? distance lat2 lon2 lat1 lon1)%float
        = false) /\
    (nearestAt8Degrees Math_sin Math_cos ->
     a 8%float 121%float (-8)%float (-59)%float = 0x1.0000000000001p+0%float /\
     distance 8%float 121%float (-8)%float (-59)%float = nan /\
     distance (-8)%float (-59)%float 8%float 121%float = nan) /\
    (forall lat1 lon1 lat2 lon2 d : R,
        calculateDistance lat1 lon1 lat2 lon2 = Some d ->
        (0 <= d / 6371 <= PI)%R /\
        (sin (d / 6371 / 2) * sin (d / 6371 / 2)
         = haversine lat1 lon1 lat2 lon2)%R).
Proof.
  intros Math_sin Math_cos Math_atan2 Hconf distance a.
  pose proof Hconf as (Hodd & _ & _ & Hnan & _).
  assert (Hswap :
            forall lat1 lon1 lat2 lon2,
              distance lat1 lon1 lat2 lon2 = distance lat2 lon2 lat1 lon1)
    by (intros; apply calculateDistance_swap_double; exact Hodd).
  assert (Hneg :
            forall lat1 lon1 lat2 lon2,
              (1 - a lat1 lon1 lat2 lon2 <? 0)%float = true ->
              distance lat1 lon1 lat2 lon2 = nan)
    by (intros; apply calculateDistance_nan; assumption).
  split; [ exact Hswap | ].
  split.
  { intros lat1 lon1 lat2 lon2. rewrite <- (Hswap lat1 lon1 lat2 lon2).
    unfold is_nan. rewrite negb_involutive. reflexivity. }
  split; [ intros; apply calculateDistance_same64; assumption | ].
  split; [ | split ].
  - intros lat1 lon1 lat2 lon2 Ha.
    rewrite <- (Hswap lat1 lon1 lat2 lon2), (Hneg _ _ _ _ Ha).
    repeat split.
  - intro Hnear.
    pose proof (haversine64_near_antipode Math_sin Math_cos Hnear) as Ha.
    fold a in Ha. split; [ exact Ha | ].
    rewrite <- (Hswap 8 121 (-8) (-59))%float.
    assert (Hd : distance 8%float 121%float (-8)%float (-59)%float = nan)
      by (apply Hneg; rewrite Ha; reflexivity).
    split; exact Hd.
  - apply calculateDistance_central_angle.
Qed.

(** With the sine and the cosine rounded to nearest at the angles it
    evaluates, the distance between (8, 121) and (-8, -59) is not a
    number, in either direction. *)
Lemma calculateDistance_symmetric_witness :
  Double.calculateDistance sampleSin sampleCos sampleAtan2
    8%float 121%float (-8)%float (-59)%float = nan /\
  Double.calculateDistance sampleSin sampleCos sampleAtan2
    (-8)%float (-59)%float 8%float 121%float = nan /\
  Double.calculateDistance sampleSin sampleCos sampleAtan2
    14.5%float 121%float 14.5%float 121%float = 0%float.
Proof.
  destruct (calculateDistance_symmetric sampleSin sampleCos sampleAtan2
              sample_conforming) as (_ & _ & Hsame & _ & Hnear & _).
  destruct (Hnear sample_nearest) as (_ & H1 & H2).
  split; [ exact H1 | ]. split; [ exact H2 | ].
  apply Hsame; reflexivity.
Defined.

(** ** Facts about [Array_sort] under a comparison by descending key *)

Section SortByKey.

Context {A : Type} (key : A -> Z).

Let descending (a b : A) : Z := key b - key a.

Definition keyGe (a b : A) : Prop := key b <= key a.

Lemma Array_insert_perm (x : A) (l : list A) :
  Permutation (x :: l) (Array_insert descending x l).
Proof.
  induction l as [ | y l IH]; simpl.
  - apply Permutation_refl.
  - destruct (descending x y <=? 0).
    + apply Permutation_refl.
    + eapply perm_trans; [ apply perm_swap | ].
      apply perm_skip. exact IH.
Qed.

Lemma Array_sort_perm (l : list A) :
  Permutation l (Array_sort descending l).
Proof.
  induction l as [ | x l IH]; simpl.
  - apply perm_nil.
  - eapply perm_trans; [ apply perm_skip; exact IH | ].
    apply Array_insert_perm.
Qed.

Lemma Array_insert_HdRel (z x : A) (l : list A) :
  keyGe z x -> HdRel keyGe z l -> HdRel keyGe z (Array_insert descending x l).
Proof.
  intros Hzx Hzl. destruct l as [ | y l]; simpl.
  - constructor. exact Hzx.
  - destruct (descending x y <=? 0); constructor.
    + exact Hzx.
    + inversion Hzl; assumption.
Qed.

Lemma Array_insert_sorted (x : A) (l : list A) :
  Sorted keyGe l -> Sorted keyGe (Array_insert descending x l).
Proof.
  induction l as [ | y l IH]; simpl; intro Hs.
  - repeat constructor.
  - destruct (descending x y <=? 0) eqn:Hc.
    + constructor; [ exact Hs | ].
      constructor. unfold keyGe. unfold descending in Hc. lia.
    + inversion Hs as [ | ? ? Hl Hhd]; subst.
      constructor; [ apply IH; exact Hl | ].
      apply Array_insert_HdRel; [ | exact Hhd ].
      unfold keyGe. unfold descending in Hc. lia.
Qed.

Lemma Array_sort_sorted (l : list A) :
  Sorted keyGe (Array_sort descending l).
Proof.
  induction l as [ | x l IH]; simpl.
  - constructor.
  - apply Array_insert_sorted. exact IH.
Qed.

(** Insertion only moves an element past elements of another key. *)
Lemma Array_insert_same_key (s : Z) (x : A) (l : list A) :
  filter (fun a => key a =? s) (Array_insert descending x l) =
  filter (fun a => key a =? s) (x :: l).
Proof.
  induction l as [ | y l IH]; [ reflexivity | ].
  cbn [Array_insert].
  destruct (descending x y <=? 0) eqn:Hc; [ reflexivity | ].
  cbn [filter] in *. rewrite IH.
  destruct (key x =? s) eqn:Hx; destruct (key y =? s) eqn:Hy;
    try reflexivity.
  exfalso. unfold descending in Hc. lia.
Qed.

Lemma Array_sort_same_key (s : Z) (l : list A) :
  filter (fun a => key a =? s) (Array_sort descending l) =
  filter (fun a => key a =? s) l.
Proof.
  induction l as [ | x l IH]; [ reflexivity | ].
  cbn [Array_sort fold_right].
  rewrite Array_insert_same_key.
  cbn [filter]. fold (Array_sort descending l). rewrite IH. reflexivity.
Qed.

Lemma Sorted_adjacent (l : list A) :
  Sorted keyGe l ->
  forall (i : nat) (a b : A),
    nth_error l i = Some a -> nth_error l (S i) = Some b -> key a >= key b.
Proof.
  induction 1 as [ | x l Hs IH Hhd]; intros i a b Ha Hb.
  - destruct i; discriminate.
  - destruct i as [ | i].
    + simpl in Ha. injection Ha as <-.
      destruct l as [ | y l]; [ discriminate | ].
      simpl in Hb. injection Hb as <-.
      inversion Hhd; subst. unfold keyGe in *. lia.
    + apply (IH i); assumption.
Qed.

End SortByKey.

(** ** Facts about the ranking pipeline *)

Lemma rankMatches_In (l : list MatchResult.t) (m : MatchResult.t) :
  In m (rankMatches l) <-> In m l /\ 30 < MatchResult.score m.
Proof.
  unfold rankMatches. split.
  - intro H.
    apply (Permutation_in m
             (Permutation_sym (Array_sort_perm MatchResult.score _))) in H.
    apply filter_In in H. destruct H as [Hin Hs].
    split; [ exact Hin | ]. unfold aboveThreshold in Hs. lia.
  - intros [Hin Hs].
    apply (Permutation_in m (Array_sort_perm MatchResult.score _)).
    apply filter_In. split; [ exact Hin | ].
    unfold aboveThreshold. lia.
Qed.

Lemma rankMatches_above (l : list MatchResult.t) :
  Forall (fun m => 30 < MatchResult.score m) (rankMatches l).
Proof.
  apply Forall_forall. intros m H. apply rankMatches_In in H. tauto.
Qed.

Lemma rankMatches_nonIncreasing (l : list MatchResult.t) :
  nonIncreasing (rankMatches l).
Proof.
  unfold nonIncreasing, rankMatches.
  apply (Sorted_adjacent MatchResult.score).
  apply Array_sort_sorted.
Qed.

Lemma rankMatches_withScore (s : Z) (l : list MatchResult.t) :
  30 < s -> withScore s (rankMatches l) = withScore s l.
Proof.
  intro Hs. unfold withScore, rankMatches.
  rewrite (Array_sort_same_key MatchResult.score).
  induction l as [ | m l IH]; [ reflexivity | ].
  cbn [filter]. unfold aboveThreshold at 1.
  destruct (30 <? MatchResult.score m) eqn:Ha; cbn [filter].
  - rewrite IH. reflexivity.
  - destruct (MatchResult.score m =? s) eqn:He; [ exfalso; lia | exact IH ].
Qed.

(** ** The computations never throw *)

Lemma try_catch_ret {A} (body : Async A) (a0 : A) (w : World) :
  exists a w', try_catch body (ret a0) w = (Ok a, w').
Proof.
  unfold try_catch, ret.
  destruct (body w) as [[a | ] w']; eauto.
Qed.

Lemma fetchDonationById_ok (id : string) (w : World) :
  exists r w', fetchDonationById id w = (Ok r, w').
Proof. unfold fetchDonationById. apply try_catch_ret. Qed.

Lemma fetchDonationsByLocationScope_ok scope userLocation (w : World) :
  exists l w', fetchDonationsByLocationScope scope userLocation w = (Ok l, w').
Proof. unfold fetchDonationsByLocationScope. apply try_catch_ret. Qed.

Lemma findMatchesForRecipient_run Date_parse recipientNeeds (w : World) :
  exists availableDonations w',
    findMatchesForRecipient Date_parse recipientNeeds w =
    (Ok (matchesAmong Date_parse (clock w') recipientNeeds availableDonations),
     w').
Proof.
  destruct (fetchDonationsByLocationScope_ok
              (UserNeedsPreferences.locationScope recipientNeeds)
              (UserNeedsPreferences.location recipientNeeds) w)
    as (l & w' & Hf).
  exists l, w'. unfold findMatchesForRecipient, try_catch, bind.
  rewrite Hf. reflexivity.
Qed.

Lemma findRecipientsForDonation_run donationId userPreferences (w : World) :
  exists w',
    (fetchDonationById donationId w = (Ok None, w') /\
     findRecipientsForDonation donationId userPreferences w = (Ok [], w'))
    \/
    (exists donation,
        fetchDonationById donationId w = (Ok (Some donation), w') /\
        findRecipientsForDonation donationId userPreferences w =
        (Ok (recipientsAmong donation userPreferences), w')).
Proof.
  destruct (fetchDonationById_ok donationId w) as (r & w' & Hf).
  exists w'. unfold findRecipientsForDonation, try_catch, bind.
  rewrite Hf. destruct r as [donation | ].
  - right. exists donation. split; reflexivity.
  - left. split; reflexivity.
Qed.

(** ** Facts about the scoring rules *)

Lemma award_additive (acc : Tally) (points : Z) (reason : string) :
  award acc points reason =
  (fst acc + fst (award (0, []) points reason),
   snd acc ++ snd (award (0, []) points reason)).
Proof. reflexivity. Qed.

Lemma skip_additive (acc : Tally) : acc = (fst acc + 0, snd acc ++ []).
Proof.
  destruct acc as [s r]. cbn [fst snd].
  rewrite Z.add_0_r, app_nil_r. reflexivity.
Qed.

Ltac rule_cases :=
  repeat match goal with
         | |- context [match ?x with _ => _ end] => destruct x
         end;
  first [ apply award_additive | apply skip_additive ].

Lemma ruleCategory_additive categories category :
  additive (ruleCategory categories category).
Proof.
  intro acc. unfold contribution, reasons, ruleCategory. rule_cases.
Qed.

Lemma ruleUrgency_additive urgency status :
  additive (ruleUrgency urgency status).
Proof.
  intro acc. unfold contribution, reasons, ruleUrgency. rule_cases.
Qed.

Lemma ruleLocation_additive location maxDistance latitude longitude :
  additive (ruleLocation location maxDistance latitude longitude).
Proof.
  intro acc. unfold contribution, reasons, ruleLocation.
  destruct location as [loc | ]; [ | apply skip_additive ].
  destruct (truthy latitude) as [lat | ]; [ | apply skip_additive ].
  destruct (truthy longitude) as [lon | ]; [ | apply skip_additive ].
  destruct (calculateDistance _ _ _ _) as [distance | ];
    [ | apply skip_additive ].
  cbv zeta.
  destruct (Rle_dec _ _); [ apply award_additive | apply skip_additive ].
Qed.

Lemma ruleRecency_additive now donationDate :
  additive (ruleRecency now donationDate).
Proof.
  intro acc. unfold contribution, reasons, ruleRecency.
  destruct donationDate as [t | ]; [ | apply skip_additive ].
  cbv zeta.
  destruct (Rle_dec _ _); [ apply award_additive | apply skip_additive ].
Qed.

(** The score and the reasons of one candidate, rule by rule. *)
Lemma scoreDonation_rules Date_parse now recipientNeeds donation :
  let rc := ruleCategory (UserNeedsPreferences.categories recipientNeeds)
              (DonationData.category donation) in
  let ru := ruleUrgency (UserNeedsPreferences.urgency recipientNeeds)
              (DonationData.status donation) in
  let rl := ruleLocation (UserNeedsPreferences.location recipientNeeds)
              (UserNeedsPreferences.maxDistance recipientNeeds)
              (DonationData.latitude donation)
              (DonationData.longitude donation) in
  let rr := ruleRecency now (Date_parse (DonationData.date donation)) in
  scoreDonation Date_parse now recipientNeeds donation =
  MatchResult.mk (DonationData.id donation)
    (UserNeedsPreferences.userId recipientNeeds)
    (contribution rc + contribution ru + contribution rl + contribution rr)
    (reasons rc ++ reasons ru ++ reasons rl ++ reasons rr).
Proof.
  intros rc ru rl rr. subst rc ru rl rr. unfold scoreDonation. cbv zeta.
  rewrite (ruleCategory_additive _ _ (0, [])).
  rewrite (ruleUrgency_additive _ _ (_, _)).
  rewrite (ruleLocation_additive _ _ _ _ (_, _)).
  rewrite (ruleRecency_additive _ _ (_, _)).
  cbn [fst snd]. f_equal.
  rewrite <- !app_assoc. reflexivity.
Qed.

Lemma scoreRecipient_rules donation recipient :
  let rc := ruleCategory (UserNeedsPreferences.categories recipient)
              (DonationData.category donation) in
  let ru := ruleUrgency (UserNeedsPreferences.urgency recipient)
              (DonationData.status donation) in
  let rl := ruleLocation (UserNeedsPreferences.location recipient)
              (UserNeedsPreferences.maxDistance recipient)
              (DonationData.latitude donation)
              (DonationData.longitude donation) in
  scoreRecipient donation recipient =
  MatchResult.mk (DonationData.id donation)
    (UserNeedsPreferences.userId recipient)
    (contribution rc + contribution ru + contribution rl)
    (reasons rc ++ reasons ru ++ reasons rl).
Proof.
  intros rc ru rl. subst rc ru rl. unfold scoreRecipient. cbv zeta.
  rewrite (ruleCategory_additive _ _ (0, [])).
  rewrite (ruleUrgency_additive _ _ (_, _)).
  rewrite (ruleLocation_additive _ _ _ _ (_, _)).
  cbn [fst snd]. f_equal.
  rewrite <- !app_assoc. reflexivity.
Qed.

(** What each rule contributes. *)
Lemma ruleCategory_cases categories category :
  (includes categories category = true /\
   contribution (ruleCategory categories category) = 30 /\
   reasons (ruleCategory categories category) = [reason_category category])
  \/
  (includes categories category = false /\
   contribution (ruleCategory categories category) = 0 /\
   reasons (ruleCategory categories category) = []).
Proof.
  unfold contribution, reasons, ruleCategory.
  destruct (includes categories category); [ left | right ];
    repeat split; reflexivity.
Qed.

Lemma ruleUrgency_cases urgency status :
  (urgency = Some Urgency.high /\ status = Status.urgent /\
   contribution (ruleUrgency urgency status) = 25 /\
   reasons (ruleUrgency urgency status) = [reason_urgent])
  \/
  (~ (urgency = Some Urgency.high /\ status = Status.urgent) /\
   contribution (ruleUrgency urgency status) = 0 /\
   reasons (ruleUrgency urgency status) = []).
Proof.
  unfold contribution, reasons, ruleUrgency.
  destruct urgency as [[ | | ] | ]; destruct status; cbn;
    solve [ left; repeat split; reflexivity
          | right; repeat split; try reflexivity;
            intros [H1 H2]; discriminate ].
Qed.

Lemma proximity_range (distance maxDistance : R) :
  (0 <= distance)%R -> (distance <= maxDistance)%R -> maxDistance <> 0%R ->
  0 <= Math.round (25 * (1 - distance / maxDistance)) <= 25.
Proof.
  intros H0 Hle Hne.
  assert (Hm : (0 < maxDistance)%R) by lra.
  assert (Hq : (0 <= distance / maxDistance <= 1)%R).
  { split.
    - apply Rmult_le_pos; [ exact H0 | ].
      left. apply Rinv_0_lt_compat. exact Hm.
    - apply (Rmult_le_reg_r maxDistance); [ exact Hm | ].
      unfold Rdiv. rewrite Rmult_assoc, Rinv_l by exact Hne. lra. }
  split.
  - assert (H : (IZR 0 <= 25 * (1 - distance / maxDistance))%R) by lra.
    apply round_le in H. rewrite round_IZR in H. exact H.
  - assert (H : (25 * (1 - distance / maxDistance) <= IZR 25)%R) by lra.
    apply round_le in H. rewrite round_IZR in H. exact H.
Qed.

Lemma truthy_Some (x : option R) (v : R) :
  truthy x = Some v -> x = Some v /\ v <> 0%R.
Proof.
  destruct x as [u | ]; [ | discriminate ]. unfold truthy.
  destruct (Req_dec_T u 0) as [ | Hne]; [ discriminate | ].
  intro H. injection H as <-. split; [ reflexivity | exact Hne ].
Qed.

Lemma ruleLocation_range location maxDistance latitude longitude :
  0 <= contribution (ruleLocation location maxDistance latitude longitude)
    <= 25.
Proof.
  unfold contribution, ruleLocation.
  destruct location as [loc | ]; [ | cbn; lia ].
  destruct (truthy latitude) as [lat | ]; [ | cbn; lia ].
  destruct (truthy longitude) as [lon | ]; [ | cbn; lia ].
  destruct (calculateDistance _ _ _ _) as [distance | ] eqn:Hd;
    [ | cbn; lia ].
  cbv zeta.
  destruct (Rle_dec _ _) as [Hle | ]; [ | cbn; lia ].
  cbn [award fst]. rewrite Z.add_0_l.
  apply proximity_range.
  - eapply calculateDistance_nonneg. exact Hd.
  - exact Hle.
  - destruct (truthy maxDistance) as [m | ] eqn:Hm; [ | lra ].
    apply truthy_Some in Hm. tauto.
Qed.

Lemma recency_range (daysSinceDonation : R) :
  (0 <= daysSinceDonation <= 7)%R ->
  0 <= Math.round (20 * (1 - daysSinceDonation / 7)) <= 20.
Proof.
  intros [H0 H7]. split.
  - assert (H : (IZR 0 <= 20 * (1 - daysSinceDonation / 7))%R) by lra.
    apply round_le in H. rewrite round_IZR in H. exact H.
  - assert (H : (20 * (1 - daysSinceDonation / 7) <= IZR 20)%R) by lra.
    apply round_le in H. rewrite round_IZR in H. exact H.
Qed.

(** The reason strings of the three shared rules differ from the recency
    reason. *)
Lemma reason_category_not_recent category :
  reason_category category <> reason_recent.
Proof. unfold reason_category, reason_recent. cbn. discriminate. Qed.

Lemma reason_urgent_not_recent : reason_urgent <> reason_recent.
Proof. discriminate. Qed.

Lemma reason_proximity_not_recent distance :
  reason_proximity distance <> reason_recent.
Proof. unfold reason_proximity, reason_recent. cbn. discriminate. Qed.

(** ** Facts about the location and recency rules *)

Lemma ruleRecency_cases (now : Z) (donationDate : option Z) :
  (exists t,
      donationDate = Some t /\
      (IZR (now - t) / msPerDayR <= 7)%R /\
      contribution (ruleRecency now donationDate)
      = Math.round (20 * (1 - IZR (now - t) / msPerDayR / 7)) /\
      reasons (ruleRecency now donationDate) = [reason_recent])
  \/
  ((forall t, donationDate = Some t ->
              ~ (IZR (now - t) / msPerDayR <= 7)%R) /\
   contribution (ruleRecency now donationDate) = 0 /\
   reasons (ruleRecency now donationDate) = []).
Proof.
  unfold contribution, reasons, ruleRecency, msPerDayR.
  destruct donationDate as [t | ].
  - cbv zeta. destruct (Rle_dec _ _) as [Hle | Hgt].
    + left. exists t. repeat split. exact Hle.
    + right. repeat split. intros t' Ht'. injection Ht' as <-. exact Hgt.
  - right. repeat split. intros t Ht. discriminate.
Qed.

Lemma ruleLocation_cases location maxDistance latitude longitude :
  (exists loc lat lon distance,
      location = Some loc /\
      truthy latitude = Some lat /\ truthy longitude = Some lon /\
      calculateDistance (Location.latitude loc) (Location.longitude loc)
        lat lon = Some distance /\
      (distance <= effectiveMaxDistance maxDistance)%R /\
      contribution (ruleLocation location maxDistance latitude longitude)
      = Math.round (25 * (1 - distance / effectiveMaxDistance maxDistance)) /\
      reasons (ruleLocation location maxDistance latitude longitude)
      = [reason_proximity distance])
  \/
  ((forall loc lat lon distance,
       location = Some loc ->
       truthy latitude = Some lat -> truthy longitude = Some lon ->
       calculateDistance (Location.latitude loc) (Location.longitude loc)
         lat lon = Some distance ->
       ~ (distance <= effectiveMaxDistance maxDistance)%R)
   /\
   contribution (ruleLocation location maxDistance latitude longitude) = 0 /\
   reasons (ruleLocation location maxDistance latitude longitude) = []).
Proof.
  unfold contribution, reasons, ruleLocation, effectiveMaxDistance.
  destruct location as [loc | ];
    [ | right; repeat split; intros; discriminate ].
  destruct (truthy latitude) as [lat | ];
    [ | right; repeat split; intros; discriminate ].
  destruct (truthy longitude) as [lon | ];
    [ | right; repeat split; intros; discriminate ].
  destruct (calculateDistance _ _ _ _) as [distance | ] eqn:Hd.
  - cbv zeta. destruct (Rle_dec _ _) as [Hle | Hgt].
    + left. exists loc, lat, lon, distance. repeat split; assumption.
    + right. repeat split. intros loc' lat' lon' distance' H1 H2 H3 H4.
      injection H1 as <-. injection H2 as <-. injection H3 as <-.
      rewrite Hd in H4. injection H4 as <-. exact Hgt.
  - right. repeat split. intros loc' lat' lon' distance' H1 H2 H3 H4.
    injection H1 as <-. injection H2 as <-. injection H3 as <-.
    rewrite Hd in H4. discriminate.
Qed.

(** The bonus of a donation listed [elapsed] milliseconds before [now]. *)
Lemma recency_after (now elapsed bonus : Z) :
  (IZR elapsed / msPerDayR <= 7)%R ->
  (IZR bonus <= 20 * (1 - IZR elapsed / msPerDayR / 7) + / 2
   < IZR bonus + 1)%R ->
  contribution (ruleRecency now (Some (now - elapsed))) = bonus /\
  reasons (ruleRecency now (Some (now - elapsed))) = [reason_recent].
Proof.
  intros Hle Hround.
  destruct (ruleRecency_cases now (Some (now - elapsed)))
    as [(t & Ht & _ & Hc & Hr) | (Hno & _)].
  - injection Ht as <-. rewrite Hc, Hr.
    replace (now - (now - elapsed)) with elapsed by lia.
    split; [ apply round_eq; exact Hround | reflexivity ].
  - exfalso. apply (Hno _ eq_refl).
    replace (now - (now - elapsed)) with elapsed by lia. exact Hle.
Qed.

Lemma truthy_zero : truthy (Some 0%R) = None.
Proof.
  unfold truthy. destruct (Req_dec_T 0 0) as [_ | Hne];
    [ reflexivity | exfalso; apply Hne; reflexivity ].
Qed.

Lemma truthy_nonzero (v : R) : v <> 0%R -> truthy (Some v) = Some v.
Proof.
  intro Hne. unfold truthy. destruct (Req_dec_T v 0) as [He | _];
    [ contradiction | reflexivity ].
Qed.

Lemma ruleLocation_zero_coordinate location maxDistance latitude longitude
    (acc : Tally) :
  latitude = Some 0%R \/ longitude = Some 0%R ->
  ruleLocation location maxDistance latitude longitude acc = acc.
Proof.
  intros [-> | ->]; unfold ruleLocation; rewrite truthy_zero.
  - destruct location; reflexivity.
  - destruct location; [ destruct (truthy latitude) | ]; reflexivity.
Qed.

Lemma ruleLocation_absent location maxDistance (acc : Tally) :
  ruleLocation location maxDistance None None acc = acc.
Proof. unfold ruleLocation. destruct location; reflexivity. Qed.

(** ** The claims about ranking *)

(** C1. Every result returned by either scoring direction has a score
    strictly greater than 30, whatever the needs and the candidates; a
    candidate whose score is exactly 30 is not among the results. *)
Theorem results_score_above_30 :
  forall Date_parse : string -> option Z,
    (forall now recipientNeeds availableDonations,
        Forall (fun m => 30 < MatchResult.score m)
          (matchesAmong Date_parse now recipientNeeds availableDonations)) /\
    (forall donation userPreferences,
        Forall (fun m => 30 < MatchResult.score m)
          (recipientsAmong donation userPreferences)) /\
    (forall recipientNeeds w,
        exists l,
          returned (findMatchesForRecipient Date_parse recipientNeeds w)
          = Some l /\
          Forall (fun m => 30 < MatchResult.score m) l) /\
    (forall donationId userPreferences w,
        exists l,
          returned (findRecipientsForDonation donationId userPreferences w)
          = Some l /\
          Forall (fun m => 30 < MatchResult.score m) l) /\
    (forall now recipientNeeds availableDonations donation,
        MatchResult.score (scoreDonation Date_parse now recipientNeeds donation)
        = 30 ->
        ~ In (scoreDonation Date_parse now recipientNeeds donation)
            (matchesAmong Date_parse now recipientNeeds availableDonations)) /\
    (forall donation userPreferences recipient,
        MatchResult.score (scoreRecipient donation recipient) = 30 ->
        ~ In (scoreRecipient donation recipient)
            (recipientsAmong donation userPreferences)).
Proof.
  intro Date_parse.
  assert (Hm : forall now recipientNeeds availableDonations,
             Forall (fun m => 30 < MatchResult.score m)
               (matchesAmong Date_parse now recipientNeeds availableDonations))
    by (intros; apply rankMatches_above).
  assert (Hr : forall donation userPreferences,
             Forall (fun m => 30 < MatchResult.score m)
               (recipientsAmong donation userPreferences))
    by (intros; apply rankMatches_above).
  repeat split.
  - exact Hm.
  - exact Hr.
  - intros recipientNeeds w.
    destruct (findMatchesForRecipient_run Date_parse recipientNeeds w)
      as (l & w' & Hrun).
    eexists. unfold returned. rewrite Hrun. split; [ reflexivity | apply Hm ].
  - intros donationId userPreferences w.
    destruct (findRecipientsForDonation_run donationId userPreferences w)
      as (w' & [[_ Hrun] | (d & _ & Hrun)]);
      eexists; unfold returned; rewrite Hrun;
      (split; [ reflexivity | ]).
    + constructor.
    + apply Hr.
  - intros now recipientNeeds availableDonations donation H30 Hin.
    pose proof (Hm now recipientNeeds availableDonations) as Hall.
    rewrite Forall_forall in Hall. apply Hall in Hin. lia.
  - intros donation userPreferences recipient H30 Hin.
    pose proof (Hr donation userPreferences) as Hall.
    rewrite Forall_forall in Hall. apply Hall in Hin. lia.
Qed.

(** C3. The results of either scoring direction are in non-increasing
    order of score, and the results of any one score appear in the order
    their candidates had in the input. *)
Theorem results_sorted_stable :
  forall Date_parse : string -> option Z,
    (forall now recipientNeeds availableDonations,
        nonIncreasing
          (matchesAmong Date_parse now recipientNeeds availableDonations) /\
        forall s, 30 < s ->
          withScore s
            (matchesAmong Date_parse now recipientNeeds availableDonations)
          = withScore s
              (map (scoreDonation Date_parse now recipientNeeds)
                 availableDonations)) /\
    (forall donation userPreferences,
        nonIncreasing (recipientsAmong donation userPreferences) /\
        forall s, 30 < s ->
          withScore s (recipientsAmong donation userPreferences)
          = withScore s (map (scoreRecipient donation) userPreferences)) /\
    (forall recipientNeeds w,
        exists l,
          returned (findMatchesForRecipient Date_parse recipientNeeds w)
          = Some l /\ nonIncreasing l) /\
    (forall donationId userPreferences w,
        exists l,
          returned (findRecipientsForDonation donationId userPreferences w)
          = Some l /\ nonIncreasing l).
Proof.
  intro Date_parse. repeat split.
  - apply rankMatches_nonIncreasing.
  - intros s Hs. apply rankMatches_withScore. exact Hs.
  - apply rankMatches_nonIncreasing.
  - intros s Hs. apply rankMatches_withScore. exact Hs.
  - intros recipientNeeds w.
    destruct (findMatchesForRecipient_run Date_parse recipientNeeds w)
      as (l & w' & Hrun).
    eexists. unfold returned. rewrite Hrun.
    split; [ reflexivity | apply rankMatches_nonIncreasing ].
  - intros donationId userPreferences w.
    destruct (findRecipientsForDonation_run donationId userPreferences w)
      as (w' & [[_ Hrun] | (d & _ & Hrun)]);
      eexists; unfold returned; rewrite Hrun;
      (split; [ reflexivity | ]).
    + intros [ | i] a b Ha; discriminate.
    + apply rankMatches_nonIncreasing.
Qed.

(** C4. The donation direction never applies the recency rule: every
    returned score is the sum of the category contribution (0 or 30), the
    urgency contribution (0 or 25) and the proximity contribution (from 0
    to 25) of its recipient, the reason "Recently listed donation" occurs
    in no result, and the date of the donation has no influence. *)
Theorem recipients_ignore_recency :
  (forall donation userPreferences,
      Forall
        (fun m =>
           exists recipient,
             In recipient userPreferences /\
             m = scoreRecipient donation recipient /\
             let c := contribution
                        (ruleCategory
                           (UserNeedsPreferences.categories recipient)
                           (DonationData.category donation)) in
             let u := contribution
                        (ruleUrgency (UserNeedsPreferences.urgency recipient)
                           (DonationData.status donation)) in
             let p := contribution
                        (ruleLocation
                           (UserNeedsPreferences.location recipient)
                           (UserNeedsPreferences.maxDistance recipient)
                           (DonationData.latitude donation)
                           (DonationData.longitude donation)) in
             MatchResult.score m = c + u + p /\
             (c = 0 \/ c = 30) /\ (u = 0 \/ u = 25) /\ 0 <= p <= 25 /\
             ~ In reason_recent (MatchResult.matchReason m))
        (recipientsAmong donation userPreferences)) /\
  (forall donation userPreferences date',
      recipientsAmong (DonationData.with_date donation date') userPreferences
      = recipientsAmong donation userPreferences) /\
  (forall donationId userPreferences w,
      exists l,
        returned (findRecipientsForDonation donationId userPreferences w)
        = Some l /\
        Forall (fun m => ~ In reason_recent (MatchResult.matchReason m)) l).
Proof.
  assert (Hcore : forall donation recipient,
             ~ In reason_recent
                 (MatchResult.matchReason (scoreRecipient donation recipient))).
  { intros donation recipient. rewrite scoreRecipient_rules.
    cbn [MatchResult.matchReason]. rewrite !in_app_iff.
    intros [H | [H | H]].
    - destruct (ruleCategory_cases
                  (UserNeedsPreferences.categories recipient)
                  (DonationData.category donation))
        as [(_ & _ & Hr) | (_ & _ & Hr)]; rewrite Hr in H.
      + destruct H as [H | []].
        exact (reason_category_not_recent _ H).
      + destruct H.
    - destruct (ruleUrgency_cases (UserNeedsPreferences.urgency recipient)
                  (DonationData.status donation))
        as [(_ & _ & _ & Hr) | (_ & _ & Hr)]; rewrite Hr in H.
      + destruct H as [H | []]. exact (reason_urgent_not_recent H).
      + destruct H.
    - unfold reasons, ruleLocation in H.
      destruct (UserNeedsPreferences.location recipient); [ | destruct H ].
      destruct (truthy (DonationData.latitude donation)); [ | destruct H ].
      destruct (truthy (DonationData.longitude donation)); [ | destruct H ].
      destruct (calculateDistance _ _ _ _); [ | destruct H ].
      cbv zeta in H. destruct (Rle_dec _ _); [ | destruct H ].
      destruct H as [H | []]. exact (reason_proximity_not_recent _ H). }
  repeat split.
  - intros donation userPreferences. apply Forall_forall. intros m Hin.
    unfold recipientsAmong in Hin. apply rankMatches_In in Hin.
    destruct Hin as [Hin _]. apply in_map_iff in Hin.
    destruct Hin as (recipient & <- & Hin).
    exists recipient. split; [ exact Hin | ]. split; [ reflexivity | ].
    cbv zeta. split; [ rewrite scoreRecipient_rules; reflexivity | ].
    split.
    { destruct (ruleCategory_cases
                  (UserNeedsPreferences.categories recipient)
                  (DonationData.category donation))
        as [(_ & Hc & _) | (_ & Hc & _)]; rewrite Hc; auto. }
    split.
    { destruct (ruleUrgency_cases (UserNeedsPreferences.urgency recipient)
                  (DonationData.status donation))
        as [(_ & _ & Hu & _) | (_ & Hu & _)]; rewrite Hu; auto. }
    split; [ apply ruleLocation_range | apply Hcore ].
  - intros donation userPreferences w.
    destruct (findRecipientsForDonation_run donation userPreferences w)
      as (w' & [[_ Hrun] | (d & _ & Hrun)]);
      eexists; unfold returned; rewrite Hrun;
      (split; [ reflexivity | ]).
    + constructor.
    + apply Forall_forall. intros m Hin.
      unfold recipientsAmong in Hin. apply rankMatches_In in Hin.
      destruct Hin as [Hin _]. apply in_map_iff in Hin.
      destruct Hin as (recipient & <- & _). apply Hcore.
Qed.

(** ** The claims about lookup *)

Lemma findById_app (id : string) (l1 l2 : list DonationData.t) :
  findById id (l1 ++ l2) = None <->
  findById id l1 = None /\ findById id l2 = None.
Proof.
  unfold findById. induction l1 as [ | d l1 IH]; cbn [app find].
  - tauto.
  - destruct (String.eqb (DonationData.id d) id).
    + split; [ discriminate | intros [H _]; discriminate ].
    + exact IH.
Qed.

(** [scrapeDonations] returns the cached data or the mock data, and
    leaves local storage alone. *)
Lemma scrapeDonations_data (w : World) :
  exists l w',
    scrapeDonations w = (Ok l, w') /\
    userDonationsItem w' = userDonationsItem w /\
    (l = mockFilipinoDonations \/
     exists c, scrapedDataCache w = Some c /\ l = Cache.data c).
Proof.
  destruct w as [cache item now].
  unfold scrapeDonations, scrapeRealDonations, isCacheValid, getCache,
    setCache, sleep, Date_now, try_catch, bind, ret.
  cbn [scrapedDataCache userDonationsItem clock].
  destruct cache as [c | ].
  - destruct (now - Cache.timestamp c <? 24 * 60 * 60 * 1000);
      cbn [scrapedDataCache userDonationsItem clock];
      do 2 eexists; (split; [ reflexivity | ]); (split; [ reflexivity | ]).
    + right. exists c. split; reflexivity.
    + left. reflexivity.
  - cbn [scrapedDataCache userDonationsItem clock].
    do 2 eexists. split; [ reflexivity | ]. split; [ reflexivity | ].
    left. reflexivity.
Qed.

Lemma scrapeDonationById_unknown (id : string) (w : World) :
  findById id mockFilipinoDonations = None ->
  (forall c, scrapedDataCache w = Some c ->
             findById id (Cache.data c) = None) ->
  exists w',
    scrapeDonationById id w = (Ok None, w') /\
    userDonationsItem w' = userDonationsItem w.
Proof.
  intros Hmock Hcache.
  destruct (scrapeDonations_data w) as (l & w' & Hs & Hitem & Hl).
  assert (Hnone : findById id l = None).
  { destruct Hl as [-> | (c & Hc & ->)]; [ exact Hmock | ].
    apply Hcache. exact Hc. }
  assert (Hthen :
            (donations <- scrapeDonations ;; ret (findById id donations)) w
            = (Ok None, w')).
  { unfold bind, ret. rewrite Hs, Hnone. reflexivity. }
  exists w'. split; [ | exact Hitem ].
  unfold scrapeDonationById, bind at 1 2, isCacheValid, getCache.
  destruct (scrapedDataCache w) as [c | ] eqn:Hc;
    cbv beta iota zeta; rewrite ?Hc.
  - destruct (clock w - Cache.timestamp c <? 24 * 60 * 60 * 1000).
    + rewrite (Hcache c eq_refl). exact Hthen.
    + exact Hthen.
  - exact Hthen.
Qed.

Lemma fetchDonationById_unknown (id : string) (w : World) :
  findById id (knownDonations w) = None ->
  exists w', fetchDonationById id w = (Ok None, w').
Proof.
  unfold knownDonations. rewrite !findById_app.
  intros (Hmock & Hcache & Huser).
  destruct (scrapeDonationById_unknown id w Hmock) as (w' & Hs & Hitem).
  { intros c Hc. rewrite Hc in Hcache. exact Hcache. }
  unfold fetchDonationById, try_catch, bind. rewrite Hs.
  unfold parseUserDonations, ret. rewrite Hitem.
  destruct (userDonationsItem w) as [ | | l]; eauto.
  rewrite Huser. eauto.
Qed.

(** C5. A donation id that resolves to no known donation (it is found
    neither in the scraper's data nor among the stored user donations, so
    that [fetchDonationById] returns null) makes
    [findRecipientsForDonation] return the empty list, whatever the
    candidate recipients; the operation returns a list and does not throw
    in any case. *)
Theorem unknown_donation_no_recipients :
  forall (donationId : string)
         (userPreferences : list UserNeedsPreferences.t) (w : World),
    (findById donationId (knownDonations w) = None ->
     returned (fetchDonationById donationId w) = Some None) /\
    (returned (fetchDonationById donationId w) = Some None ->
     returned (findRecipientsForDonation donationId userPreferences w)
     = Some []) /\
    (exists l,
        returned (findRecipientsForDonation donationId userPreferences w)
        = Some l).
Proof.
  intros donationId userPreferences w.
  split; [ | split ].
  - intro Hunknown.
    destruct (fetchDonationById_unknown donationId w Hunknown) as (w' & Hf).
    unfold returned. rewrite Hf. reflexivity.
  - intro Hnull.
    destruct (findRecipientsForDonation_run donationId userPreferences w)
      as (w' & [[_ Hrun] | (d & Hf & _)]).
    + unfold returned. rewrite Hrun. reflexivity.
    + unfold returned in Hnull. rewrite Hf in Hnull. discriminate.
  - destruct (findRecipientsForDonation_run donationId userPreferences w)
      as (w' & [[_ Hrun] | (d & _ & Hrun)]);
      eexists; unfold returned; rewrite Hrun; reflexivity.
Qed.

Lemma unknown_donation_no_recipients_witness :
  findById "nonexistent-id" (knownDonations world0) = None /\
  returned (findRecipientsForDonation "nonexistent-id" [disasterNeeds] world0)
  = Some [].
Proof.
  split; [ reflexivity | ].
  destruct (unknown_donation_no_recipients "nonexistent-id" [disasterNeeds]
              world0) as (Hnull & Hempty & _).
  apply Hempty. apply Hnull. reflexivity.
Defined.

(** What [scrapeDonations] does, by the state of the cache. *)
Lemma scrapeDonations_run (w : World) :
  scrapeDonations w =
  match scrapedDataCache w with
  | Some c =>
      if cacheFresh w then (Ok (Cache.data c), w)
      else (Ok mockFilipinoDonations, afterScrape w)
  | None => (Ok mockFilipinoDonations, afterScrape w)
  end.
Proof.
  destruct w as [cache item now].
  unfold scrapeDonations, scrapeRealDonations, isCacheValid, getCache,
    setCache, sleep, Date_now, try_catch, bind, ret, cacheFresh, afterScrape.
  cbn [scrapedDataCache userDonationsItem clock].
  destruct cache as [c | ]; [ | reflexivity ].
  destruct (now - Cache.timestamp c <? 24 * 60 * 60 * 1000); reflexivity.
Qed.

(** The scraper leaves the stored item alone and the clock at the
    scoring time; from a cache that is sound it returns the campaigns. *)
Lemma scrapeDonations_clock (w : World) :
  exists scraped w',
    scrapeDonations w = (Ok scraped, w') /\
    userDonationsItem w' = userDonationsItem w /\
    clock w' = scoringTime w /\
    (cacheSound w -> scraped = mockFilipinoDonations).
Proof.
  rewrite scrapeDonations_run. unfold scoringTime, cacheFresh, cacheSound.
  destruct (scrapedDataCache w) as [c | ];
    [ destruct (clock w - Cache.timestamp c <? 24 * 60 * 60 * 1000) | ];
    do 2 eexists; repeat split; try reflexivity.
  intro Hs. apply (Hs c eq_refl).
Qed.

(** A candidate without coordinates is among the donations the recipient
    direction scores, in every scope. *)
Lemma fetchDonationsByLocationScope_candidate
    locationScope userLocation (w : World) donation :
  candidate w donation ->
  DonationData.latitude donation = None ->
  exists l w',
    fetchDonationsByLocationScope locationScope userLocation w = (Ok l, w') /\
    In donation l /\ clock w' = scoringTime w.
Proof.
  intros [Hok Hin] Hlat.
  destruct (scrapeDonations_clock w)
    as (scraped & w' & Hrun & Hitem' & Hclock & Hsound).
  unfold fetchDonationsByLocationScope, fetchDonations, try_catch, bind.
  rewrite Hrun. unfold parseUserDonations, ret. rewrite Hitem'.
  assert (Hall :
            exists userDonations,
              match userDonationsItem w with
              | ItemMissing => (Ok [], w')
              | ItemMalformed => (Throw, w')
              | ItemDonations l => (Ok l, w')
              end = (Ok userDonations, w') /\
              In donation
                (filter
                   (fun donation =>
                      negb
                        (String.eqb (DonationData.source donation)
                           "User Donation"
                         && (String.eqb (DonationData.title donation)
                               "School Supplies for Children"
                             || String.eqb (DonationData.title donation)
                                  "Books")))
                   scraped ++ userDonations)).
  { unfold storedDonations in Hin.
    destruct (userDonationsItem w) as [ | | l]; [ | contradiction | ];
      eexists; (split; [ reflexivity | ]); apply in_or_app;
      destruct Hin as [Hstored | [Hs Hmock]];
      try contradiction; try (right; exact Hstored);
      left; rewrite (Hsound Hs); exact Hmock. }
  destruct Hall as (userDonations & -> & Hall).
  destruct userLocation as [loc | ];
    [ destruct (String.eqb locationScope "community") | ];
    do 2 eexists; (split; [ reflexivity | split; [ | exact Hclock ] ]);
    try exact Hall.
  apply filter_In. split; [ exact Hall | ].
  unfold withinCommunity. rewrite Hlat. reflexivity.
Qed.

(** ** The claims about the scoring rules *)

(** C2. A recipient who needs "disaster" with high urgency and a
    candidate donation (a stored donation, or a scraped campaign) of
    category "disaster", status urgent, without coordinates and dated at
    the time of scoring: the donation scores 75 = 30 + 25 + 20 with
    three reasons, and [findMatchesForRecipient] returns a list that
    holds this result. *)
Theorem category_urgency_recency_scenario :
  forall (Date_parse : string -> option Z)
         (recipientNeeds : UserNeedsPreferences.t)
         (donation : DonationData.t) (w : World),
    let now := scoringTime w in
    let result :=
      MatchResult.mk (DonationData.id donation)
        (UserNeedsPreferences.userId recipientNeeds) 75
        [ "Category match: disaster";
          "Urgent donation matches high urgency need";
          "Recently listed donation" ] in
    UserNeedsPreferences.categories recipientNeeds = ["disaster"] ->
    UserNeedsPreferences.urgency recipientNeeds = Some Urgency.high ->
    DonationData.category donation = "disaster" ->
    DonationData.status donation = Status.urgent ->
    DonationData.latitude donation = None ->
    DonationData.longitude donation = None ->
    Date_parse (DonationData.date donation) = Some now ->
    candidate w donation ->
    (exists results,
        returned (findMatchesForRecipient Date_parse recipientNeeds w)
        = Some results /\
        In result results) /\
    matchesAmong Date_parse now recipientNeeds [donation] = [result] /\
    MatchResult.score result = 30 + 25 + 20 /\
    List.length (MatchResult.matchReason result) = 3%nat.
Proof.
  intros Date_parse recipientNeeds donation w now result
    Hcats Hurg Hcat Hstatus Hlat Hlon Hdate Hcandidate.
  assert (Hscore :
            scoreDonation Date_parse now recipientNeeds donation = result).
  { rewrite scoreDonation_rules.
    rewrite Hcats, Hurg, Hcat, Hstatus, Hlat, Hlon, Hdate.
    destruct (recency_after now 0 20) as [Hc Hr].
    { unfold msPerDayR. lra. }
    { unfold msPerDayR. lra. }
    rewrite Z.sub_0_r in Hc, Hr. rewrite Hc, Hr.
    unfold contribution, reasons. rewrite ruleLocation_absent.
    reflexivity. }
  split; [ | split; [ | split; reflexivity ] ].
  - destruct (fetchDonationsByLocationScope_candidate
                (UserNeedsPreferences.locationScope recipientNeeds)
                (UserNeedsPreferences.location recipientNeeds)
                w donation Hcandidate Hlat)
      as (l & w' & Hrun & Hl & Hclock).
    exists (matchesAmong Date_parse now recipientNeeds l). split.
    + unfold returned, findMatchesForRecipient, try_catch, bind.
      rewrite Hrun. unfold Date_now, ret. cbn [fst]. rewrite Hclock.
      reflexivity.
    + unfold matchesAmong. apply rankMatches_In. split.
      * rewrite <- Hscore. apply in_map. exact Hl.
      * reflexivity.
  - unfold matchesAmong. cbn [map]. rewrite Hscore. reflexivity.
Qed.

(** A donation stored on 2023-01-01 and scored as the scraper, which had
    no cache, returns: the result of score 75 is in the list. *)
Lemma category_urgency_recency_scenario_witness :
  exists results,
    returned
      (findMatchesForRecipient JSDate.parseDateOnly disasterNeeds
         (mkWorld None
            (ItemDonations
               [completedDonation; reliefDonation "2023-01-01" None None])
            (jan1 - 1500)))
    = Some results /\
    In (MatchResult.mk "D-1" "U-1" 75
          [ "Category match: disaster";
            "Urgent donation matches high urgency need";
            "Recently listed donation" ]) results.
Proof.
  apply (category_urgency_recency_scenario JSDate.parseDateOnly
           disasterNeeds (reliefDonation "2023-01-01" None None)
           (mkWorld None
              (ItemDonations
                 [completedDonation; reliefDonation "2023-01-01" None None])
              (jan1 - 1500)));
    try reflexivity.
  split; [ discriminate | ]. left. right. left. reflexivity.
Defined.

(** C6. The recency bonus of the recipient direction.  A donation dated
    after [now] (here seven days after) receives a bonus above 20: 40, for
    a score of 95 with the category and urgency points.  For a donation
    dated at or before [now] the bonus lies between 0 and 20; the rule
    leaves the tally alone when more than 7 days have passed, and awards
    round(20 * (1 - daysSince / 7)) otherwise: 20 for a donation dated
    now, 10 after 3.5 days, 0 after exactly 7 days. *)
Theorem recency_bonus_values :
  contribution (ruleRecency jan1 (JSDate.parseDateOnly "2023-01-08")) = 40 /\
  MatchResult.score
    (scoreDonation JSDate.parseDateOnly jan1 disasterNeeds
       (reliefDonation "2023-01-08" None None)) = 95 /\
  (forall now t : Z,
      t <= now -> 0 <= contribution (ruleRecency now (Some t)) <= 20) /\
  (forall (now t : Z) (acc : Tally),
      ~ (IZR (now - t) / msPerDayR <= 7)%R ->
      ruleRecency now (Some t) acc = acc) /\
  (forall (now t : Z) (acc : Tally),
      (IZR (now - t) / msPerDayR <= 7)%R ->
      ruleRecency now (Some t) acc =
      award acc (Math.round (20 * (1 - IZR (now - t) / msPerDayR / 7)))
        reason_recent) /\
  (forall now : Z, contribution (ruleRecency now (Some now)) = 20) /\
  (forall now : Z,
      contribution (ruleRecency now (Some (now - 302400000))) = 10) /\
  (forall now : Z,
      contribution (ruleRecency now (Some (now - 7 * 86400000))) = 0).
Proof.
  assert (Hfuture :
            contribution (ruleRecency jan1 (Some (jan1 - (- 604800000))))
            = 40 /\
            reasons (ruleRecency jan1 (Some (jan1 - (- 604800000))))
            = [reason_recent])
    by (apply recency_after; unfold msPerDayR; lra).
  repeat split.
  - exact (proj1 Hfuture).
  - rewrite scoreDonation_rules.
    change (JSDate.parseDateOnly
              (DonationData.date (reliefDonation "2023-01-08" None None)))
      with (Some (jan1 - (- 604800000))).
    rewrite (proj1 Hfuture). reflexivity.
  - destruct (ruleRecency_cases now (Some t))
      as [(t' & Ht & Hle & Hc & _) | (_ & Hc & _)]; rewrite Hc; [ | lia ].
    injection Ht as <-. apply recency_range.
    assert (H0 : (0 <= IZR (now - t))%R) by (apply IZR_le; lia).
    unfold msPerDayR in *. lra.
  - destruct (ruleRecency_cases now (Some t))
      as [(t' & Ht & Hle & Hc & _) | (_ & Hc & _)]; rewrite Hc; [ | lia ].
    injection Ht as <-. apply recency_range.
    assert (H0 : (0 <= IZR (now - t))%R) by (apply IZR_le; lia).
    unfold msPerDayR in *. lra.
  - intros now t acc Hgt. unfold ruleRecency. cbv zeta.
    destruct (Rle_dec _ _) as [Hle | _]; [ contradiction | reflexivity ].
  - intros now t acc Hle. unfold ruleRecency. cbv zeta.
    destruct (Rle_dec _ _) as [_ | Hgt]; [ reflexivity | contradiction ].
  - intro now. replace (Some now) with (Some (now - 0)) by (f_equal; lia).
    apply recency_after; unfold msPerDayR; lra.
  - intro now. apply recency_after; unfold msPerDayR; lra.
  - intro now. change (7 * 86400000) with 604800000.
    apply recency_after; unfold msPerDayR; lra.
Qed.

(** C7, as stated, fails: seven days after the listing the recency rule
    contributes 0 and still records its reason, so the returned result
    carries three reasons for a score of 55 = 30 + 25. *)
Lemma zero_contribution_keeps_reason :
  contribution
    (ruleRecency (jan1 + 7 * 86400000) (JSDate.parseDateOnly "2023-01-01"))
  = 0 /\
  reasons
    (ruleRecency (jan1 + 7 * 86400000) (JSDate.parseDateOnly "2023-01-01"))
  <> [] /\
  matchesAmong JSDate.parseDateOnly (jan1 + 7 * 86400000) disasterNeeds
    [reliefDonation "2023-01-01" None None] =
  [ MatchResult.mk "D-1" "U-1" 55
      [ "Category match: disaster";
        "Urgent donation matches high urgency need";
        "Recently listed donation" ] ].
Proof.
  assert (Hseven :
            contribution
              (ruleRecency (jan1 + 604800000)
                 (Some (jan1 + 604800000 - 604800000))) = 0 /\
            reasons
              (ruleRecency (jan1 + 604800000)
                 (Some (jan1 + 604800000 - 604800000))) = [reason_recent])
    by (apply recency_after; unfold msPerDayR; lra).
  change (jan1 + 7 * 86400000) with (jan1 + 604800000).
  change (JSDate.parseDateOnly "2023-01-01")
    with (Some (jan1 + 604800000 - 604800000)).
  destruct Hseven as [Hc Hr].
  split; [ exact Hc | ]. split; [ rewrite Hr; discriminate | ].
  unfold matchesAmong. cbn [map]. rewrite scoreDonation_rules.
  change (JSDate.parseDateOnly
            (DonationData.date (reliefDonation "2023-01-01" None None)))
    with (Some (jan1 + 604800000 - 604800000)).
  rewrite Hc, Hr. reflexivity.
Qed.

(** C7, amended.  In either direction the reasons are those of the rules,
    in the order category, urgency, location, recency, and the score is
    the sum of their contributions.  A rule whose condition holds records
    exactly one reason, also when its contribution rounds to 0 (seven days
    after the listing); a rule whose condition fails (category not wanted,
    no high urgency for an urgent donation, no coordinates or a distance
    beyond the effective maximum, more than seven days or no date) records
    no reason and contributes 0. *)
Theorem reasons_follow_conditions :
  (forall Date_parse now recipientNeeds donation,
      MatchResult.matchReason
        (scoreDonation Date_parse now recipientNeeds donation) =
      reasons (ruleCategory (UserNeedsPreferences.categories recipientNeeds)
                 (DonationData.category donation))
      ++ reasons (ruleUrgency (UserNeedsPreferences.urgency recipientNeeds)
                    (DonationData.status donation))
      ++ reasons (ruleLocation (UserNeedsPreferences.location recipientNeeds)
                    (UserNeedsPreferences.maxDistance recipientNeeds)
                    (DonationData.latitude donation)
                    (DonationData.longitude donation))
      ++ reasons (ruleRecency now
                    (Date_parse (DonationData.date donation)))) /\
  (forall donation recipient,
      MatchResult.matchReason (scoreRecipient donation recipient) =
      reasons (ruleCategory (UserNeedsPreferences.categories recipient)
                 (DonationData.category donation))
      ++ reasons (ruleUrgency (UserNeedsPreferences.urgency recipient)
                    (DonationData.status donation))
      ++ reasons (ruleLocation (UserNeedsPreferences.location recipient)
                    (UserNeedsPreferences.maxDistance recipient)
                    (DonationData.latitude donation)
                    (DonationData.longitude donation))) /\
  (forall categories category,
      let rule := ruleCategory categories category in
      (includes categories category = true /\
       reasons rule = [reason_category category])
      \/ (includes categories category = false /\
          reasons rule = [] /\ contribution rule = 0)) /\
  (forall urgency status,
      let rule := ruleUrgency urgency status in
      (urgency = Some Urgency.high /\ status = Status.urgent /\
       reasons rule = [reason_urgent])
      \/ (~ (urgency = Some Urgency.high /\ status = Status.urgent) /\
          reasons rule = [] /\ contribution rule = 0)) /\
  (forall location maxDistance latitude longitude,
      let rule := ruleLocation location maxDistance latitude longitude in
      (exists loc lat lon distance,
          location = Some loc /\
          truthy latitude = Some lat /\ truthy longitude = Some lon /\
          calculateDistance (Location.latitude loc) (Location.longitude loc)
            lat lon = Some distance /\
          (distance <= effectiveMaxDistance maxDistance)%R /\
          reasons rule = [reason_proximity distance])
      \/ ((forall loc lat lon distance,
              location = Some loc ->
              truthy latitude = Some lat -> truthy longitude = Some lon ->
              calculateDistance (Location.latitude loc)
                (Location.longitude loc) lat lon = Some distance ->
              ~ (distance <= effectiveMaxDistance maxDistance)%R) /\
          reasons rule = [] /\ contribution rule = 0)) /\
  (forall now donationDate,
      let rule := ruleRecency now donationDate in
      (exists t,
          donationDate = Some t /\ (IZR (now - t) / msPerDayR <= 7)%R /\
          reasons rule = [reason_recent])
      \/ ((forall t, donationDate = Some t ->
                     ~ (IZR (now - t) / msPerDayR <= 7)%R) /\
          reasons rule = [] /\ contribution rule = 0)) /\
  (forall now : Z,
      reasons (ruleRecency now (Some (now - 7 * 86400000)))
      = [reason_recent] /\
      contribution (ruleRecency now (Some (now - 7 * 86400000))) = 0).
Proof.
  split; [ | split; [ | split; [ | split; [ | split; [ | split ] ] ] ] ].
  - intros. rewrite scoreDonation_rules. reflexivity.
  - intros. rewrite scoreRecipient_rules. reflexivity.
  - intros categories category rule. subst rule.
    destruct (ruleCategory_cases categories category)
      as [(H & _ & Hr) | (H & Hc & Hr)]; [ left | right ]; auto.
  - intros urgency status rule. subst rule.
    destruct (ruleUrgency_cases urgency status)
      as [(H1 & H2 & _ & Hr) | (H & Hc & Hr)]; [ left | right ]; auto.
  - intros location maxDistance latitude longitude rule. subst rule.
    destruct (ruleLocation_cases location maxDistance latitude longitude)
      as [(loc & lat & lon & distance & H1 & H2 & H3 & Hd & Hle & _ & Hr)
         | (H & Hc & Hr)];
      [ left | right; auto ].
    exists loc, lat, lon, distance. auto 10.
  - intros now donationDate rule. subst rule.
    destruct (ruleRecency_cases now donationDate)
      as [(t & Ht & Hle & _ & Hr) | (H & Hc & Hr)];
      [ left | right; auto ].
    exists t. auto.
  - intro now. change (7 * 86400000) with 604800000.
    destruct (recency_after now 604800000 0) as [Hc Hr];
      [ unfold msPerDayR; lra | unfold msPerDayR; lra | ].
    split; assumption.
Qed.

(** C10. A donation whose latitude or longitude is exactly 0 is scored,
    in both directions, as a donation without coordinates: the location
    rule records nothing for it, wherever the recipient is.  The rule
    tests the coordinates for truthiness: the same rule awards 25 points
    to a donation at the recipient's own position (14, 121), and nothing
    to one at the recipient's own position (0, 121) on the equator. *)
Theorem zero_coordinate_skips_location :
  forall (Date_parse : string -> option Z) (now : Z)
         (recipientNeeds recipient : UserNeedsPreferences.t)
         (donation : DonationData.t),
    DonationData.latitude donation = Some 0%R \/
    DonationData.longitude donation = Some 0%R ->
    scoreDonation Date_parse now recipientNeeds donation =
    scoreDonation Date_parse now recipientNeeds
      (DonationData.with_coordinates donation None None) /\
    scoreRecipient donation recipient =
    scoreRecipient (DonationData.with_coordinates donation None None)
      recipient /\
    (forall location maxDistance,
        reasons (ruleLocation location maxDistance
                   (DonationData.latitude donation)
                   (DonationData.longitude donation)) = [] /\
        contribution (ruleLocation location maxDistance
                        (DonationData.latitude donation)
                        (DonationData.longitude donation)) = 0) /\
    contribution
      (ruleLocation (Some (Location.mk 14 121)) None (Some 14%R) (Some 121%R))
    = 25 /\
    calculateDistance 0 121 0 121 = Some 0%R /\
    contribution
      (ruleLocation (Some (Location.mk 0 121)) None (Some 0%R) (Some 121%R))
    = 0.
Proof.
  intros Date_parse now recipientNeeds recipient donation Hzero.
  split; [ | split; [ | split; [ | split; [ | split ] ] ] ].
  - unfold scoreDonation. cbv zeta.
    rewrite (ruleLocation_zero_coordinate _ _ _ _ _ Hzero).
    cbn [DonationData.with_coordinates DonationData.latitude
           DonationData.longitude DonationData.category DonationData.status
           DonationData.date DonationData.id].
    rewrite ruleLocation_absent. reflexivity.
  - unfold scoreRecipient. cbv zeta.
    rewrite (ruleLocation_zero_coordinate _ _ _ _ _ Hzero).
    cbn [DonationData.with_coordinates DonationData.latitude
           DonationData.longitude DonationData.category DonationData.status
           DonationData.date DonationData.id].
    rewrite ruleLocation_absent. reflexivity.
  - intros location maxDistance. unfold reasons, contribution.
    rewrite (ruleLocation_zero_coordinate _ _ _ _ _ Hzero).
    split; reflexivity.
  - unfold contribution, ruleLocation.
    rewrite !truthy_nonzero by lra. cbv zeta.
    cbn [Location.latitude Location.longitude truthy].
    rewrite calculateDistance_same.
    destruct (Rle_dec 0 50) as [_ | Hn]; [ | exfalso; lra ].
    cbn [award fst]. rewrite Z.add_0_l. apply round_eq. lra.
  - apply calculateDistance_same.
  - unfold contribution.
    rewrite ruleLocation_zero_coordinate by (left; reflexivity).
    reflexivity.
Qed.

Lemma zero_coordinate_skips_location_witness :
  scoreDonation JSDate.parseDateOnly jan1 equatorNeeds
    (reliefDonation "2023-01-01" (Some 0%R) (Some 121%R)) =
  scoreDonation JSDate.parseDateOnly jan1 equatorNeeds
    (reliefDonation "2023-01-01" None None) /\
  scoreRecipient (reliefDonation "2023-01-01" (Some 0%R) (Some 121%R))
    equatorNeeds =
  scoreRecipient (reliefDonation "2023-01-01" None None) equatorNeeds.
Proof.
  pose proof (zero_coordinate_skips_location JSDate.parseDateOnly jan1
                equatorNeeds equatorNeeds
                (reliefDonation "2023-01-01" (Some 0%R) (Some 121%R))
                (or_introl eq_refl)) as H.
  split; [ exact (proj1 H) | exact (proj1 (proj2 H)) ].
Defined.

(** ** Facts about dates *)

(** The two calendar conversions agree on every day from 2015-01-01 to
    2035-12-31. *)
Lemma civil_round_trip : roundTripsFrom 16436 7670 = true.
Proof. vm_compute. reflexivity. Qed.

Lemma civil_samples :
  JSDate.civil_from_days 0 = (1970, 1, 1) /\
  JSDate.civil_from_days 19358 = (2023, 1, 1) /\
  JSDate.civil_from_days 19782 = (2024, 2, 29) /\
  JSDate.civil_from_days 16436 = (2015, 1, 1) /\
  JSDate.civil_from_days 24105 = (2035, 12, 31) /\
  JSDate.civil_from_days (-25567) = (1900, 1, 1) /\
  JSDate.civil_from_days 47481 = (2099, 12, 31).
Proof. repeat split. Qed.

Lemma year_of_era_bounds (doe : Z) :
  0 <= doe <= 146096 ->
  let yoe := (doe - doe / 1460 + doe / 36524 - doe / 146096) / 365 in
  0 <= yoe <= 399 /\
  0 <= doe - (365 * yoe + yoe / 4 - yoe / 100) <= 365.
Proof.
  intros H yoe. subst yoe.
  Z.div_mod_to_equations. lia.
Qed.

(** The civil date of a day number is well formed and is the date of that
    day. *)
Lemma civil_from_days_inverse (z : Z) :
  let '(y, m, d) := JSDate.civil_from_days z in
  JSDate.days_from_civil y m d = z /\ 1 <= m <= 12 /\ 1 <= d <= 31.
Proof.
  unfold JSDate.civil_from_days. cbv zeta.
  set (z' := z + 719468).
  set (era := z' / 146097).
  set (doe := z' - era * 146097).
  assert (Hdoe : 0 <= doe <= 146096).
  { unfold doe, era. Z.div_mod_to_equations. lia. }
  pose proof (year_of_era_bounds doe Hdoe) as Hy. cbv zeta in Hy.
  set (yoe := (doe - doe / 1460 + doe / 36524 - doe / 146096) / 365) in *.
  destruct Hy as [Hyoe Hdoy].
  set (doy := doe - (365 * yoe + yoe / 4 - yoe / 100)) in *.
  set (mp := (5 * doy + 2) / 153).
  assert (Hmp : 0 <= mp <= 11) by (unfold mp; Z.div_mod_to_equations; lia).
  assert (Hd : 1 <= doy - (153 * mp + 2) / 5 + 1 <= 31)
    by (unfold mp; Z.div_mod_to_equations; lia).
  assert (He : (yoe + era * 400) / 400 = era)
    by (Z.div_mod_to_equations; lia).
  destruct (mp <? 10) eqn:Hlt.
  - apply Z.ltb_lt in Hlt.
    assert (Hm : (mp + 3 <=? 2) = false) by (apply Z.leb_gt; lia).
    rewrite Hm. split; [ | lia ].
    unfold JSDate.days_from_civil. rewrite Hm. cbv zeta.
    assert (H2 : (2 <? mp + 3) = true) by (apply Z.ltb_lt; lia).
    rewrite H2, He.
    replace (mp + 3 - 3) with mp by lia.
    replace (yoe + era * 400 - era * 400) with yoe by lia.
    unfold doy, doe, z' in *. lia.
  - apply Z.ltb_ge in Hlt.
    assert (Hm : (mp - 9 <=? 2) = true) by (apply Z.leb_le; lia).
    rewrite Hm. split; [ | lia ].
    unfold JSDate.days_from_civil. rewrite Hm. cbv zeta.
    assert (H2 : (2 <? mp - 9) = false) by (apply Z.ltb_ge; lia).
    rewrite H2.
    replace (yoe + era * 400 + 1 - 1) with (yoe + era * 400) by lia.
    rewrite He.
    replace (mp - 9 + 9) with mp by lia.
    replace (yoe + era * 400 - era * 400) with yoe by lia.
    unfold doy, doe, z' in *. lia.
Qed.

Lemma days_from_civil_day (y m d : Z) :
  JSDate.days_from_civil y m d = JSDate.days_from_civil y m 1 + d - 1.
Proof. unfold JSDate.days_from_civil. cbv zeta. lia. Qed.

Lemma TimeClip_in_range (t : Z) :
  - 8640000000000000 <= t <= 8640000000000000 -> JSDate.TimeClip t = Some t.
Proof.
  intro H. unfold JSDate.TimeClip.
  destruct (Z.abs t <=? 8640000000000000) eqn:Hc; [ reflexivity | lia ].
Qed.

(** On the wall clock, setting the hours to the current hours plus [h]
    moves a local time by [h] hours. *)
Lemma local_plus_hours (lt h : Z) :
  JSDate.MakeDate (JSDate.Day lt)
    (JSDate.MakeTime (JSDate.HourFromTime lt + h) (JSDate.MinFromTime lt)
       (JSDate.SecFromTime lt) (JSDate.msFromTime lt))
  = lt + h * JSDate.msPerHour.
Proof.
  unfold JSDate.MakeDate, JSDate.MakeTime, JSDate.Day, JSDate.HourFromTime,
    JSDate.MinFromTime, JSDate.SecFromTime, JSDate.msFromTime,
    JSDate.msPerDay, JSDate.msPerHour, JSDate.msPerMinute, JSDate.msPerSecond.
  Z.div_mod_to_equations. lia.
Qed.

(** On the wall clock, setting the day of the month to the current one
    plus [n] moves a local time by [n] days. *)
Lemma local_plus_days (lt n : Z) :
  JSDate.MakeDate
    (JSDate.MakeDay (JSDate.YearFromTime lt) (JSDate.MonthFromTime lt)
       (JSDate.DateFromTime lt + n))
    (JSDate.TimeWithinDay lt)
  = lt + n * JSDate.msPerDay.
Proof.
  unfold JSDate.YearFromTime, JSDate.MonthFromTime, JSDate.DateFromTime.
  pose proof (civil_from_days_inverse (JSDate.Day lt)) as Hinv.
  destruct (JSDate.civil_from_days (JSDate.Day lt)) as [[y m] d].
  destruct Hinv as (Hday & Hm & _).
  cbn [fst snd].
  unfold JSDate.MakeDate, JSDate.MakeDay, JSDate.TimeWithinDay.
  replace ((m - 1) / 12) with 0 by (Z.div_mod_to_equations; lia).
  replace ((m - 1) mod 12 + 1) with m by (Z.div_mod_to_equations; lia).
  rewrite Z.add_0_r.
  rewrite (days_from_civil_day y m d) in Hday.
  unfold JSDate.Day, JSDate.msPerDay in *.
  Z.div_mod_to_equations. lia.
Qed.

(** [d.setHours(d.getHours() + h)] moves the wall clock by [h] hours,
    and the date by as much less the growth of the offset. *)
Lemma setHours_getHours (LocalTZA : Z -> bool -> Z) (t h : Z) :
  JSDate.setHours LocalTZA t (JSDate.getHours LocalTZA t + h) =
  JSDate.TimeClip
    (t + h * JSDate.msPerHour
     - offsetGrowth LocalTZA t (h * JSDate.msPerHour)).
Proof.
  unfold JSDate.setHours, JSDate.getHours. cbv zeta.
  rewrite local_plus_hours.
  unfold JSDate.UTC, JSDate.LocalTime, offsetGrowth. f_equal. lia.
Qed.

(** [d.setDate(d.getDate() + n)] moves the wall clock by [n] days. *)
Lemma setDate_getDate (LocalTZA : Z -> bool -> Z) (t n : Z) :
  JSDate.setDate LocalTZA t (JSDate.getDate LocalTZA t + n) =
  JSDate.TimeClip
    (t + n * JSDate.msPerDay - offsetGrowth LocalTZA t (n * JSDate.msPerDay)).
Proof.
  unfold JSDate.setDate, JSDate.getDate. cbv zeta.
  rewrite local_plus_days.
  unfold JSDate.UTC, JSDate.LocalTime, offsetGrowth. f_equal. lia.
Qed.

Lemma plusHours_laterLocal LocalTZA (d : option Z) (h : Z) :
  plusHours LocalTZA d h = laterLocal LocalTZA d (h * 3600000).
Proof.
  destruct d as [t | ]; [ | reflexivity ].
  unfold plusHours, laterLocal. apply setHours_getHours.
Qed.

Lemma plusDays_laterLocal LocalTZA (d : option Z) (n : Z) :
  plusDays LocalTZA d n = laterLocal LocalTZA d (n * 86400000).
Proof.
  destruct d as [t | ]; [ | reflexivity ].
  unfold plusDays, laterLocal. apply setDate_getDate.
Qed.

(** In a zone of fixed offset the wall clock and the time elapsed move
    together. *)
Lemma laterLocal_fixed LocalTZA (offset : Z) (d : option Z) (ms : Z) :
  (forall t isUTC, LocalTZA t isUTC = offset) ->
  laterLocal LocalTZA d ms = later d ms.
Proof.
  intro Hfixed. destruct d as [t | ]; [ | reflexivity ].
  unfold laterLocal, later, offsetGrowth. rewrite !Hfixed.
  f_equal. lia.
Qed.

(** The civil date shown depends on the local day only. *)
Lemma toLocaleDateString_of_day LocalTZA (t day : Z) :
  JSDate.Day (JSDate.LocalTime LocalTZA t) = day ->
  JSDate.toLocaleDateString LocalTZA (Some t) =
  (JSDate.monthShort (snd (fst (JSDate.civil_from_days day)) - 1 + 1) ++ " "
     ++ String_of_Z (snd (JSDate.civil_from_days day)) ++ ", "
     ++ String_of_Z (fst (fst (JSDate.civil_from_days day))))%string.
Proof.
  intro Hday.
  unfold JSDate.toLocaleDateString, JSDate.MonthFromTime, JSDate.DateFromTime,
    JSDate.YearFromTime.
  cbv zeta. rewrite Hday. reflexivity.
Qed.

Lemma Day_between (t day : Z) :
  day * 86400000 <= t < (day + 1) * 86400000 -> JSDate.Day t = day.
Proof.
  intro H. unfold JSDate.Day, JSDate.msPerDay.
  Z.div_mod_to_equations. lia.
Qed.

(** The timeline with its dates written by the wall clock. *)
Lemma generateStatusTimeline_stages Date_parse LocalTZA now donation :
  let baseDate := Date_parse (DonationData.date donation) in
  let stamp := stampOf LocalTZA (DonationData.date donation) baseDate in
  let item1 :=
    StatusItem.mk "1" Stage.active "Donation Listed"
      (DonationData.title donation ++ " has been listed for donation.")
      (stamp Stage.active) (DonationData.organization donation) in
  let item2 :=
    StatusItem.mk "2" Stage.matched "Potential Recipients Found"
      ("Potential recipients for " ++ DonationData.title donation
         ++ " have been identified.")
      (stamp Stage.matched) "System" in
  let item3 :=
    StatusItem.mk "3" Stage.urgent "Urgent Need Identified"
      ("This donation has been marked as urgent by "
         ++ DonationData.organization donation ++ ".")
      (stamp Stage.urgent) (DonationData.organization donation) in
  let item4 :=
    StatusItem.mk "4" Stage.arranged "Pickup/Delivery Arranged"
      ("Logistics for " ++ DonationData.title donation
         ++ " have been arranged.")
      (stamp Stage.arranged) "Logistics Team" in
  let item5 :=
    StatusItem.mk "5" Stage.completed "Donation Completed"
      ("The donation to " ++ DonationData.organization donation
         ++ " has been successfully completed.")
      (stamp Stage.completed) (DonationData.organization donation) in
  generateStatusTimeline Date_parse LocalTZA now donation =
  match DonationData.status donation with
  | Status.active =>
      if JSDate.le (laterLocal LocalTZA baseDate (12 * 3600000)) now
      then [item1; item2] else [item1]
  | Status.urgent =>
      if JSDate.le
           (laterLocal LocalTZA (laterLocal LocalTZA baseDate (24 * 3600000))
              (6 * 3600000)) now
      then [item1; item2; item3; item4] else [item1; item2; item3]
  | Status.completed => [item1; item2; item5]
  end%string.
Proof.
  cbv zeta. unfold generateStatusTimeline, stampOf, shortDate. cbv zeta.
  rewrite !plusHours_laterLocal, plusDays_laterLocal.
  destruct (DonationData.status donation); cbn [Status.eqb].
  - rewrite !orb_false_r.
    destruct (JSDate.le _ now); reflexivity.
  - rewrite orb_true_r. reflexivity.
  - rewrite orb_true_r, orb_false_r. cbn [app].
    destruct (JSDate.le _ now); reflexivity.
Qed.

(** Between two dates of the same offset the wall clock and the time
    elapsed move together. *)
Lemma laterLocal_steady LocalTZA (offset t ms : Z) :
  steadyOffset LocalTZA offset t ms ->
  laterLocal LocalTZA (Some t) ms = JSDate.TimeClip (t + ms).
Proof.
  intros (H0 & Hlocal & _). unfold laterLocal, offsetGrowth.
  rewrite H0, Hlocal. f_equal. lia.
Qed.

(** The local day of a date, from the offset of the zone at that date. *)
Lemma toLocaleDateString_at LocalTZA (offset t day : Z) :
  LocalTZA t true = offset ->
  day * 86400000 <= t + offset < (day + 1) * 86400000 ->
  JSDate.toLocaleDateString LocalTZA (Some t) =
  (JSDate.monthShort (snd (fst (JSDate.civil_from_days day)) - 1 + 1) ++ " "
     ++ String_of_Z (snd (JSDate.civil_from_days day)) ++ ", "
     ++ String_of_Z (fst (fst (JSDate.civil_from_days day))))%string.
Proof.
  intros Hoffset H. apply toLocaleDateString_of_day.
  unfold JSDate.LocalTime. rewrite Hoffset. apply Day_between. exact H.
Qed.

(** ** The claim about the status timeline *)

(** C9. For a completed donation dated 2023-01-01 the timeline is, in
    this order, the listed event stamped with the date string, the
    matched event at the date plus 12 hours and the completed event at
    the date plus 7 days, whatever the current time; there is no urgent
    and no arranged event.  The date string is read as midnight UTC and
    the two derived events are stamped with their local day: in a zone
    whose offset does not change over that week, the completed event
    reads "Jan 8, 2023" at or east of UTC and "Jan 7, 2023" west of UTC,
    and the matched event reads "Jan 1, 2023" below UTC+12 and
    "Jan 2, 2023" from UTC+12 on. *)
Theorem completed_timeline_scenario :
  forall (Date_parse : string -> option Z) (LocalTZA : Z -> bool -> Z)
         (offset now : Z) (donation : DonationData.t),
    - 43200000 <= offset <= 50400000 ->
    steadyOffset LocalTZA offset jan1 (12 * JSDate.msPerHour) ->
    steadyOffset LocalTZA offset jan1 (7 * JSDate.msPerDay) ->
    DonationData.status donation = Status.completed ->
    DonationData.date donation = "2023-01-01" ->
    Date_parse "2023-01-01" = Some jan1 ->
    generateStatusTimeline Date_parse LocalTZA now donation =
    [ StatusItem.mk "1" Stage.active "Donation Listed"
        (DonationData.title donation ++ " has been listed for donation.")
        "2023-01-01" (DonationData.organization donation);
      StatusItem.mk "2" Stage.matched "Potential Recipients Found"
        ("Potential recipients for " ++ DonationData.title donation
           ++ " have been identified.")
        (JSDate.toLocaleDateString LocalTZA
           (Some (jan1 + 12 * JSDate.msPerHour)))
        "System";
      StatusItem.mk "5" Stage.completed "Donation Completed"
        ("The donation to " ++ DonationData.organization donation
           ++ " has been successfully completed.")
        (JSDate.toLocaleDateString LocalTZA
           (Some (jan1 + 7 * JSDate.msPerDay)))
        (DonationData.organization donation) ]%string /\
    JSDate.toLocaleDateString LocalTZA (Some (jan1 + 12 * JSDate.msPerHour))
    = (if offset <? 43200000 then "Jan 1, 2023" else "Jan 2, 2023") /\
    JSDate.toLocaleDateString LocalTZA (Some (jan1 + 7 * JSDate.msPerDay))
    = (if offset <? 0 then "Jan 7, 2023" else "Jan 8, 2023").
Proof.
  intros Date_parse LocalTZA offset now donation Htz H12 H7
    Hstatus Hdate Hparse.
  split; [ | split ].
  - pose proof (generateStatusTimeline_stages Date_parse LocalTZA now
                  donation) as H.
    cbv zeta in H. rewrite H, Hstatus, Hdate, Hparse.
    unfold stampOf.
    change (12 * 3600000) with (12 * JSDate.msPerHour).
    change (7 * 86400000) with (7 * JSDate.msPerDay).
    rewrite (laterLocal_steady _ _ _ _ H12), (laterLocal_steady _ _ _ _ H7).
    rewrite !TimeClip_in_range
      by (unfold jan1, JSDate.msPerHour, JSDate.msPerDay; lia).
    reflexivity.
  - destruct H12 as (_ & _ & H12).
    destruct (offset <? 43200000) eqn:Hc;
      [ apply Z.ltb_lt in Hc | apply Z.ltb_ge in Hc ].
    + rewrite (toLocaleDateString_at _ _ _ 19358 H12)
        by (unfold jan1, JSDate.msPerHour; lia).
      reflexivity.
    + rewrite (toLocaleDateString_at _ _ _ 19359 H12)
        by (unfold jan1, JSDate.msPerHour; lia).
      reflexivity.
  - destruct H7 as (_ & _ & H7).
    destruct (offset <? 0) eqn:Hc;
      [ apply Z.ltb_lt in Hc | apply Z.ltb_ge in Hc ].
    + rewrite (toLocaleDateString_at _ _ _ 19364 H7)
        by (unfold jan1, JSDate.msPerDay; lia).
      reflexivity.
    + rewrite (toLocaleDateString_at _ _ _ 19365 H7)
        by (unfold jan1, JSDate.msPerDay; lia).
      reflexivity.
Qed.

(** In Manila, at UTC+8: three events, stamped "2023-01-01",
    "Jan 1, 2023" and "Jan 8, 2023". *)
Lemma completed_timeline_scenario_witness :
  List.length
    (generateStatusTimeline JSDate.parseDateOnly (JSDate.fixedOffset 28800000)
       0 completedDonation)
  = 3%nat /\
  map StatusItem.timestamp
    (generateStatusTimeline JSDate.parseDateOnly (JSDate.fixedOffset 28800000)
       0 completedDonation)
  = ["2023-01-01"; "Jan 1, 2023"; "Jan 8, 2023"].
Proof.
  destruct (completed_timeline_scenario JSDate.parseDateOnly
              (JSDate.fixedOffset 28800000) 28800000 0 completedDonation)
    as (Hlist & H1 & H8);
    [ lia | repeat split | repeat split
    | reflexivity | reflexivity | reflexivity | ].
  rewrite Hlist. cbn [map StatusItem.timestamp List.length].
  rewrite H1, H8. split; reflexivity.
Defined.

(** In New York, at UTC-5 in January, the completed event of the
    donation dated 2023-01-01 is stamped "Jan 7, 2023", six days after
    the date the listed event shows. *)
Lemma completed_stamp_west_of_utc :
  map StatusItem.timestamp
    (generateStatusTimeline JSDate.parseDateOnly newYork2023 0
       completedDonation)
  = ["2023-01-01"; "Jan 1, 2023"; "Jan 7, 2023"].
Proof. vm_compute. reflexivity. Qed.

(** * Part III: further properties *)

(** ** The matching engine *)

Lemma ruleCategory_summary categories category :
  silentOrWithin 30 30 (ruleCategory categories category).
Proof.
  destruct (ruleCategory_cases categories category)
    as [(_ & Hc & Hr) | (_ & Hc & Hr)]; [ right | left ].
  - eexists. split; [ exact Hr | lia ].
  - split; assumption.
Qed.

Lemma ruleUrgency_summary urgency status :
  silentOrWithin 25 25 (ruleUrgency urgency status).
Proof.
  destruct (ruleUrgency_cases urgency status)
    as [(_ & _ & Hc & Hr) | (_ & Hc & Hr)]; [ right | left ].
  - eexists. split; [ exact Hr | lia ].
  - split; assumption.
Qed.

Lemma ruleLocation_summary location maxDistance latitude longitude :
  silentOrWithin 0 25 (ruleLocation location maxDistance latitude longitude).
Proof.
  destruct (ruleLocation_cases location maxDistance latitude longitude)
    as [(loc & lat & lon & distance & _ & _ & _ & _ & _ & _ & Hr)
       | (_ & Hc & Hr)]; [ right | left ].
  - eexists. split; [ exact Hr | apply ruleLocation_range ].
  - split; assumption.
Qed.

Lemma ruleRecency_summary now donationDate :
  (forall t, donationDate = Some t -> t <= now) ->
  silentOrWithin 0 20 (ruleRecency now donationDate).
Proof.
  intro Hpast.
  destruct (ruleRecency_cases now donationDate)
    as [(t & Ht & Hle & Hc & Hr) | (_ & Hc & Hr)]; [ right | left ].
  - eexists. split; [ exact Hr | ]. rewrite Hc. apply recency_range.
    assert (H0 : (0 <= IZR (now - t))%R)
      by (apply IZR_le; specialize (Hpast t Ht); lia).
    unfold msPerDayR in *. lra.
  - split; assumption.
Qed.

(** No single rule lifts a score above the threshold. *)
Lemma three_rules_above_30 rc ru rl :
  silentOrWithin 30 30 rc -> silentOrWithin 25 25 ru ->
  silentOrWithin 0 25 rl ->
  30 < contribution rc + contribution ru + contribution rl ->
  contribution rc + contribution ru + contribution rl <= 80 /\
  (2 <= List.length (reasons rc ++ reasons ru ++ reasons rl) <= 3)%nat.
Proof.
  intros [[Hc1 Hc2] | (sc & Hc1 & Hc2)] [[Hu1 Hu2] | (su & Hu1 & Hu2)]
    [[Hl1 Hl2] | (sl & Hl1 & Hl2)] Habove;
    rewrite Hc1, Hu1, Hl1; cbn [app List.length]; lia.
Qed.

Lemma four_rules_above_30 rc ru rl rr :
  silentOrWithin 30 30 rc -> silentOrWithin 25 25 ru ->
  silentOrWithin 0 25 rl -> silentOrWithin 0 20 rr ->
  30 < contribution rc + contribution ru + contribution rl + contribution rr ->
  contribution rc + contribution ru + contribution rl + contribution rr
  <= 100 /\
  (2 <= List.length (reasons rc ++ reasons ru ++ reasons rl ++ reasons rr)
   <= 4)%nat.
Proof.
  intros [[Hc1 Hc2] | (sc & Hc1 & Hc2)] [[Hu1 Hu2] | (su & Hu1 & Hu2)]
    [[Hl1 Hl2] | (sl & Hl1 & Hl2)] [[Hr1 Hr2] | (sr & Hr1 & Hr2)] Habove;
    rewrite Hc1, Hu1, Hl1, Hr1; cbn [app List.length]; lia.
Qed.

(** X1. Ranking loses and invents nothing: in both directions the results
    are, up to order, the scored candidates whose score exceeds 30, each
    as often as it occurs among the candidates. *)
Theorem results_are_the_candidates_above_30 :
  forall (Date_parse : string -> option Z),
    (forall now recipientNeeds availableDonations,
        Permutation
          (matchesAmong Date_parse now recipientNeeds availableDonations)
          (filter aboveThreshold
             (map (scoreDonation Date_parse now recipientNeeds)
                availableDonations))) /\
    (forall donation userPreferences,
        Permutation (recipientsAmong donation userPreferences)
          (filter aboveThreshold
             (map (scoreRecipient donation) userPreferences))) /\
    (forall now recipientNeeds availableDonations donation,
        In donation availableDonations ->
        30 < MatchResult.score
               (scoreDonation Date_parse now recipientNeeds donation) ->
        In (scoreDonation Date_parse now recipientNeeds donation)
          (matchesAmong Date_parse now recipientNeeds availableDonations)) /\
    (forall donation userPreferences recipient,
        In recipient userPreferences ->
        30 < MatchResult.score (scoreRecipient donation recipient) ->
        In (scoreRecipient donation recipient)
          (recipientsAmong donation userPreferences)).
Proof.
  intro Date_parse.
  split; [ | split; [ | split ] ].
  - intros. apply Permutation_sym.
    apply (Array_sort_perm MatchResult.score).
  - intros. apply Permutation_sym.
    apply (Array_sort_perm MatchResult.score).
  - intros now recipientNeeds availableDonations donation Hin Habove.
    apply rankMatches_In. split; [ | exact Habove ].
    apply in_map. exact Hin.
  - intros donation userPreferences recipient Hin Habove.
    apply rankMatches_In. split; [ | exact Habove ].
    apply in_map. exact Hin.
Qed.

(** X2. In the donation direction a returned score never exceeds 80, and
    every result carries at least two reasons: no single rule is enough
    to pass the threshold. *)
Theorem recipients_need_two_rules :
  forall donation userPreferences,
    Forall
      (fun m =>
         30 < MatchResult.score m <= 80 /\
         (2 <= List.length (MatchResult.matchReason m) <= 3)%nat)
      (recipientsAmong donation userPreferences).
Proof.
  intros donation userPreferences. apply Forall_forall. intros m Hin.
  unfold recipientsAmong in Hin. apply rankMatches_In in Hin.
  destruct Hin as [Hin Habove]. apply in_map_iff in Hin.
  destruct Hin as (recipient & <- & _).
  rewrite scoreRecipient_rules in *.
  cbn [MatchResult.score MatchResult.matchReason] in *.
  destruct (three_rules_above_30 _ _ _
              (ruleCategory_summary _ _) (ruleUrgency_summary _ _)
              (ruleLocation_summary _ _ _ _) Habove) as [Hle Hlen].
  split; [ lia | exact Hlen ].
Qed.

(** X3. In the recipient direction, when no candidate is dated after the
    current time, a returned score never exceeds 100 and every result
    carries at least two reasons. *)
Theorem matches_within_100 :
  forall (Date_parse : string -> option Z) now recipientNeeds
         availableDonations,
    (forall donation t,
        In donation availableDonations ->
        Date_parse (DonationData.date donation) = Some t -> t <= now) ->
    Forall
      (fun m =>
         30 < MatchResult.score m <= 100 /\
         (2 <= List.length (MatchResult.matchReason m) <= 4)%nat)
      (matchesAmong Date_parse now recipientNeeds availableDonations).
Proof.
  intros Date_parse now recipientNeeds availableDonations Hpast.
  apply Forall_forall. intros m Hin.
  unfold matchesAmong in Hin. apply rankMatches_In in Hin.
  destruct Hin as [Hin Habove]. apply in_map_iff in Hin.
  destruct Hin as (donation & <- & Hd).
  rewrite scoreDonation_rules in *.
  cbn [MatchResult.score MatchResult.matchReason] in *.
  destruct (four_rules_above_30 _ _ _ _
              (ruleCategory_summary _ _) (ruleUrgency_summary _ _)
              (ruleLocation_summary _ _ _ _)
              (ruleRecency_summary now _ (fun t Ht => Hpast donation t Hd Ht))
              Habove) as [Hle Hlen].
  split; [ lia | exact Hlen ].
Qed.

Lemma matches_within_100_witness :
  Forall
    (fun m =>
       30 < MatchResult.score m <= 100 /\
       (2 <= List.length (MatchResult.matchReason m) <= 4)%nat)
    (matchesAmong JSDate.parseDateOnly (jan1 + 86400000) disasterNeeds
       [reliefDonation "2023-01-01" None None; completedDonation]).
Proof.
  apply (matches_within_100 JSDate.parseDateOnly (jan1 + 86400000)
           disasterNeeds
           [reliefDonation "2023-01-01" None None; completedDonation]).
  intros donation t [<- | [<- | []]] Ht; vm_compute in Ht;
    injection Ht as <-; vm_compute; discriminate.
Defined.

(** X4. Closer is better among donations with coordinates: for one
    recipient with a location, of two donations whose latitudes and
    longitudes are all different from 0, the one that is not farther away
    never receives fewer proximity points.  (A coordinate equal to 0
    switches the rule off, however close the donation is: see C10.) *)
Theorem closer_is_better :
  forall (loc : Location.t) (maxDistance : option R)
         (lat1 lon1 lat2 lon2 near far : R),
    lat1 <> 0%R -> lon1 <> 0%R -> lat2 <> 0%R -> lon2 <> 0%R ->
    calculateDistance (Location.latitude loc) (Location.longitude loc)
      lat1 lon1 = Some near ->
    calculateDistance (Location.latitude loc) (Location.longitude loc)
      lat2 lon2 = Some far ->
    (near <= far)%R ->
    contribution
      (ruleLocation (Some loc) maxDistance (Some lat2) (Some lon2))
    <= contribution
         (ruleLocation (Some loc) maxDistance (Some lat1) (Some lon1)).
Proof.
  intros loc maxDistance lat1 lon1 lat2 lon2 near far
    Hlat1 Hlon1 Hlat2 Hlon2 Hnear Hfar Hle.
  pose proof (calculateDistance_nonneg _ _ _ _ _ Hnear) as Hnear0.
  unfold contribution, ruleLocation.
  rewrite !truthy_nonzero by assumption.
  rewrite Hnear, Hfar. cbv zeta.
  set (m := match truthy maxDistance with Some m => m | None => 50%R end).
  assert (Hm : m <> 0%R).
  { unfold m. destruct (truthy maxDistance) as [v | ] eqn:Hv; [ | lra ].
    apply truthy_Some in Hv. tauto. }
  destruct (Rle_dec far m) as [Hfm | Hfm].
  - destruct (Rle_dec near m) as [_ | Hnm]; [ | exfalso; lra ].
    cbn [award fst]. rewrite !Z.add_0_l. apply round_le.
    assert (Hpos : (0 < m)%R) by lra.
    assert (Hq : (near / m <= far / m)%R).
    { unfold Rdiv. apply Rmult_le_compat_r; [ | exact Hle ].
      left. apply Rinv_0_lt_compat. exact Hpos. }
    lra.
  - cbn [fst].
    destruct (Rle_dec near m) as [Hnm | _]; [ | cbn [fst]; lia ].
    cbn [award fst]. rewrite Z.add_0_l.
    apply (proximity_range near m Hnear0 Hnm Hm).
Qed.

Lemma closer_is_better_witness :
  contribution
    (ruleLocation (Some (Location.mk 14 121)) None (Some 15%R) (Some 121%R))
  <= contribution
       (ruleLocation (Some (Location.mk 14 121)) None (Some 14%R)
          (Some 121%R)).
Proof.
  destruct (calculateDistance_defined 14 121 15 121) as (far & Hfar & _ & H0);
    [ lra | lra | ].
  apply (closer_is_better (Location.mk 14 121) None 14 121 15 121 0 far);
    try lra.
  - apply calculateDistance_same.
  - exact Hfar.
Defined.

(** X5. Newer is better: of two dates, the later one never receives a
    smaller recency bonus. *)
Theorem newer_is_better :
  forall now t1 t2 : Z,
    t1 <= t2 ->
    contribution (ruleRecency now (Some t1))
    <= contribution (ruleRecency now (Some t2)).
Proof.
  intros now t1 t2 Hle.
  assert (Hdays : (IZR (now - t2) / msPerDayR <= IZR (now - t1) / msPerDayR)%R).
  { unfold msPerDayR, Rdiv. apply Rmult_le_compat_r; [ lra | ].
    apply IZR_le. lia. }
  destruct (ruleRecency_cases now (Some t1))
    as [(u1 & Hu1 & H1 & Hc1 & _) | (Hno1 & Hc1 & _)];
    destruct (ruleRecency_cases now (Some t2))
      as [(u2 & Hu2 & H2 & Hc2 & _) | (Hno2 & Hc2 & _)];
    rewrite Hc1, Hc2.
  - injection Hu1 as <-. injection Hu2 as <-. apply round_le. lra.
  - injection Hu1 as <-. exfalso. apply (Hno2 t2 eq_refl). lra.
  - injection Hu2 as <-.
    assert (H0 : (IZR 0 <= 20 * (1 - IZR (now - t2) / msPerDayR / 7))%R)
      by lra.
    apply round_le in H0. rewrite round_IZR in H0. exact H0.
  - lia.
Qed.

Lemma newer_is_better_witness :
  contribution (ruleRecency (jan1 + 86400000) (Some (jan1 - 86400000)))
  <= contribution (ruleRecency (jan1 + 86400000) (Some jan1)).
Proof.
  apply (newer_is_better (jan1 + 86400000) (jan1 - 86400000) jan1).
  vm_compute. discriminate.
Defined.

(** X6. The recipient direction scores a donation as the donation
    direction scores the same pair, plus the recency bonus and its
    reason; for a donation listed more than seven days ago, or whose date
    is invalid, the two directions give the same result. *)
Theorem directions_differ_by_recency :
  forall (Date_parse : string -> option Z) now recipientNeeds donation,
    let other := scoreRecipient donation recipientNeeds in
    let recency :=
      ruleRecency now (Date_parse (DonationData.date donation)) in
    scoreDonation Date_parse now recipientNeeds donation =
    MatchResult.mk (MatchResult.donationId other)
      (MatchResult.recipientId other)
      (MatchResult.score other + contribution recency)
      (MatchResult.matchReason other ++ reasons recency) /\
    ((forall t, Date_parse (DonationData.date donation) = Some t ->
                ~ (IZR (now - t) / msPerDayR <= 7)%R) ->
     scoreDonation Date_parse now recipientNeeds donation = other).
Proof.
  intros Date_parse now recipientNeeds donation other recency.
  assert (Heq :
            scoreDonation Date_parse now recipientNeeds donation =
            MatchResult.mk (MatchResult.donationId other)
              (MatchResult.recipientId other)
              (MatchResult.score other + contribution recency)
              (MatchResult.matchReason other ++ reasons recency)).
  { subst other recency.
    rewrite scoreDonation_rules, scoreRecipient_rules.
    cbn [MatchResult.donationId MatchResult.recipientId MatchResult.score
           MatchResult.matchReason].
    rewrite <- !app_assoc. reflexivity. }
  split; [ exact Heq | ].
  intro Hold. rewrite Heq.
  destruct (ruleRecency_cases now (Date_parse (DonationData.date donation)))
    as [(t & Ht & Hle & _) | (_ & Hc & Hr)].
  - exfalso. exact (Hold t Ht Hle).
  - fold recency in Hc, Hr. rewrite Hc, Hr, Z.add_0_r, app_nil_r.
    destruct other. reflexivity.
Qed.

Lemma directions_differ_by_recency_witness :
  scoreDonation JSDate.parseDateOnly (jan1 + 8 * 86400000) disasterNeeds
    (reliefDonation "2023-01-01" None None)
  = scoreRecipient (reliefDonation "2023-01-01" None None) disasterNeeds.
Proof.
  refine (proj2 (directions_differ_by_recency JSDate.parseDateOnly
                   (jan1 + 8 * 86400000) disasterNeeds
                   (reliefDonation "2023-01-01" None None)) _).
  intros t Ht. vm_compute in Ht. injection Ht as <-.
  replace (jan1 + 8 * 86400000 - 1672531200000) with 691200000
    by reflexivity.
  unfold msPerDayR. lra.
Defined.

(** ** The scraper and its cache *)

Lemma cacheFresh_afterScrape (w : World) : cacheFresh (afterScrape w) = true.
Proof.
  unfold cacheFresh, afterScrape. cbn [scrapedDataCache clock Cache.timestamp].
  rewrite Z.sub_diag. reflexivity.
Qed.

Lemma cacheSound_afterScrape (w : World) : cacheSound (afterScrape w).
Proof.
  intros c Hc. unfold afterScrape in Hc. cbn in Hc. injection Hc as <-.
  cbn [Cache.data Cache.timestamp afterScrape clock].
  split; [ reflexivity | lia ].
Qed.

(** In a sound world the scraper returns its own data. *)
Lemma scrapeDonations_sound (w : World) :
  cacheSound w ->
  exists w',
    scrapeDonations w = (Ok mockFilipinoDonations, w') /\
    cacheSound w' /\ cacheFresh w' = true /\
    userDonationsItem w' = userDonationsItem w /\
    (w' = w \/ w' = afterScrape w).
Proof.
  intro Hs. rewrite scrapeDonations_run.
  destruct (scrapedDataCache w) as [c | ] eqn:Hc.
  - destruct (cacheFresh w) eqn:Hf.
    + exists w. destruct (Hs c Hc) as [Hd _]. rewrite Hd. auto 10.
    + exists (afterScrape w).
      split; [ reflexivity | ].
      split; [ apply cacheSound_afterScrape | ].
      split; [ apply cacheFresh_afterScrape | ]. auto.
  - exists (afterScrape w).
    split; [ reflexivity | ].
    split; [ apply cacheSound_afterScrape | ].
    split; [ apply cacheFresh_afterScrape | ]. auto.
Qed.

(** X7. A call of [scrapeDonations] leaves a cache less than a day old
    that holds what it returned, so a second call returns the same data
    at once: it neither waits nor touches the cache.  A first call waits
    1500 ms exactly when there was no such cache. *)
Theorem scrapeDonations_cache_hit :
  forall w : World,
    exists l w1,
      scrapeDonations w = (Ok l, w1) /\
      scrapeDonations w1 = (Ok l, w1) /\
      cacheFresh w1 = true /\
      (exists c, scrapedDataCache w1 = Some c /\ Cache.data c = l) /\
      userDonationsItem w1 = userDonationsItem w /\
      (if cacheFresh w then w1 = w else clock w1 = clock w + 1500).
Proof.
  intro w.
  assert (Hmiss :
            scrapeDonations (afterScrape w)
            = (Ok mockFilipinoDonations, afterScrape w)).
  { rewrite scrapeDonations_run.
    rewrite cacheFresh_afterScrape. reflexivity. }
  rewrite scrapeDonations_run.
  destruct (scrapedDataCache w) as [c | ] eqn:Hc.
  - destruct (cacheFresh w) eqn:Hf.
    + exists (Cache.data c), w.
      split; [ reflexivity | ].
      split; [ rewrite scrapeDonations_run, Hc, Hf; reflexivity | ].
      split; [ exact Hf | ].
      split; [ exists c; auto | ]. auto.
    + exists mockFilipinoDonations, (afterScrape w).
      split; [ reflexivity | ]. split; [ exact Hmiss | ].
      split; [ apply cacheFresh_afterScrape | ].
      split; [ eexists; split; reflexivity | ]. auto.
  - exists mockFilipinoDonations, (afterScrape w).
    split; [ reflexivity | ]. split; [ exact Hmiss | ].
    split; [ apply cacheFresh_afterScrape | ].
    split; [ eexists; split; reflexivity | ].
    unfold cacheFresh. rewrite Hc. auto.
Qed.

Lemma refreshDonationData_run (w : World) :
  refreshDonationData w = (Ok mockFilipinoDonations, afterScrape w).
Proof.
  unfold refreshDonationData, bind, setCache.
  rewrite scrapeDonations_run. reflexivity.
Qed.

(** X8. [refreshDonations] never serves the cache: whatever the cache
    holds, it waits for a scrape, renews the cache and returns the
    scraper's six campaigns followed by the stored user donations, or
    nothing at all when the stored item is malformed; it does not throw. *)
Theorem refreshDonations_rescrapes :
  forall w : World,
    refreshDonations w =
    (Ok (withStored mockFilipinoDonations w), afterScrape w) /\
    cacheSound (afterScrape w) /\
    clock (afterScrape w) = clock w + 1500 /\
    List.length mockFilipinoDonations = 6%nat.
Proof.
  intro w. split; [ | split; [ apply cacheSound_afterScrape | split ] ];
    [ | reflexivity | reflexivity ].
  unfold refreshDonations, try_catch, bind.
  rewrite refreshDonationData_run.
  unfold parseUserDonations, withStored, ret.
  cbn [afterScrape userDonationsItem].
  destruct (userDonationsItem w); [ rewrite app_nil_r | | ]; reflexivity.
Qed.

Lemma mock_not_seeded :
  filter
    (fun donation =>
       negb
         (String.eqb (DonationData.source donation) "User Donation"
          && (String.eqb (DonationData.title donation)
                "School Supplies for Children"
              || String.eqb (DonationData.title donation) "Books")))
    mockFilipinoDonations = mockFilipinoDonations.
Proof. reflexivity. Qed.

Lemma fetchDonations_run (w : World) :
  cacheSound w ->
  exists w',
    fetchDonations w = (Ok (withStored mockFilipinoDonations w), w') /\
    cacheSound w' /\ userDonationsItem w' = userDonationsItem w /\
    (w' = w \/ w' = afterScrape w).
Proof.
  intro Hs.
  destruct (scrapeDonations_sound w Hs) as (w' & Hrun & Hs' & _ & Hitem & Hw).
  exists w'. split; [ | auto ].
  unfold fetchDonations, try_catch, bind. rewrite Hrun.
  rewrite mock_not_seeded.
  unfold parseUserDonations, withStored, ret. rewrite Hitem.
  destruct (userDonationsItem w); [ rewrite app_nil_r | | ]; reflexivity.
Qed.

(** X9. In a world whose cache, if any, holds the scraper's data,
    [fetchDonations] returns the six scraped campaigns followed by every
    stored user donation, none filtered out and in stored order; when the
    stored item is malformed it returns the empty list, the scraped
    campaigns included. *)
Theorem fetchDonations_scraped_then_stored :
  forall w : World,
    cacheSound w ->
    returned (fetchDonations w) = Some (withStored mockFilipinoDonations w) /\
    (forall l, userDonationsItem w = ItemDonations l ->
               returned (fetchDonations w)
               = Some (mockFilipinoDonations ++ l)) /\
    (userDonationsItem w = ItemMalformed ->
     returned (fetchDonations w) = Some []).
Proof.
  intros w Hs.
  destruct (fetchDonations_run w Hs) as (w' & Hrun & _).
  unfold returned. rewrite Hrun. cbn [fst].
  split; [ reflexivity | ]. unfold withStored.
  split; [ intros l Hl | intro Hl ]; rewrite Hl; reflexivity.
Qed.

Lemma storedWorld_sound : cacheSound storedWorld.
Proof.
  intros c Hc. injection Hc as <-.
  split; [ reflexivity | cbn; lia ].
Qed.

Lemma malformedWorld_sound : cacheSound malformedWorld.
Proof. intros c Hc. discriminate. Qed.

(** With two donations stored, the six campaigns come first and the two
    follow in stored order; with a malformed item nothing is returned. *)
Lemma fetchDonations_scraped_then_stored_witness :
  returned (fetchDonations storedWorld) =
  Some (mockFilipinoDonations
          ++ [reliefDonation "2023-01-01" None None; completedDonation]) /\
  returned (fetchDonations malformedWorld) = Some [].
Proof.
  split.
  - apply (proj1 (proj2 (fetchDonations_scraped_then_stored storedWorld
                           storedWorld_sound))).
    reflexivity.
  - apply (proj2 (proj2 (fetchDonations_scraped_then_stored malformedWorld
                           malformedWorld_sound))).
    reflexivity.
Defined.

(** ** Lookup by id, by category and by location scope *)

Lemma findById_id (id : string) (l : list DonationData.t) d :
  findById id l = Some d -> DonationData.id d = id /\ In d l.
Proof.
  unfold findById. intro H. apply find_some in H. destruct H as [Hin He].
  apply String.eqb_eq in He. split; assumption.
Qed.

Lemma scrapeDonationById_sound (id : string) (w : World) :
  cacheSound w ->
  exists w',
    scrapeDonationById id w = (Ok (findById id mockFilipinoDonations), w') /\
    cacheSound w' /\ userDonationsItem w' = userDonationsItem w.
Proof.
  intro Hs.
  destruct (scrapeDonations_sound w Hs) as (w' & Hrun & Hs' & _ & Hitem & _).
  assert (Hthen :
            (donations <- scrapeDonations ;; ret (findById id donations)) w
            = (Ok (findById id mockFilipinoDonations), w')).
  { unfold bind, ret. rewrite Hrun. reflexivity. }
  unfold scrapeDonationById, bind at 1 2, isCacheValid, getCache.
  destruct (scrapedDataCache w) as [c | ] eqn:Hc;
    cbv beta iota zeta; rewrite ?Hc.
  - destruct (Hs c Hc) as [Hd _].
    destruct (clock w - Cache.timestamp c <? 24 * 60 * 60 * 1000).
    + rewrite Hd.
      destruct (findById id mockFilipinoDonations) as [d | ] eqn:Hf.
      * exists w. unfold ret. auto.
      * exists w'. rewrite Hthen, ?Hf. auto.
    + exists w'. auto.
  - exists w'. auto.
Qed.

Lemma fetchDonationById_run (id : string) (w : World) :
  cacheSound w ->
  exists w',
    fetchDonationById id w =
    (Ok match findById id mockFilipinoDonations with
        | Some d => Some d
        | None => findById id (storedDonations w)
        end, w') /\
    cacheSound w'.
Proof.
  intro Hs.
  destruct (scrapeDonationById_sound id w Hs) as (w' & Hrun & Hs' & Hitem).
  exists w'. split; [ | exact Hs' ].
  unfold fetchDonationById, try_catch, bind. rewrite Hrun.
  destruct (findById id mockFilipinoDonations) as [d | ]; [ reflexivity | ].
  unfold parseUserDonations, storedDonations, ret. rewrite Hitem.
  destruct (userDonationsItem w); reflexivity.
Qed.



(** Whatever the world, a donation found by id has that id. *)
Lemma scrapeDonationById_id (id : string) (w w' : World) d :
  scrapeDonationById id w = (Ok (Some d), w') -> DonationData.id d = id.
Proof.
  unfold scrapeDonationById, bind at 1 2, isCacheValid, getCache.
  assert (Hthen :
            forall w0,
              (donations <- scrapeDonations ;; ret (findById id donations)) w0
              = (Ok (Some d), w') -> DonationData.id d = id).
  { intro w0. unfold bind, ret. rewrite scrapeDonations_run.
    destruct (scrapedDataCache w0) as [c | ];
      [ destruct (cacheFresh w0) | ];
      intro H;
      match type of H with
      | (Ok ?r, _) = _ => assert (Hr : r = Some d) by congruence
      end;
      apply findById_id in Hr; tauto. }
  destruct (scrapedDataCache w) as [c | ] eqn:Hc;
    cbv beta iota zeta; rewrite ?Hc.
  - destruct (clock w - Cache.timestamp c <? 24 * 60 * 60 * 1000).
    + destruct (findById id (Cache.data c)) as [d' | ] eqn:Hf.
      * unfold ret. intro H.
        assert (Heq : d' = d) by congruence. subst d'.
        apply findById_id in Hf. tauto.
      * apply Hthen.
    + apply Hthen.
  - apply Hthen.
Qed.

Lemma fetchDonationById_id (id : string) (w w' : World) d :
  fetchDonationById id w = (Ok (Some d), w') -> DonationData.id d = id.
Proof.
  unfold fetchDonationById, try_catch, bind.
  destruct (scrapeDonationById id w) as [[[d' | ] | ] w1] eqn:Hs.
  - unfold ret. intro H.
    assert (Heq : d' = d) by congruence. subst d'.
    eapply scrapeDonationById_id. exact Hs.
  - unfold parseUserDonations, ret.
    destruct (userDonationsItem w1) as [ | | l]; try discriminate.
    intro H.
    assert (Hr : findById id l = Some d) by congruence.
    apply findById_id in Hr. tauto.
  - unfold ret. discriminate.
Qed.

(** X11. Every result of [findRecipientsForDonation] names the donation
    that was asked for and one of the candidate recipients; every result
    of [findMatchesForRecipient] names the recipient who asked. *)
Theorem results_name_their_parties :
  forall (Date_parse : string -> option Z),
    (forall donationId userPreferences w,
        exists l,
          returned (findRecipientsForDonation donationId userPreferences w)
          = Some l /\
          Forall
            (fun m =>
               MatchResult.donationId m = donationId /\
               exists recipient,
                 In recipient userPreferences /\
                 MatchResult.recipientId m
                 = UserNeedsPreferences.userId recipient)
            l) /\
    (forall recipientNeeds w,
        exists l,
          returned (findMatchesForRecipient Date_parse recipientNeeds w)
          = Some l /\
          Forall
            (fun m =>
               MatchResult.recipientId m
               = UserNeedsPreferences.userId recipientNeeds)
            l).
Proof.
  intro Date_parse. split.
  - intros donationId userPreferences w.
    destruct (findRecipientsForDonation_run donationId userPreferences w)
      as (w' & [[_ Hrun] | (d & Hf & Hrun)]);
      eexists; unfold returned; rewrite Hrun;
      (split; [ reflexivity | ]).
    + constructor.
    + apply fetchDonationById_id in Hf.
      apply Forall_forall. intros m Hin.
      unfold recipientsAmong in Hin. apply rankMatches_In in Hin.
      destruct Hin as [Hin _]. apply in_map_iff in Hin.
      destruct Hin as (recipient & <- & Hr).
      split; [ exact Hf | ]. exists recipient. split; [ exact Hr | ].
      reflexivity.
  - intros recipientNeeds w.
    destruct (findMatchesForRecipient_run Date_parse recipientNeeds w)
      as (l & w' & Hrun).
    eexists. unfold returned. rewrite Hrun. split; [ reflexivity | ].
    apply Forall_forall. intros m Hin.
    unfold matchesAmong in Hin. apply rankMatches_In in Hin.
    destruct Hin as [Hin _]. apply in_map_iff in Hin.
    destruct Hin as (donation & <- & _). reflexivity.
Qed.

Lemma scrapeDonations_keeps_item (w : World) :
  exists l w',
    scrapeDonations w = (Ok l, w') /\
    userDonationsItem w' = userDonationsItem w.
Proof.
  rewrite scrapeDonations_run.
  destruct (scrapedDataCache w) as [c | ];
    [ destruct (cacheFresh w) | ]; eauto.
Qed.

(** X12. A malformed ["userDonations"] item empties the listings: in any
    world [fetchDonations], [fetchDonationsByLocationScope] and
    [findMatchesForRecipient] then return the empty list, the scraped
    campaigns being lost with the user donations. *)
Theorem malformed_storage_empties_listings :
  forall (Date_parse : string -> option Z) recipientNeeds locationScope
         userLocation (w : World),
    userDonationsItem w = ItemMalformed ->
    returned (fetchDonations w) = Some [] /\
    returned (fetchDonationsByLocationScope locationScope userLocation w)
    = Some [] /\
    returned (findMatchesForRecipient Date_parse recipientNeeds w) = Some [].
Proof.
  intros Date_parse recipientNeeds locationScope userLocation w Hbad.
  destruct (scrapeDonations_keeps_item w) as (l & w' & Hrun & Hitem).
  assert (Hfetch : fetchDonations w = (Ok [], w')).
  { unfold fetchDonations, try_catch, bind. rewrite Hrun.
    unfold parseUserDonations. rewrite Hitem, Hbad. reflexivity. }
  assert (Hscope :
            forall scope loc,
              fetchDonationsByLocationScope scope loc w = (Ok [], w')).
  { intros scope loc.
    unfold fetchDonationsByLocationScope, try_catch, bind. rewrite Hfetch.
    destruct loc; [ destruct (String.eqb scope "community") | ];
      reflexivity. }
  split; [ unfold returned; rewrite Hfetch; reflexivity | ].
  split; [ unfold returned; rewrite Hscope; reflexivity | ].
  unfold returned, findMatchesForRecipient, try_catch, bind.
  rewrite Hscope. reflexivity.
Qed.

Lemma malformed_storage_empties_listings_witness :
  returned
    (findMatchesForRecipient JSDate.parseDateOnly disasterNeeds
       (mkWorld None ItemMalformed 0)) = Some [].
Proof.
  apply (malformed_storage_empties_listings JSDate.parseDateOnly
           disasterNeeds "worldwide" None (mkWorld None ItemMalformed 0)).
  reflexivity.
Defined.

(** X13. [fetchDonationsByCategory] looks at the scraped campaigns only:
    in a world whose cache, if any, holds the scraper's data it returns
    the campaigns of that category, whatever is stored, so a stored user
    donation is never listed by category; it does not throw. *)
Theorem category_listing_ignores_storage :
  forall (category : string) (w : World),
    cacheSound w ->
    returned (fetchDonationsByCategory category w) =
    Some (filter
            (fun d => String.eqb (DonationData.category d) category)
            mockFilipinoDonations) /\
    (forall l d,
        userDonationsItem w = ItemDonations l -> In d l ->
        ~ In d mockFilipinoDonations ->
        exists listed,
          returned (fetchDonationsByCategory category w) = Some listed /\
          ~ In d listed).
Proof.
  intros category w Hs.
  destruct (scrapeDonations_sound w Hs) as (w' & Hrun & _).
  assert (Hret :
            returned (fetchDonationsByCategory category w) =
            Some (filter
                    (fun d => String.eqb (DonationData.category d) category)
                    mockFilipinoDonations)).
  { unfold returned, fetchDonationsByCategory, getDonationsByCategory,
      try_catch, bind, ret.
    rewrite Hrun. reflexivity. }
  split; [ exact Hret | ].
  intros l d _ _ Hnot. eexists. split; [ exact Hret | ].
  intro Hin. apply filter_In in Hin. tauto.
Qed.

(** The stored relief donation is of category "disaster" and is not
    listed under it: the listing holds the two campaigns only. *)
Lemma category_listing_ignores_storage_witness :
  DonationData.category (reliefDonation "2023-01-01" None None) = "disaster" /\
  In (reliefDonation "2023-01-01" None None) (storedDonations storedWorld) /\
  exists listed,
    returned (fetchDonationsByCategory "disaster" storedWorld) = Some listed /\
    ~ In (reliefDonation "2023-01-01" None None) listed /\
    map DonationData.id listed = ["PH-DON-001"; "PH-DON-006"].
Proof.
  split; [ reflexivity | ]. split; [ left; reflexivity | ].
  destruct (category_listing_ignores_storage "disaster" storedWorld
              storedWorld_sound) as [Hlisted Hstored].
  destruct (Hstored
              [reliefDonation "2023-01-01" None None; completedDonation]
              (reliefDonation "2023-01-01" None None))
    as (listed & Hl & Hnot).
  - reflexivity.
  - left. reflexivity.
  - unfold mockFilipinoDonations, reliefDonation. cbn [In].
    intro H.
    repeat (destruct H as [H | H]; [ discriminate H | ]). exact H.
  - exists listed. split; [ exact Hl | ]. split; [ exact Hnot | ].
    rewrite Hlisted in Hl. injection Hl as <-. reflexivity.
Defined.




(** X15. The 50 km test of the community scope.  A donation is dropped
    only when it and the user both have two nonzero coordinates and the
    distance between them is not a number at most 50: a donation without
    coordinates, or with a coordinate equal to 0, is always kept, and a
    user located on the equator or on the prime meridian is shown every
    donation. *)
Theorem community_test :
  forall (userLocation : Location.t) (donation : DonationData.t),
    (truthy (DonationData.latitude donation) = None \/
     truthy (DonationData.longitude donation) = None ->
     withinCommunity userLocation donation = true) /\
    (Location.latitude userLocation = 0%R \/
     Location.longitude userLocation = 0%R ->
     withinCommunity userLocation donation = true) /\
    (forall lat lon,
        truthy (DonationData.latitude donation) = Some lat ->
        truthy (DonationData.longitude donation) = Some lon ->
        Location.latitude userLocation <> 0%R ->
        Location.longitude userLocation <> 0%R ->
        (withinCommunity userLocation donation = true <->
         exists distance,
           calculateDistance (Location.latitude userLocation)
             (Location.longitude userLocation) lat lon = Some distance /\
           (distance <= 50)%R)).
Proof.
  intros userLocation donation. unfold withinCommunity.
  split; [ | split ].
  - intros [H | H]; rewrite H; [ reflexivity | ].
    destruct (truthy (DonationData.latitude donation)); reflexivity.
  - intros [H | H]; rewrite H, truthy_zero;
      destruct (truthy (DonationData.latitude donation));
      destruct (truthy (DonationData.longitude donation));
      try reflexivity;
      destruct (truthy (Some (Location.latitude userLocation)));
      reflexivity.
  - intros lat lon Hlat Hlon Hulat Hulon.
    rewrite Hlat, Hlon, !truthy_nonzero by assumption.
    destruct (calculateDistance _ _ _ _) as [distance | ].
    + destruct (Rle_dec distance 50) as [Hle | Hgt]; split.
      * intros _. exists distance. split; [ reflexivity | exact Hle ].
      * reflexivity.
      * discriminate.
      * intros (d' & Hd & Hle). injection Hd as <-. contradiction.
    + split; [ discriminate | ].
      intros (d' & Hd & _). discriminate.
Qed.

Lemma community_test_witness :
  withinCommunity (Location.mk 0 121)
    (reliefDonation "2023-01-01" (Some 14%R) (Some 121%R)) = true.
Proof.
  apply (community_test (Location.mk 0 121)
           (reliefDonation "2023-01-01" (Some 14%R) (Some 121%R))).
  left. reflexivity.
Defined.

(** ** The user's own donations *)

Section FindIndex.

Context {A : Type} (p : A -> bool).

Lemma findIndex_lower (l : list A) : -1 <= findIndex p l.
Proof.
  induction l as [ | x l IH]; cbn [findIndex]; [ lia | ].
  destruct (p x); [ lia | ].
  destruct (findIndex p l =? -1); lia.
Qed.

Lemma findIndex_absent (l : list A) :
  findIndex p l = -1 <-> Forall (fun x => p x = false) l.
Proof.
  induction l as [ | x l IH]; cbn [findIndex].
  - split; [ constructor | reflexivity ].
  - destruct (p x) eqn:Hx.
    + split; [ discriminate | ].
      intro H. inversion H; subst. congruence.
    + pose proof (findIndex_lower l) as Hlow.
      destruct (findIndex p l =? -1) eqn:He.
      * apply Z.eqb_eq in He. split; [ | reflexivity ].
        intros _. constructor; [ exact Hx | apply IH; exact He ].
      * apply Z.eqb_neq in He. split; [ lia | ].
        intro H. inversion H; subst. exfalso. apply He. apply IH. assumption.
Qed.

(** The index found is the place of the first element that satisfies
    [p]. *)
Lemma findIndex_found (l : list A) :
  findIndex p l <> -1 ->
  exists l1 x l2,
    l = l1 ++ x :: l2 /\ p x = true /\
    Forall (fun y => p y = false) l1 /\
    findIndex p l = Z.of_nat (List.length l1).
Proof.
  induction l as [ | x l IH]; cbn [findIndex]; [ congruence | ].
  destruct (p x) eqn:Hx.
  - intros _. exists [], x, l. repeat split; [ exact Hx | constructor ].
  - destruct (findIndex p l =? -1) eqn:He; [ congruence | ].
    apply Z.eqb_neq in He. intros _.
    destruct (IH He) as (l1 & y & l2 & -> & Hy & Hl1 & Hi).
    exists (x :: l1), y, l2. repeat split.
    + exact Hy.
    + constructor; assumption.
    + rewrite Hi. cbn [List.length]. lia.
Qed.

End FindIndex.

Lemma splice1_at {A : Type} (l1 : list A) (x : A) (l2 : list A) :
  splice1 (l1 ++ x :: l2) (Z.of_nat (List.length l1)) = l1 ++ l2.
Proof.
  unfold splice1. rewrite Nat2Z.id.
  rewrite firstn_app, Nat.sub_diag, firstn_all. cbn [firstn].
  rewrite app_nil_r. f_equal.
  rewrite skipn_app.
  replace (List.length l1 + 1 - List.length l1)%nat with 1%nat by lia.
  rewrite skipn_all2 by lia. reflexivity.
Qed.

Lemma setStatusAt_at l1 d l2 newStatus :
  setStatusAt (l1 ++ d :: l2) (List.length l1) newStatus =
  l1 ++ UserDonation.with_status d newStatus :: l2.
Proof.
  induction l1 as [ | x l1 IH]; cbn [app List.length setStatusAt];
    [ reflexivity | ].
  rewrite IH. reflexivity.
Qed.

Lemma isEntry_with_status donationId userId d newStatus :
  isEntry donationId userId (UserDonation.with_status d newStatus)
  = isEntry donationId userId d.
Proof. reflexivity. Qed.

Lemma findIndex_first {A : Type} (p : A -> bool) (l1 : list A) x l2 :
  Forall (fun y => p y = false) l1 -> p x = true ->
  findIndex p (l1 ++ x :: l2) = Z.of_nat (List.length l1).
Proof.
  intros Hl1 Hx. induction l1 as [ | y l1 IH]; cbn [app findIndex].
  - rewrite Hx. reflexivity.
  - inversion Hl1 as [ | ? ? Hy Hrest]; subst. rewrite Hy, (IH Hrest).
    destruct (Z.of_nat (List.length l1) =? -1) eqn:E;
      [ apply Z.eqb_eq in E; lia | ].
    cbn [List.length]. lia.
Qed.

(** The stored item holds no entry with that id and owner, or [d] is the
    first one. *)
Lemma locate_entry donationId userId (item : UserItem) :
  Forall (fun d => isEntry donationId userId d = false) (entriesOf item)
  \/
  (exists l1 d l2,
      item = UserItemDonations (l1 ++ d :: l2) /\
      isEntry donationId userId d = true /\
      Forall (fun y => isEntry donationId userId y = false) l1).
Proof.
  destruct item as [ | | l]; [ left; constructor | left; constructor | ].
  destruct (Z.eq_dec (findIndex (isEntry donationId userId) l) (-1))
    as [He | Hne].
  - left. apply findIndex_absent. exact He.
  - right. destruct (findIndex_found _ l Hne)
      as (l1 & d & l2 & -> & Hd & Hl1 & _).
    exists l1, d, l2. auto.
Qed.

Lemma deleteUserDonation_absent donationId userId item :
  Forall (fun d => isEntry donationId userId d = false) (entriesOf item) ->
  deleteUserDonation donationId userId item = (false, item).
Proof.
  intro Hnone. unfold deleteUserDonation.
  destruct item as [ | | l]; try reflexivity.
  cbn [parseUserItem entriesOf] in *. cbv zeta.
  fold (isEntry donationId userId).
  apply findIndex_absent in Hnone. rewrite Hnone. reflexivity.
Qed.

Lemma deleteUserDonation_first donationId userId l1 d l2 :
  isEntry donationId userId d = true ->
  Forall (fun y => isEntry donationId userId y = false) l1 ->
  deleteUserDonation donationId userId (UserItemDonations (l1 ++ d :: l2))
  = (true, UserItemDonations (l1 ++ l2)).
Proof.
  intros Hd Hl1. unfold deleteUserDonation. cbn [parseUserItem]. cbv zeta.
  fold (isEntry donationId userId).
  rewrite (findIndex_first _ l1 d l2 Hl1 Hd).
  destruct (Z.of_nat (List.length l1) =? -1) eqn:E;
    [ apply Z.eqb_eq in E; lia | ].
  rewrite splice1_at. reflexivity.
Qed.

Lemma updateUserDonationStatus_absent donationId userId newStatus item :
  Forall (fun d => isEntry donationId userId d = false) (entriesOf item) ->
  updateUserDonationStatus donationId userId newStatus item = (false, item).
Proof.
  intro Hnone. unfold updateUserDonationStatus.
  destruct item as [ | | l]; try reflexivity.
  cbn [parseUserItem entriesOf] in *. cbv zeta.
  fold (isEntry donationId userId).
  apply findIndex_absent in Hnone. rewrite Hnone. reflexivity.
Qed.

Lemma updateUserDonationStatus_first donationId userId newStatus l1 d l2 :
  isEntry donationId userId d = true ->
  Forall (fun y => isEntry donationId userId y = false) l1 ->
  updateUserDonationStatus donationId userId newStatus
    (UserItemDonations (l1 ++ d :: l2))
  = (true,
     UserItemDonations (l1 ++ UserDonation.with_status d newStatus :: l2)).
Proof.
  intros Hd Hl1. unfold updateUserDonationStatus. cbn [parseUserItem].
  cbv zeta. fold (isEntry donationId userId).
  rewrite (findIndex_first _ l1 d l2 Hl1 Hd).
  destruct (Z.of_nat (List.length l1) =? -1) eqn:E;
    [ apply Z.eqb_eq in E; lia | ].
  rewrite Nat2Z.id, setStatusAt_at. reflexivity.
Qed.

(** X16. [deleteUserDonation] either finds no entry with that id and
    owner, returns false and leaves storage as it is (also when the item
    is malformed), or returns true and removes the first such entry and
    nothing else: every other entry, a later copy of the same donation
    included, stays in place and in order. *)
Theorem deleteUserDonation_removes_first_entry :
  forall (donationId userId : string) (item : UserItem),
    (deleteUserDonation donationId userId item = (false, item) /\
     Forall (fun d => isEntry donationId userId d = false) (entriesOf item))
    \/
    (exists l1 d l2,
        item = UserItemDonations (l1 ++ d :: l2) /\
        isEntry donationId userId d = true /\
        Forall (fun y => isEntry donationId userId y = false) l1 /\
        deleteUserDonation donationId userId item
        = (true, UserItemDonations (l1 ++ l2))).
Proof.
  intros donationId userId item.
  destruct (locate_entry donationId userId item)
    as [Hnone | (l1 & d & l2 & -> & Hd & Hl1)].
  - left. split; [ apply deleteUserDonation_absent | ]; exact Hnone.
  - right. exists l1, d, l2. repeat split; try assumption.
    apply deleteUserDonation_first; assumption.
Qed.

(** X17. [updateUserDonationStatus] either finds no entry with that id
    and owner, returns false and leaves storage as it is, or returns true
    and changes the status of the first such entry and nothing else;
    repeating the update then changes nothing more. *)
Theorem updateUserDonationStatus_sets_first_entry :
  forall (donationId userId : string) (newStatus : Status.t)
         (item : UserItem),
    (updateUserDonationStatus donationId userId newStatus item
     = (false, item) /\
     Forall (fun d => isEntry donationId userId d = false) (entriesOf item))
    \/
    (exists l1 d l2,
        item = UserItemDonations (l1 ++ d :: l2) /\
        isEntry donationId userId d = true /\
        Forall (fun y => isEntry donationId userId y = false) l1 /\
        let item' :=
          UserItemDonations
            (l1 ++ UserDonation.with_status d newStatus :: l2) in
        updateUserDonationStatus donationId userId newStatus item
        = (true, item') /\
        updateUserDonationStatus donationId userId newStatus item'
        = (true, item')).
Proof.
  intros donationId userId newStatus item.
  destruct (locate_entry donationId userId item)
    as [Hnone | (l1 & d & l2 & -> & Hd & Hl1)].
  - left. split; [ apply updateUserDonationStatus_absent | ]; exact Hnone.
  - right. exists l1, d, l2. repeat split; try assumption.
    + apply updateUserDonationStatus_first; assumption.
    + rewrite (updateUserDonationStatus_first donationId userId newStatus
                 l1 (UserDonation.with_status d newStatus) l2);
        [ reflexivity | | exact Hl1 ].
      rewrite isEntry_with_status. exact Hd.
Qed.

Lemma ownedBy_other (d : UserDonation.t) (user other : string) :
  UserDonation.ownedBy d user = true -> other <> user ->
  UserDonation.ownedBy d other = false.
Proof.
  unfold UserDonation.ownedBy.
  destruct (UserDonation.userId d) as [u | ]; [ | discriminate ].
  intros Hu Hne. apply String.eqb_eq in Hu. subst u.
  apply String.eqb_neq. congruence.
Qed.

(** X21. What a user is shown of their own donations does not depend on
    what another user deletes or updates: [fetchUserDonations] for one
    user returns the same list before and after [deleteUserDonation] or
    [updateUserDonationStatus] is called for a different user. *)
Theorem other_users_unaffected :
  forall (donationId userId other : string) (newStatus : Status.t)
         (item : UserItem),
    other <> userId ->
    fetchUserDonations other
      (snd (deleteUserDonation donationId userId item))
    = fetchUserDonations other item /\
    fetchUserDonations other
      (snd (updateUserDonationStatus donationId userId newStatus item))
    = fetchUserDonations other item.
Proof.
  intros donationId userId other newStatus item Hne.
  destruct (locate_entry donationId userId item)
    as [Hnone | (l1 & d & l2 & -> & Hd & Hl1)].
  - rewrite (deleteUserDonation_absent _ _ _ Hnone).
    rewrite (updateUserDonationStatus_absent _ _ _ _ Hnone).
    split; reflexivity.
  - rewrite (deleteUserDonation_first _ _ l1 d l2 Hd Hl1).
    rewrite (updateUserDonationStatus_first _ _ newStatus l1 d l2 Hd Hl1).
    cbn [snd]. unfold fetchUserDonations. cbn [parseUserItem].
    rewrite !filter_app. cbn [filter].
    unfold isEntry in Hd. apply andb_true_iff in Hd. destruct Hd as [_ Hown].
    assert (Hother : UserDonation.ownedBy d other = false)
      by (apply (ownedBy_other d userId other Hown Hne)).
    assert (Hother' :
              UserDonation.ownedBy (UserDonation.with_status d newStatus)
                other = false) by exact Hother.
    rewrite Hother, Hother'. cbn [andb]. split; reflexivity.
Qed.

(** Two users with one stored donation each: the second user is shown
    their donation before and after the first deletes or completes
    theirs. *)
Lemma other_users_unaffected_witness :
  fetchUserDonations "U-2" twoOwners
  = [UserDonation.mk completedDonation (Some "U-2")] /\
  fetchUserDonations "U-2" (snd (deleteUserDonation "D-1" "U-1" twoOwners))
  = [UserDonation.mk completedDonation (Some "U-2")] /\
  fetchUserDonations "U-2"
    (snd (updateUserDonationStatus "D-1" "U-1" Status.completed twoOwners))
  = [UserDonation.mk completedDonation (Some "U-2")] /\
  fst (deleteUserDonation "D-1" "U-1" twoOwners) = true /\
  fst (updateUserDonationStatus "D-1" "U-1" Status.completed twoOwners)
  = true.
Proof.
  destruct (other_users_unaffected "D-1" "U-1" "U-2" Status.completed
              twoOwners) as [Hdelete Hupdate].
  - discriminate.
  - rewrite Hdelete, Hupdate. repeat split.
Defined.

(** What a submission by a known owner stores. *)
Lemma submitDonation_stores donationData storedUserId now item owner l :
  ownerOnSubmit donationData storedUserId = Some owner ->
  parseUserItem item = Ok l ->
  exists resolved stored,
    submitDonation donationData storedUserId now item
    = Some (resolved, UserItemDonations (l ++ [stored])) /\
    UserDonation.data stored = UserDonation.data donationData /\
    UserDonation.userId stored = Some owner /\
    (UserDonation.id donationData <> "" ->
     resolved = UserDonation.id donationData).
Proof.
  unfold ownerOnSubmit, submitDonation. intros Howner Hparse.
  assert (Hid :
            forall d : UserDonation.t,
              UserDonation.id d <> "" ->
              match truthyString (Some (UserDonation.id d)) with
              | Some id => id
              | None => ("DON-" ++ String_of_Z now)%string
              end = UserDonation.id d).
  { intros d Hne. cbn [truthyString].
    destruct (UserDonation.id d); [ contradiction | reflexivity ]. }
  destruct (truthyString (UserDonation.userId donationData)) as [u | ] eqn:Hown.
  - injection Howner as <-. cbv zeta. rewrite Hown, Hparse.
    do 2 eexists. split; [ reflexivity | ].
    split; [ reflexivity | ]. split; [ | apply Hid ].
    destruct (UserDonation.userId donationData) as [[ | c s] | ];
      try discriminate.
    cbn [truthyString] in Hown. exact Hown.
  - rewrite Howner. cbv zeta.
    assert (Ht : truthyString
                   (UserDonation.userId
                      (UserDonation.with_userId donationData owner))
                 = Some owner).
    { cbn [UserDonation.with_userId UserDonation.userId truthyString].
      destruct owner; [ | reflexivity ].
      destruct storedUserId as [[ | c s] | ]; discriminate. }
    rewrite Ht, Hparse.
    do 2 eexists. split; [ reflexivity | ].
    split; [ reflexivity | ]. split; [ reflexivity | ].
    exact (Hid (UserDonation.with_userId donationData owner)).
Qed.

(** X18. Edge cases of [submitDonation].  An anonymous submission (no
    [userId] of its own and none in local storage) is not stored, and
    resolves even when the stored item is malformed; a submission with an
    owner is appended after the stored entries, and never settles when
    the stored item is malformed.  The resolved id is the donation's id,
    or "DON-" followed by the current time when that id is empty. *)
Theorem submitDonation_edges :
  forall (donationData : UserDonation.t) (storedUserId : option string)
         (now : Z) (item : UserItem),
    (ownerOnSubmit donationData storedUserId = None ->
     exists resolved,
       submitDonation donationData storedUserId now item
       = Some (resolved, item)) /\
    (forall owner,
        ownerOnSubmit donationData storedUserId = Some owner ->
        item = UserItemMalformed ->
        submitDonation donationData storedUserId now item = None) /\
    (forall owner,
        ownerOnSubmit donationData storedUserId = Some owner ->
        item <> UserItemMalformed ->
        exists resolved stored,
          submitDonation donationData storedUserId now item
          = Some (resolved, UserItemDonations (entriesOf item ++ [stored])) /\
          UserDonation.data stored = UserDonation.data donationData /\
          UserDonation.userId stored = Some owner) /\
    (forall resolved item',
        submitDonation donationData storedUserId now item
        = Some (resolved, item') ->
        resolved =
        if String.eqb (UserDonation.id donationData) ""
        then ("DON-" ++ String_of_Z now)%string
        else UserDonation.id donationData).
Proof.
  intros donationData storedUserId now item.
  split; [ | split; [ | split ] ].
  - unfold ownerOnSubmit, submitDonation. intro Hanon.
    destruct (truthyString (UserDonation.userId donationData)) eqn:Hown;
      [ discriminate | ].
    rewrite Hanon. cbv zeta. rewrite Hown. eauto.
  - intros owner Howner ->.
    unfold ownerOnSubmit, submitDonation in *.
    destruct (truthyString (UserDonation.userId donationData)) as [u | ]
      eqn:Hown.
    + cbv zeta. rewrite Hown. reflexivity.
    + rewrite Howner. cbv zeta.
      cbn [UserDonation.with_userId UserDonation.userId truthyString].
      destruct owner; [ | reflexivity ].
      destruct storedUserId as [[ | c s] | ]; discriminate.
  - intros owner Howner Hok.
    assert (Hparse : parseUserItem item = Ok (entriesOf item))
      by (destruct item; [ reflexivity | contradiction | reflexivity ]).
    destruct (submitDonation_stores donationData storedUserId now item
                owner (entriesOf item) Howner Hparse)
      as (resolved & stored & Hs & Hdata & Hu & _).
    exists resolved, stored. auto.
  - intros resolved item'. unfold submitDonation. cbv zeta.
    assert (Hid :
              forall d : UserDonation.t,
                UserDonation.id d = UserDonation.id donationData ->
                match truthyString (Some (UserDonation.id d)) with
                | Some id => id
                | None => ("DON-" ++ String_of_Z now)%string
                end =
                if String.eqb (UserDonation.id donationData) ""
                then ("DON-" ++ String_of_Z now)%string
                else UserDonation.id donationData).
    { intros d ->. cbn [truthyString].
      destruct (UserDonation.id donationData); reflexivity. }
    set (d' := match truthyString (UserDonation.userId donationData),
                     truthyString storedUserId with
               | None, Some u => UserDonation.with_userId donationData u
               | _, _ => donationData
               end).
    assert (Hsame : UserDonation.id d' = UserDonation.id donationData).
    { unfold d'.
      destruct (truthyString (UserDonation.userId donationData));
        [ reflexivity | ].
      destruct (truthyString storedUserId); reflexivity. }
    rewrite (Hid d' Hsame).
    destruct (truthyString (UserDonation.userId d'));
      [ destruct (parseUserItem item); [ | discriminate ] | ];
      intro H; injection H as <- _; reflexivity.
Qed.

Lemma submitDonation_edges_witness :
  exists resolved,
    submitDonation
      (UserDonation.mk (reliefDonation "2023-01-01" None None) None)
      None jan1 UserItemMalformed
    = Some (resolved, UserItemMalformed).
Proof.
  apply (submitDonation_edges
           (UserDonation.mk (reliefDonation "2023-01-01" None None) None)
           None jan1 UserItemMalformed).
  reflexivity.
Defined.

(** What the form leaves in storage for a known owner: the donation,
    twice. *)
Lemma handleSubmit_stores_twice donationData storedUserId now item owner :
  ownerOnSubmit donationData storedUserId = Some owner ->
  item <> UserItemMalformed ->
  exists stored,
    handleSubmit donationData storedUserId now item
    = UserItemDonations (entriesOf item ++ [stored; stored]) /\
    (forall resolved item',
        submitDonation donationData storedUserId now item
        = Some (resolved, item') ->
        item' = UserItemDonations (entriesOf item ++ [stored])).
Proof.
  intros Howner Hok.
  assert (Hparse : parseUserItem item = Ok (entriesOf item))
    by (destruct item; [ reflexivity | contradiction | reflexivity ]).
  set (d' := match truthyString (UserDonation.userId donationData),
                   truthyString storedUserId with
             | None, Some u => UserDonation.with_userId donationData u
             | _, _ => donationData
             end).
  assert (Hd' : truthyString (UserDonation.userId d') = Some owner).
  { unfold d', ownerOnSubmit in *.
    destruct (truthyString (UserDonation.userId donationData)) as [u | ]
      eqn:Hown; [ congruence | ].
    rewrite Howner.
    cbn [UserDonation.with_userId UserDonation.userId truthyString].
    destruct owner; [ | reflexivity ].
    destruct storedUserId as [[ | c s] | ]; discriminate. }
  assert (Hagain :
            match truthyString (UserDonation.userId d'),
                  truthyString storedUserId with
            | None, Some u => UserDonation.with_userId d' u
            | _, _ => d'
            end = d') by (rewrite Hd'; reflexivity).
  exists d'. split.
  - unfold handleSubmit. rewrite Hparse. cbv zeta. fold d'.
    unfold submitDonation. cbv zeta. rewrite Hagain, Hd'.
    cbn [parseUserItem]. rewrite <- app_assoc. reflexivity.
  - intros resolved item'. unfold submitDonation. cbv zeta. fold d'.
    rewrite Hd', Hparse. intro H. injection H as _ <-. reflexivity.
Qed.

(** X19. Submit, then delete, when no stored entry has the id and owner
    of the donation.  Called by itself, [submitDonation] appends one
    entry and [deleteUserDonation] right after removes it, leaving the
    entries stored before.  Through the form, its only caller, the
    donation is stored twice, since [handleSubmit] saves it before it
    calls [submitDonation]: one [deleteUserDonation] leaves a copy, and a
    second one restores the storage. *)
Theorem submit_then_delete :
  forall (donationData : UserDonation.t) (storedUserId : option string)
         (now : Z) (item : UserItem) (owner : string),
    ownerOnSubmit donationData storedUserId = Some owner ->
    item <> UserItemMalformed ->
    Forall
      (fun d => isEntry (UserDonation.id donationData) owner d = false)
      (entriesOf item) ->
    exists resolved stored,
      UserDonation.data stored = UserDonation.data donationData /\
      UserDonation.userId stored = Some owner /\
      submitDonation donationData storedUserId now item
      = Some (resolved, UserItemDonations (entriesOf item ++ [stored])) /\
      deleteUserDonation (UserDonation.id donationData) owner
        (UserItemDonations (entriesOf item ++ [stored]))
      = (true, UserItemDonations (entriesOf item)) /\
      handleSubmit donationData storedUserId now item
      = UserItemDonations (entriesOf item ++ [stored; stored]) /\
      deleteUserDonation (UserDonation.id donationData) owner
        (UserItemDonations (entriesOf item ++ [stored; stored]))
      = (true, UserItemDonations (entriesOf item ++ [stored])).
Proof.
  intros donationData storedUserId now item owner Howner Hok Hfresh.
  assert (Hparse : parseUserItem item = Ok (entriesOf item))
    by (destruct item; [ reflexivity | contradiction | reflexivity ]).
  destruct (submitDonation_stores donationData storedUserId now item
              owner (entriesOf item) Howner Hparse)
    as (resolved & stored & Hs & Hdata & Hu & _).
  exists resolved, stored.
  assert (Hentry : isEntry (UserDonation.id donationData) owner stored = true).
  { unfold isEntry, UserDonation.id, UserDonation.ownedBy.
    rewrite Hdata, Hu, !String.eqb_refl. reflexivity. }
  split; [ exact Hdata | ]. split; [ exact Hu | ]. split; [ exact Hs | ].
  split.
  { rewrite (deleteUserDonation_first _ _ _ stored [] Hentry Hfresh).
    rewrite app_nil_r. reflexivity. }
  destruct (handleSubmit_stores_twice donationData storedUserId now item
              owner Howner Hok) as (stored' & Hform & Hsame).
  specialize (Hsame _ _ Hs). injection Hsame as Hsame.
  apply app_inv_head in Hsame. injection Hsame as <-.
  split; [ exact Hform | ].
  apply (deleteUserDonation_first _ _ _ stored [stored] Hentry Hfresh).
Qed.

(** The user "U-1" submits the relief donation while the storage holds a
    donation of the user "U-2". *)
Lemma submit_then_delete_witness :
  exists stored,
    handleSubmit
      (UserDonation.mk (reliefDonation "2023-01-01" None None) None)
      (Some "U-1") jan1
      (UserItemDonations [UserDonation.mk completedDonation (Some "U-2")])
    = UserItemDonations
        [UserDonation.mk completedDonation (Some "U-2"); stored; stored] /\
    deleteUserDonation "D-1" "U-1"
      (UserItemDonations
         [UserDonation.mk completedDonation (Some "U-2"); stored; stored])
    = (true,
       UserItemDonations
         [UserDonation.mk completedDonation (Some "U-2"); stored]) /\
    deleteUserDonation "D-1" "U-1"
      (UserItemDonations
         [UserDonation.mk completedDonation (Some "U-2"); stored])
    = (true,
       UserItemDonations [UserDonation.mk completedDonation (Some "U-2")]).
Proof.
  destruct (submit_then_delete
              (UserDonation.mk (reliefDonation "2023-01-01" None None) None)
              (Some "U-1") jan1
              (UserItemDonations
                 [UserDonation.mk completedDonation (Some "U-2")])
              "U-1")
    as (resolved & stored & _ & _ & _ & Hdirect & Hform & Hcopy).
  - reflexivity.
  - discriminate.
  - repeat constructor.
  - exists stored. split; [ exact Hform | ].
    split; [ exact Hcopy | exact Hdirect ].
Defined.

Lemma findById_after (id : string) (l1 l2 : list DonationData.t) :
  findById id l1 = None -> findById id (l1 ++ l2) = findById id l2.
Proof.
  unfold findById. induction l1 as [ | d l1 IH]; cbn [app find];
    [ reflexivity | ].
  destruct (String.eqb (DonationData.id d) id); [ discriminate | exact IH ].
Qed.

(** X20. Submit, then look up: in a world whose cache, if any, holds the
    scraper's data, a donation submitted by a known owner under an id
    that no scraped campaign and no stored donation uses is what
    [fetchDonationById] returns for that id afterwards. *)
Theorem submit_then_fetch :
  forall (donationData : UserDonation.t) (storedUserId : option string)
         (now : Z) (item : UserItem) (owner : string) (w : World),
    ownerOnSubmit donationData storedUserId = Some owner ->
    item <> UserItemMalformed ->
    cacheSound w ->
    findById (UserDonation.id donationData) mockFilipinoDonations = None ->
    findById (UserDonation.id donationData)
      (map UserDonation.data (entriesOf item)) = None ->
    exists resolved item',
      submitDonation donationData storedUserId now item
      = Some (resolved, item') /\
      (userDonationsItem w = forgetOwners item' ->
       returned (fetchDonationById (UserDonation.id donationData) w)
       = Some (Some (UserDonation.data donationData))).
Proof.
  intros donationData storedUserId now item owner w Howner Hok Hs Hmock Hnew.
  assert (Hparse : parseUserItem item = Ok (entriesOf item))
    by (destruct item; [ reflexivity | contradiction | reflexivity ]).
  destruct (submitDonation_stores donationData storedUserId now item
              owner (entriesOf item) Howner Hparse)
    as (resolved & stored & Hsub & Hdata & Hu & _).
  exists resolved, (UserItemDonations (entriesOf item ++ [stored])).
  split; [ exact Hsub | ].
  intro Hitem.
  destruct (fetchDonationById_run (UserDonation.id donationData) w Hs)
    as (w' & Hrun & _).
  unfold returned. rewrite Hrun. cbn [fst]. rewrite Hmock.
  unfold storedDonations. rewrite Hitem. cbn [forgetOwners].
  rewrite map_app, (findById_after _ _ _ Hnew). cbn [map].
  rewrite Hdata. unfold findById. cbn [find].
  unfold UserDonation.id. rewrite String.eqb_refl. reflexivity.
Qed.

Lemma submit_then_fetch_witness :
  exists resolved item',
    submitDonation
      (UserDonation.mk (reliefDonation "2023-01-01" None None) (Some "U-1"))
      None jan1 UserItemMissing
    = Some (resolved, item') /\
    (userDonationsItem
       (mkWorld None
          (ItemDonations [reliefDonation "2023-01-01" None None]) jan1)
     = forgetOwners item' ->
     returned
       (fetchDonationById "D-1"
          (mkWorld None
             (ItemDonations [reliefDonation "2023-01-01" None None]) jan1))
     = Some (Some (reliefDonation "2023-01-01" None None))).
Proof.
  apply (submit_then_fetch
           (UserDonation.mk (reliefDonation "2023-01-01" None None)
              (Some "U-1"))
           None jan1 UserItemMissing "U-1"
           (mkWorld None
              (ItemDonations [reliefDonation "2023-01-01" None None]) jan1)).
  - reflexivity.
  - discriminate.
  - intros c Hc. discriminate.
  - reflexivity.
  - reflexivity.
Defined.



(** ** The stages, stamps and progress of a timeline *)

(** X22. The stages of a timeline depend on the status and on the time
    elapsed.  A completed donation shows listed, matched and completed,
    whatever the date, the current time and the zone.  An active one
    shows the listed stage, and the matched stage once the date is valid
    and the wall clock has moved 12 hours past the listing; an urgent one
    shows listed, matched and urgent, and arranged once the wall clock
    has moved 24 and then 6 hours past the listing.  In a zone of fixed
    offset that is 12 and 30 hours of elapsed time; across a change to
    daylight-saving time, where the offset grows by an hour, the matched
    stage shows after 11 hours. *)
Theorem timeline_stages :
  forall (Date_parse : string -> option Z) (LocalTZA : Z -> bool -> Z)
         (now : Z) (donation : DonationData.t),
    let baseDate := Date_parse (DonationData.date donation) in
    let matchedDate := laterLocal LocalTZA baseDate (12 * 3600000) in
    let arrangedDate :=
      laterLocal LocalTZA (laterLocal LocalTZA baseDate (24 * 3600000))
        (6 * 3600000) in
    stagesOf (generateStatusTimeline Date_parse LocalTZA now donation) =
    match DonationData.status donation with
    | Status.active =>
        if JSDate.le matchedDate now
        then [Stage.active; Stage.matched] else [Stage.active]
    | Status.urgent =>
        if JSDate.le arrangedDate now
        then [Stage.active; Stage.matched; Stage.urgent; Stage.arranged]
        else [Stage.active; Stage.matched; Stage.urgent]
    | Status.completed => [Stage.active; Stage.matched; Stage.completed]
    end /\
    (forall t,
        baseDate = Some t ->
        - 8640000000000000 <= t <= 8640000000000000 - 30 * 3600000 ->
        (forall offset,
            (forall u isUTC, LocalTZA u isUTC = offset) ->
            matchedDate = Some (t + 12 * 3600000) /\
            arrangedDate = Some (t + 30 * 3600000)) /\
        (offsetGrowth LocalTZA t (12 * 3600000) = 3600000 ->
         matchedDate = Some (t + 11 * 3600000))) /\
    (baseDate = None -> matchedDate = None /\ arrangedDate = None).
Proof.
  intros Date_parse LocalTZA now donation baseDate matchedDate arrangedDate.
  split; [ | split ].
  - pose proof (generateStatusTimeline_stages Date_parse LocalTZA now
                  donation) as H.
    cbv zeta in H. rewrite H. fold baseDate. fold matchedDate.
    fold arrangedDate.
    destruct (DonationData.status donation); [ | reflexivity | ];
      destruct (JSDate.le _ now); reflexivity.
  - intros t Ht Hrange. split.
    + intros offset Hfixed. unfold matchedDate, arrangedDate.
      rewrite !(laterLocal_fixed LocalTZA offset) by exact Hfixed.
      rewrite Ht. unfold later.
      rewrite (TimeClip_in_range (t + 12 * 3600000)) by lia.
      rewrite (TimeClip_in_range (t + 24 * 3600000)) by lia.
      rewrite (TimeClip_in_range (t + 24 * 3600000 + 6 * 3600000)) by lia.
      split; [ reflexivity | f_equal; lia ].
    + intro Hgrowth. unfold matchedDate, laterLocal.
      rewrite Ht, Hgrowth.
      rewrite TimeClip_in_range by lia. f_equal. lia.
  - intro Hnone. unfold matchedDate, arrangedDate. rewrite Hnone.
    split; reflexivity.
Qed.

(** In New York the clocks went from 02:00 to 03:00 on 2023-03-12: a
    donation dated that day (19:00 the evening before, local time) shows
    the matched stage 11 hours later, and not a millisecond before.  In
    Manila the same donation shows it after 12 hours. *)
Lemma timeline_stages_witness :
  stagesOf
    (generateStatusTimeline JSDate.parseDateOnly newYork2023
       (mar12 + 11 * 3600000) (listedDonation "2023-03-12"))
  = [Stage.active; Stage.matched] /\
  stagesOf
    (generateStatusTimeline JSDate.parseDateOnly newYork2023
       (mar12 + 11 * 3600000 - 1) (listedDonation "2023-03-12"))
  = [Stage.active] /\
  stagesOf
    (generateStatusTimeline JSDate.parseDateOnly (JSDate.fixedOffset 28800000)
       (mar12 + 12 * 3600000 - 1) (listedDonation "2023-03-12"))
  = [Stage.active] /\
  stagesOf
    (generateStatusTimeline JSDate.parseDateOnly (JSDate.fixedOffset 28800000)
       (mar12 + 12 * 3600000) (listedDonation "2023-03-12"))
  = [Stage.active; Stage.matched].
Proof.
  split; [ | split; [ | split ] ].
  - rewrite (proj1 (timeline_stages JSDate.parseDateOnly newYork2023
                      (mar12 + 11 * 3600000) (listedDonation "2023-03-12"))).
    reflexivity.
  - rewrite (proj1 (timeline_stages JSDate.parseDateOnly newYork2023
                      (mar12 + 11 * 3600000 - 1)
                      (listedDonation "2023-03-12"))).
    reflexivity.
  - rewrite (proj1 (timeline_stages JSDate.parseDateOnly
                      (JSDate.fixedOffset 28800000)
                      (mar12 + 12 * 3600000 - 1)
                      (listedDonation "2023-03-12"))).
    reflexivity.
  - rewrite (proj1 (timeline_stages JSDate.parseDateOnly
                      (JSDate.fixedOffset 28800000)
                      (mar12 + 12 * 3600000)
                      (listedDonation "2023-03-12"))).
    reflexivity.
Defined.

(** X23. Every item of a timeline is stamped by its stage: the listed
    item with the date string of the donation as it is, the others with
    the formatted local day of the date whose wall-clock time is 12 hours
    (matched), 24 hours (urgent), 24 and then 6 hours (arranged) and 7
    days (completed) after the listing, or with "Invalid Date" when the
    date string is not a date.  In a zone of fixed offset these are the
    listing date plus 12, 24 and 30 hours and 7 days. *)
Theorem timeline_stamps :
  forall (Date_parse : string -> option Z) (LocalTZA : Z -> bool -> Z)
         (now : Z) (donation : DonationData.t),
    Forall
      (fun item =>
         StatusItem.timestamp item =
         stampOf LocalTZA (DonationData.date donation)
           (Date_parse (DonationData.date donation))
           (StatusItem.status item))
      (generateStatusTimeline Date_parse LocalTZA now donation) /\
    (Date_parse (DonationData.date donation) = None ->
     forall stage,
       stage <> Stage.active ->
       stampOf LocalTZA (DonationData.date donation)
         (Date_parse (DonationData.date donation)) stage
       = "Invalid Date") /\
    (forall offset date baseDate,
        (forall t isUTC, LocalTZA t isUTC = offset) ->
        forall stage,
          stampOf LocalTZA date baseDate stage =
          match stage with
          | Stage.active => date
          | Stage.matched =>
              JSDate.toLocaleDateString LocalTZA
                (later baseDate (12 * 3600000))
          | Stage.urgent =>
              JSDate.toLocaleDateString LocalTZA
                (later baseDate (24 * 3600000))
          | Stage.arranged =>
              JSDate.toLocaleDateString LocalTZA
                (later (later baseDate (24 * 3600000)) (6 * 3600000))
          | Stage.completed =>
              JSDate.toLocaleDateString LocalTZA
                (later baseDate (7 * 86400000))
          end).
Proof.
  intros Date_parse LocalTZA now donation. split; [ | split ].
  - pose proof (generateStatusTimeline_stages Date_parse LocalTZA now
                  donation) as H.
    cbv zeta in H. rewrite H.
    destruct (DonationData.status donation);
      [ destruct (JSDate.le _ now) | | destruct (JSDate.le _ now) ];
      repeat constructor.
  - intros Hnone stage Hstage. rewrite Hnone.
    destruct stage; [ contradiction | | | | ]; reflexivity.
  - intros offset date baseDate Hfixed stage.
    destruct stage; unfold stampOf;
      rewrite ?(laterLocal_fixed LocalTZA offset) by exact Hfixed;
      reflexivity.
Qed.


(** ** The dashboard's list *)

Lemma findIndex_in_prefix {A : Type} (p : A -> bool) (l1 l2 : list A) :
  existsb p l1 = true ->
  0 <= findIndex p (l1 ++ l2) < Z.of_nat (List.length l1).
Proof.
  induction l1 as [ | x l1 IH]; cbn [existsb app findIndex List.length];
    [ discriminate | ].
  destruct (p x); [ lia | ].
  cbn [orb]. intro H. specialize (IH H).
  destruct (findIndex p (l1 ++ l2) =? -1) eqn:E;
    [ apply Z.eqb_eq in E; lia | lia ].
Qed.

Lemma findIndex_after_prefix {A : Type} (p : A -> bool) (l1 : list A) x l2 :
  existsb p l1 = false -> p x = true ->
  findIndex p (l1 ++ x :: l2) = Z.of_nat (List.length l1).
Proof.
  induction l1 as [ | y l1 IH]; cbn [existsb app findIndex List.length].
  - intros _ ->. reflexivity.
  - intros H Hx. apply orb_false_iff in H. destruct H as [Hy Hl1].
    rewrite Hy, (IH Hl1 Hx).
    destruct (Z.of_nat (List.length l1) =? -1) eqn:E;
      [ apply Z.eqb_eq in E; lia | lia ].
Qed.

Lemma uniqueById_from (seen rest : list DonationData.t) :
  filterFrom
    (fun donation index =>
       index =?
       findIndex
         (fun d => String.eqb (DonationData.id d) (DonationData.id donation))
         (seen ++ rest))
    (Z.of_nat (List.length seen)) rest
  = keepFirst seen rest.
Proof.
  revert seen. induction rest as [ | x rest IH]; intro seen;
    [ reflexivity | ].
  cbn [filterFrom keepFirst].
  assert (Hnext :
            filterFrom
              (fun donation index =>
                 index =?
                 findIndex
                   (fun d =>
                      String.eqb (DonationData.id d)
                        (DonationData.id donation))
                   (seen ++ x :: rest))
              (Z.of_nat (List.length seen) + 1) rest
            = keepFirst (seen ++ [x]) rest).
  { rewrite <- IH. rewrite <- app_assoc. cbn [app].
    rewrite length_app. cbn [List.length].
    replace (Z.of_nat (List.length seen + 1))
      with (Z.of_nat (List.length seen) + 1) by lia.
    reflexivity. }
  rewrite Hnext.
  destruct (existsb
              (fun d => String.eqb (DonationData.id d) (DonationData.id x))
              seen) eqn:Hseen.
  - pose proof (findIndex_in_prefix _ seen (x :: rest) Hseen) as Hlt.
    destruct (Z.of_nat (List.length seen) =? _) eqn:E;
      [ apply Z.eqb_eq in E; lia | reflexivity ].
  - rewrite (findIndex_after_prefix _ seen x rest Hseen)
      by apply String.eqb_refl.
    rewrite Z.eqb_refl. reflexivity.
Qed.

Lemma uniqueById_keepFirst (donations : list DonationData.t) :
  uniqueById donations = keepFirst [] donations.
Proof.
  unfold uniqueById, filterWithIndex.
  exact (uniqueById_from [] donations).
Qed.

Lemma keepFirst_unseen (seen rest : list DonationData.t) d :
  In d (keepFirst seen rest) ->
  In d rest /\
  existsb (fun e => String.eqb (DonationData.id e) (DonationData.id d)) seen
  = false.
Proof.
  revert seen. induction rest as [ | x rest IH]; intros seen Hin;
    [ destruct Hin | ].
  cbn [keepFirst] in Hin.
  assert (Hrec :
            In d (keepFirst (seen ++ [x]) rest) ->
            In d (x :: rest) /\
            existsb
              (fun e => String.eqb (DonationData.id e) (DonationData.id d))
              seen = false).
  { intro H. apply IH in H. destruct H as [H1 H2].
    rewrite existsb_app in H2. apply orb_false_iff in H2.
    split; [ right; exact H1 | tauto ]. }
  destruct (existsb _ seen) eqn:Hseen.
  - apply Hrec. exact Hin.
  - destruct Hin as [<- | Hin]; [ | apply Hrec; exact Hin ].
    split; [ left; reflexivity | exact Hseen ].
Qed.

Lemma keepFirst_NoDup (seen rest : list DonationData.t) :
  NoDup (map DonationData.id (keepFirst seen rest)).
Proof.
  revert seen. induction rest as [ | x rest IH]; intro seen;
    cbn [keepFirst]; [ constructor | ].
  destruct (existsb _ seen); [ apply IH | ].
  cbn [map]. constructor; [ | apply IH ].
  intro Hin. apply in_map_iff in Hin. destruct Hin as (d & Hid & Hd).
  apply keepFirst_unseen in Hd. destruct Hd as [_ Hd].
  rewrite existsb_app in Hd. apply orb_false_iff in Hd.
  destruct Hd as [_ Hd]. cbn [existsb] in Hd.
  rewrite Hid, String.eqb_refl in Hd. discriminate.
Qed.

Lemma keepFirst_findById (id : string) (seen rest : list DonationData.t) :
  existsb (fun e => String.eqb (DonationData.id e) id) seen = false ->
  findById id (keepFirst seen rest) = findById id rest.
Proof.
  revert seen. induction rest as [ | x rest IH]; intros seen Hseen;
    [ reflexivity | ].
  cbn [keepFirst]. unfold findById in *. cbn [find].
  destruct (String.eqb (DonationData.id x) id) eqn:Hx.
  - apply String.eqb_eq in Hx. subst id. rewrite Hseen.
    cbn [find]. rewrite String.eqb_refl. reflexivity.
  - assert (Hseen' :
              existsb (fun e => String.eqb (DonationData.id e) id)
                (seen ++ [x]) = false).
    { rewrite existsb_app, Hseen. cbn [existsb]. rewrite Hx. reflexivity. }
    destruct (existsb
                (fun d =>
                   String.eqb (DonationData.id d) (DonationData.id x))
                seen); [ apply IH; exact Hseen' | ].
    cbn [find]. rewrite Hx. apply IH. exact Hseen'.
Qed.

Lemma dashboard_unique_lemma (donations : list DonationData.t) :
  NoDup (map DonationData.id (uniqueById donations)) /\
  (forall d, In d (uniqueById donations) -> In d donations) /\
  (forall id, findById id (uniqueById donations) = findById id donations).
Proof.
  rewrite uniqueById_keepFirst.
  split; [ apply keepFirst_NoDup | split ].
  - intros d Hd. apply keepFirst_unseen in Hd. tauto.
  - intro id. apply keepFirst_findById. reflexivity.
Qed.

(** X25. The dashboard lists one donation per id, the first of each:
    after the first filter no two donations share an id, every donation
    kept comes from the input, and looking an id up gives the same
    donation as in the input. *)
Theorem dashboard_unique_ids :
  forall donations : list DonationData.t,
    NoDup (map DonationData.id (uniqueById donations)) /\
    (forall d, In d (uniqueById donations) -> In d donations) /\
    (forall id, findById id (uniqueById donations) = findById id donations).
Proof.
  intro donations. apply dashboard_unique_lemma.
Qed.

Lemma NoDup_map_filter {A B : Type} (f : A -> B) (p : A -> bool) l :
  NoDup (map f l) -> NoDup (map f (filter p l)).
Proof.
  induction l as [ | x l IH]; cbn [map filter]; [ trivial | ].
  intro H. inversion H as [ | ? ? Hx Hl]; subst.
  destruct (p x); [ | apply IH; exact Hl ].
  cbn [map]. constructor; [ | apply IH; exact Hl ].
  intro Hin. apply Hx. apply in_map_iff in Hin.
  destruct Hin as (y & Hy & Hin). apply filter_In in Hin.
  apply in_map_iff. exists y. tauto.
Qed.

(** X26. The dashboard's filtered list never shows an id twice; with the
    tab "all", no search text and the category "all" it is the list of
    first occurrences, and with another tab or category every donation
    shown has that status or that category. *)
Theorem dashboard_filters :
  forall (toLowerCase : string -> string)
         (activeTab searchQuery categoryFilter : string)
         (donations : list DonationData.t),
    NoDup
      (map DonationData.id
         (filteredDonations toLowerCase activeTab searchQuery categoryFilter
            donations)) /\
    filteredDonations toLowerCase "all" "" "all" donations
    = uniqueById donations /\
    Forall
      (fun d =>
         In d donations /\
         (activeTab <> "all" ->
          statusName (DonationData.status d) = activeTab) /\
         (categoryFilter <> "all" ->
          DonationData.category d = categoryFilter))
      (filteredDonations toLowerCase activeTab searchQuery categoryFilter
         donations).
Proof.
  intros toLowerCase activeTab searchQuery categoryFilter donations.
  unfold filteredDonations.
  destruct (dashboard_unique_lemma donations) as (Hnodup & Hin & _).
  split; [ apply NoDup_map_filter; exact Hnodup | split ].
  - assert (Hall : forall d, passesFilters toLowerCase "all" "" "all" d = true)
      by reflexivity.
    clear Hnodup Hin. generalize (uniqueById donations). intro l.
    induction l as [ | d l IH]; [ reflexivity | ].
    cbn [filter]. rewrite Hall, IH. reflexivity.
  - apply Forall_forall. intros d Hd. apply filter_In in Hd.
    destruct Hd as [Hd Hpass]. split; [ apply Hin; exact Hd | ].
    unfold passesFilters in Hpass.
    split.
    + intro Htab.
      destruct (String.eqb activeTab "all") eqn:E;
        [ apply String.eqb_eq in E; contradiction | ].
      destruct (String.eqb (statusName (DonationData.status d)) activeTab)
        eqn:Es; [ apply String.eqb_eq in Es; exact Es | ].
      cbn in Hpass. discriminate.
    + intro Hcat.
      destruct (negb (String.eqb activeTab "all")
                && negb (String.eqb (statusName (DonationData.status d))
                           activeTab)); [ discriminate | ].
      match type of Hpass with
      | (if ?c then _ else _) = true => destruct c; [ discriminate | ]
      end.
      destruct (String.eqb categoryFilter "all") eqn:E;
        [ apply String.eqb_eq in E; contradiction | ].
      destruct (String.eqb (DonationData.category d) categoryFilter) eqn:Ec;
        [ apply String.eqb_eq in Ec; exact Ec | ].
      cbn in Hpass. discriminate.
Qed.
